(** * nebula-go session layer: wire value codec, retry loop, reconnect loop

    A shallow embedding of [session.go] (package [nebula_go]) and the
    properties of its natural-language specification.

    - Go [int], [int64] and [time.Duration] are [Z]; the one place where the
      code adds to a counter ([retryTime += 1]) wraps at 64 bits.
    - [float64] and [float32] are modelled by their exact dyadic values,
      with IEEE comparison and round-to-nearest-even conversion from
      integers written out.
    - A Go [error] is [option error] ([None] is [nil]); pointers that the
      code tests against [nil] are [option]s.
    - Everything outside the session (transport, pools, clock, logger) is an
      environment: the session's effects are recorded in a trace of events
      and the environment answers the n-th call of each kind.
    - [sync.Mutex]: the embedding is sequential, so [Lock]/[Unlock] pairs
      (always balanced through [defer]) are not modelled. *)

From Stdlib Require Import ZArith List String Ascii Bool Lia DecimalString.
From Stdlib Require Floats.SpecFloat.
Import ListNotations.
Set Warnings "-register-all".
Local Open Scope string_scope.
Local Open Scope list_scope.
Local Open Scope Z_scope.

(* ===================================================================== *)
(** ** Machine integers *)

Definition int64_min : Z := - 2 ^ 63.
Definition int64_max : Z := 2 ^ 63 - 1.

Definition in_int64 (z : Z) : bool := (int64_min <=? z) && (z <=? int64_max).

(** Two's-complement wrap-around of a 64-bit signed integer. *)
Definition wrap_int64 (z : Z) : Z := (z + 2 ^ 63) mod 2 ^ 64 - 2 ^ 63.

(** [x += 1] on a Go [int] (64 bits on the supported platforms). *)
Definition int_incr (x : Z) : Z := wrap_int64 (x + 1).

(* ===================================================================== *)
(** ** Floating point values

    A float is NaN, an infinity, or a finite value [(-1)^neg * m * 2^e].
    Signed zeros are the finite values with [m = 0]. *)

Inductive float : Type :=
| F_nan : float
| F_inf (neg : bool) : float
| F_fin (neg : bool) (m : Z) (e : Z) : float.

(** Well-formed finite values of a binary format with [prec] significant
    bits and exponents of the unit in the last place in [emin .. emax]. *)
Definition float_valid (prec emin emax : Z) (f : float) : Prop :=
  match f with
  | F_fin _ m e => 0 <= m < 2 ^ prec /\ emin <= e <= emax
  | _ => True
  end.

Definition valid_float64 : float -> Prop := float_valid 53 (-1074) 971.
Definition valid_float32 : float -> Prop := float_valid 24 (-149) 104.

(** The finite value has no fractional part. *)
Definition float_integral (f : float) : Prop :=
  match f with
  | F_fin _ m e => 0 <= e \/ (e < 0 /\ m mod 2 ^ (- e) = 0)
  | _ => False
  end.

(** The finite value has a nonzero fractional part. *)
Definition float_fractional (f : float) : Prop :=
  match f with
  | F_fin _ m e => e < 0 /\ m mod 2 ^ (- e) <> 0
  | _ => False
  end.

(** The integer part (truncation toward zero) of a finite value. *)
Definition float_trunc (f : float) : option Z :=
  match f with
  | F_fin neg m e =>
      let a := if 0 <=? e then m * 2 ^ e else m / 2 ^ (- e) in
      Some (if neg then - a else a)
  | _ => None
  end.

(** IEEE [==]: NaN differs from everything, zeros are equal whatever their
    sign, other finite values are compared exactly. *)
Definition float_eqb (f g : float) : bool :=
  match f, g with
  | F_inf s1, F_inf s2 => Bool.eqb s1 s2
  | F_fin s1 m1 e1, F_fin s2 m2 e2 =>
      let e := Z.min e1 e2 in
      let a := m1 * 2 ^ (e1 - e) in
      let b := m2 * 2 ^ (e2 - e) in
      ((a =? 0) && (b =? 0)) || (Bool.eqb s1 s2 && (a =? b))
  | _, _ => false
  end.

(** Conversion of an integer to a float with [prec] significant bits,
    rounding to nearest, ties to even (an [int64] never overflows the
    exponent range of either format). *)
Definition float_of_Z (prec : Z) (z : Z) : float :=
  let a := Z.abs z in
  let k := Z.log2 a + 1 - prec in
  if k <=? 0 then F_fin (z <? 0) a 0
  else
    let q := a / 2 ^ k in
    let r := a mod 2 ^ k in
    let half := 2 ^ (k - 1) in
    let q' := if (half <? r) || ((r =? half) && Z.odd q) then q + 1 else q in
    F_fin (z <? 0) q' k.

(** The values of the Standard Library's specification of IEEE 754, to
    compare [float_of_Z] with its rounding. *)
Definition of_spec_float (x : SpecFloat.spec_float) : float :=
  match x with
  | SpecFloat.S754_zero s => F_fin s 0 0
  | SpecFloat.S754_infinity s => F_inf s
  | SpecFloat.S754_nan => F_nan
  | SpecFloat.S754_finite s m e => F_fin s (Z.pos m) e
  end.

(* ===================================================================== *)
(** ** Wire values ([nebula.Value], a thrift union)

    The generated struct has one optional field per variant.  The variants
    that [session.go] never sets (vertex, edge, path, set, data set) are
    kept in one opaque field. *)

Inductive NullType : Type := NullType___NULL__.

Record Date : Type := mkDate { Year : Z; Month : Z; Day : Z }.
Record Time : Type := mkTime { Hour : Z; Minute : Z; Sec : Z; Microsec : Z }.
Record DateTime : Type := mkDateTime { dt_date : Date; dt_time : Time }.
Record Duration : Type := mkDuration { Seconds : Z; Microseconds : Z; Months : Z }.
Record Geography : Type := mkGeography { wkb : string }.

Inductive Value : Type :=
  mkValue (NVal : option NullType) (BVal : option bool) (IVal : option Z)
          (FVal : option float) (SVal : option string)
          (DVal : option Date) (TVal : option Time) (DtVal : option DateTime)
          (LVal : option NList) (MVal : option NMap)
          (GgVal : option Geography) (DuVal : option Duration)
          (OtherVal : option string)
with NList : Type := mkNList (Values : list Value)
with NMap : Type := mkNMap (Kvs : list (string * Value)).

Definition NVal (v : Value) := let 'mkValue x _ _ _ _ _ _ _ _ _ _ _ _ := v in x.
Definition BVal (v : Value) := let 'mkValue _ x _ _ _ _ _ _ _ _ _ _ _ := v in x.
Definition IVal (v : Value) := let 'mkValue _ _ x _ _ _ _ _ _ _ _ _ _ := v in x.
Definition FVal (v : Value) := let 'mkValue _ _ _ x _ _ _ _ _ _ _ _ _ := v in x.
Definition SVal (v : Value) := let 'mkValue _ _ _ _ x _ _ _ _ _ _ _ _ := v in x.
Definition DVal (v : Value) := let 'mkValue _ _ _ _ _ x _ _ _ _ _ _ _ := v in x.
Definition TVal (v : Value) := let 'mkValue _ _ _ _ _ _ x _ _ _ _ _ _ := v in x.
Definition DtVal (v : Value) := let 'mkValue _ _ _ _ _ _ _ x _ _ _ _ _ := v in x.
Definition LVal (v : Value) := let 'mkValue _ _ _ _ _ _ _ _ x _ _ _ _ := v in x.
Definition MVal (v : Value) := let 'mkValue _ _ _ _ _ _ _ _ _ x _ _ _ := v in x.
Definition GgVal (v : Value) := let 'mkValue _ _ _ _ _ _ _ _ _ _ x _ _ := v in x.
Definition DuVal (v : Value) := let 'mkValue _ _ _ _ _ _ _ _ _ _ _ x _ := v in x.

(** [nebula.NewValue()]: no variant populated. *)
Definition NewValue : Value :=
  mkValue None None None None None None None None None None None None None.

Definition set_BVal (v : Value) (b : bool) : Value :=
  let 'mkValue n _ i f s d t dt l m g du o := v in mkValue n (Some b) i f s d t dt l m g du o.
Definition set_IVal (v : Value) (z : Z) : Value :=
  let 'mkValue n b _ f s d t dt l m g du o := v in mkValue n b (Some z) f s d t dt l m g du o.
Definition set_FVal (v : Value) (x : float) : Value :=
  let 'mkValue n b i _ s d t dt l m g du o := v in mkValue n b i (Some x) s d t dt l m g du o.
Definition set_SVal (v : Value) (x : string) : Value :=
  let 'mkValue n b i f _ d t dt l m g du o := v in mkValue n b i f (Some x) d t dt l m g du o.
Definition set_NVal (v : Value) (x : NullType) : Value :=
  let 'mkValue _ b i f s d t dt l m g du o := v in mkValue (Some x) b i f s d t dt l m g du o.
(** [value.LVal = nv] and [value.MVal = nv] store the pointer, [nil] included. *)
Definition set_LVal (v : Value) (x : option NList) : Value :=
  let 'mkValue n b i f s d t dt _ m g du o := v in mkValue n b i f s d t dt x m g du o.
Definition set_MVal (v : Value) (x : option NMap) : Value :=
  let 'mkValue n b i f s d t dt l _ g du o := v in mkValue n b i f s d t dt l x g du o.
Definition SetDVal (v : Value) (x : Date) : Value :=
  let 'mkValue n b i f s _ t dt l m g du o := v in mkValue n b i f s (Some x) t dt l m g du o.
Definition SetDtVal (v : Value) (x : DateTime) : Value :=
  let 'mkValue n b i f s d t _ l m g du o := v in mkValue n b i f s d t (Some x) l m g du o.
Definition SetDuVal (v : Value) (x : Duration) : Value :=
  let 'mkValue n b i f s d t dt l m g _ o := v in mkValue n b i f s d t dt l m g (Some x) o.
Definition SetTVal (v : Value) (x : Time) : Value :=
  let 'mkValue n b i f s d _ dt l m g du o := v in mkValue n b i f s d (Some x) dt l m g du o.
Definition SetGgVal (v : Value) (x : Geography) : Value :=
  let 'mkValue n b i f s d t dt l m _ du o := v in mkValue n b i f s d t dt l m (Some x) du o.

(** The variant a value carries, for statements about "which variant". *)
Inductive Variant : Type :=
| VarNone | VarNull | VarBool | VarInt | VarDouble | VarString
| VarDate | VarTime | VarDateTime | VarList | VarMap | VarGeography
| VarDuration | VarOther | VarSeveral.

Definition is_some {A} (o : option A) : bool :=
  match o with Some _ => true | None => false end.

Definition variant_of (v : Value) : Variant :=
  let 'mkValue n b i f s d t dt l m g du o := v in
  let tags :=
    (if is_some n then [VarNull] else []) ++ (if is_some b then [VarBool] else []) ++
    (if is_some i then [VarInt] else []) ++ (if is_some f then [VarDouble] else []) ++
    (if is_some s then [VarString] else []) ++ (if is_some d then [VarDate] else []) ++
    (if is_some t then [VarTime] else []) ++ (if is_some dt then [VarDateTime] else []) ++
    (if is_some l then [VarList] else []) ++ (if is_some m then [VarMap] else []) ++
    (if is_some g then [VarGeography] else []) ++ (if is_some du then [VarDuration] else []) ++
    (if is_some o then [VarOther] else []) in
  match tags with
  | [] => VarNone
  | [x] => x
  | _ => VarSeveral
  end.

(* ===================================================================== *)
(** ** Errors *)

(** A non-nil Go [error]: either one whose dynamic type implements
    [thrift.TransportException], or any other error value. *)
Inductive error : Type :=
| TransportException (msg : string)
| PlainError (msg : string).

(** [err.Error()] *)
Definition Error (e : error) : string :=
  match e with TransportException m => m | PlainError m => m end.

(** [_, ok := err.(thrift.TransportException)] on a possibly nil [err]. *)
Definition is_TransportException (err : option error) : bool :=
  match err with Some (TransportException _) => true | _ => false end.

(* ===================================================================== *)
(** ** Host values ([interface{}])

    One constructor per dynamic type that [value2Nvalue] tests for; every
    other dynamic type is [GoOther], carrying what [%T] prints for it.
    A Go map has no iteration order of its own: a [GoMap] lists its
    entries in the order in which [range] happens to deliver them. *)

Inductive GoValue : Type :=
| GoBool (b : bool)
| GoInt (i : Z)
| GoFloat64 (f : float)
| GoFloat32 (f : float)
| GoString (s : string)
| GoNil
| GoSlice (l : list GoValue)
| GoMap (m : list (string * GoValue))
| GoNebulaValue (v : Value)
| GoDate (d : Date)
| GoDateTime (d : DateTime)
| GoDuration (d : Duration)
| GoTime (t : Time)
| GoGeography (g : Geography)
| GoOther (type_name : string).


(** [m[k] = v] on a map kept as an association list. *)
Fixpoint map_store {A} (k : string) (v : A) (m : list (string * A)) : list (string * A) :=
  match m with
  | [] => [(k, v)]
  | (k', v') :: rest =>
      if String.eqb k k' then (k, v) :: rest else (k', v') :: map_store k v rest
  end.

Fixpoint map_lookup {A} (k : string) (m : list (string * A)) : option A :=
  match m with
  | [] => None
  | (k', v) :: rest => if String.eqb k k' then Some v else map_lookup k rest
  end.

(** A value of an unsupported dynamic type occurs in [any], at any depth
    of lists and maps. *)
Fixpoint unsupported_in (any : GoValue) : bool :=
  match any with
  | GoOther _ => true
  | GoSlice l => existsb unsupported_in l
  | GoMap m => existsb (fun kv => unsupported_in (snd kv)) m
  | _ => false
  end.

(* ===================================================================== *)
(** ** The wire value codec *)

Section Codec.

(** Go leaves the result of converting a float to [int64] to the
    implementation when the value is NaN, infinite or out of range;
    [int64_unrepresentable] is what the platform yields there. *)
Variable int64_unrepresentable : float -> Z.

(** What [parseParams] makes of the error of the element it fails on (the
    error itself, or one that wraps it). *)
Variable parse_error : error -> error.

(** [int64(v)] for a float [v]. *)
Definition int64_of_float (v : float) : Z :=
  match float_trunc v with
  | Some z => if in_int64 z then z else int64_unrepresentable v
  | None => int64_unrepresentable v
  end.

(** [float64(z)] and [float32(z)] for an [int64] [z]. *)
Definition float64_of_int64 (z : Z) : float := float_of_Z 53 z.
Definition float32_of_int64 (z : Z) : float := float_of_Z 24 z.

(** [float64(v)] for a [float32] [v]: exact. *)
Definition float64_of_float32 (v : float) : float := v.

Definition unsupported_msg (type_name : string) : string :=
  ("Only support convert boolean/float/int/string/map/list to nebula.Value but "
     ++ type_name)%string.

(** The loop of [slice2Nlist] over a conversion [conv], with the slice
    [sv] built so far. *)
Definition slice_loop (conv : GoValue -> Value * option error) :=
  fix loop (items : list GoValue) (sv : list Value) : option NList * option error :=
    match items with
    | [] => (Some (mkNList sv), None)
    | item :: rest =>
        let '(nv, er) := conv item in
        match er with
        | Some e => (None, Some e)
        | None => loop rest (sv ++ [nv])
        end
    end.

(** The loop that converts a parameter map, as written out in
    [ExecuteJsonWithParameter]: [paramsMap] is the map built so far, and
    [wrap] is applied to the error that the loop returns. *)
Definition params_loop (wrap : error -> error)
    (conv : GoValue -> Value * option error) :=
  fix loop (params : list (string * GoValue)) (paramsMap : list (string * Value))
    : option (list (string * Value)) * option error :=
    match params with
    | [] => (Some paramsMap, None)
    | (k, v) :: rest =>
        let '(nv, er) := conv v in
        match er with
        | Some e => (None, Some (wrap e))
        | None => loop rest (map_store k nv paramsMap)
        end
    end.

(** The body of [map2Nmap] after its call of [parseParams]: a non-nil
    error is returned with a nil map pointer, otherwise the converted
    entries become the [Kvs] of a fresh [NMap] (a nil map has none). *)
Definition nmap_of_params (r : option (list (string * Value)) * option error)
  : option NMap * option error :=
  let '(kvs, err) := r in
  match err with
  | Some e => (None, Some e)
  | None => (Some (mkNMap (match kvs with Some m => m | None => [] end)), None)
  end.

(** [value2Nvalue]: construct go-type to nebula.Value.  The list and map
    arms inline [slice2Nlist] and [map2Nmap] (see the equations below). *)
Fixpoint value2Nvalue (any : GoValue) : Value * option error :=
  let value := NewValue in
  match any with
  | GoBool v => (set_BVal value v, None)
  | GoInt v => let ival := v in (set_IVal value ival, None)
  | GoFloat64 v =>
      if float_eqb v (float64_of_int64 (int64_of_float v))
      then let iv := int64_of_float v in (set_IVal value iv, None)
      else (set_FVal value v, None)
  | GoFloat32 v =>
      if float_eqb v (float32_of_int64 (int64_of_float v))
      then let iv := int64_of_float v in (set_IVal value iv, None)
      else let fval := float64_of_float32 v in (set_FVal value fval, None)
  | GoString v => (set_SVal value v, None)
  | GoNil => let nval := NullType___NULL__ in (set_NVal value nval, None)
  | GoSlice v =>
      let '(nv, er) := slice_loop value2Nvalue v [] in
      (set_LVal value nv, er)
  | GoMap v =>
      let '(nv, er) := nmap_of_params (params_loop parse_error value2Nvalue v []) in
      (set_MVal value nv, er)
  | GoNebulaValue v => (v, None)
  | GoDate v => (SetDVal value v, None)
  | GoDateTime v => (SetDtVal value v, None)
  | GoDuration v => (SetDuVal value v, None)
  | GoTime v => (SetTVal value v, None)
  | GoGeography v => (SetGgVal value v, None)
  | GoOther type_name => (value, Some (PlainError (unsupported_msg type_name)))
  end.

(** [slice2Nlist]: construct Slice to nebula.NList. *)
Definition slice2Nlist (items : list GoValue) : option NList * option error :=
  slice_loop value2Nvalue items [].

(** Modelled from the spec: [parseParams] is called by [session.go] but
    defined in another file of the package.  The spec describes the
    conversion of a mapping of string to generic values as "recursively
    converted; first failure aborts"; the loop is the one that
    [ExecuteJsonWithParameter] writes out for the same purpose.  The spec
    does not say in which form the error of the failing element comes
    back: [parse_error] stands for that. *)
Definition parseParams (params : list (string * GoValue))
  : option (list (string * Value)) * option error :=
  params_loop parse_error value2Nvalue params [].

(** [map2Nmap]: construct map to nebula.NMap. *)
Definition map2Nmap (m : list (string * GoValue)) : option NMap * option error :=
  nmap_of_params (parseParams m).

End Codec.

(* ===================================================================== *)
(** ** Data of the session layer *)

(** [nebula.ErrorCode]: the constants are declared in the generated
    [nebula] package; these are the values of the service definition. *)
Definition ErrorCode_SUCCEEDED : Z := 0.
Definition ErrorCode_E_SESSION_INVALID : Z := -1002.
Definition ErrorCode_E_SESSION_TIMEOUT : Z := -1003.

(** [graph.ExecutionResponse], as far as this layer looks into it. *)
Record ExecutionResponse : Type := mkExecutionResponse {
  ErrorCode : Z;
  ErrorMsg : option string;
  Data : option string
}.

Definition GetErrorCode (resp : ExecutionResponse) : Z := ErrorCode resp.

Record timezoneInfo : Type := mkTimezoneInfo { offset : Z; name : string }.

Record ResultSet : Type := mkResultSet {
  rs_resp : option ExecutionResponse;
  columnNames : list string;
  rs_timezoneInfo : timezoneInfo
}.

Record HostAddress : Type := mkHostAddress { Host : string; Port : Z }.

(** A [*connection]: the transport endpoint is external, the session only
    holds the handle and reads its server address. *)
Record connection : Type := mkConnection { conn_id : nat; severAddress : HostAddress }.

Record ConnectionPool : Type := mkConnectionPool { connPool_id : nat }.
Record SessionPool : Type := mkSessionPool { sessPool_id : nat }.

Module ReconnectConfig.
Record t : Type := mk { MaxTime : Z; MaxTimeDuration : Z; IdleTime : Z }.
End ReconnectConfig.

Module RetryConfig.
Record t : Type := mk { MaxTime : Z; IdleTime : Z }.
End RetryConfig.

Record Session : Type := mkSession {
  sessionID : Z;
  connection_ : option connection;
  connPool : option ConnectionPool;
  sessPool : option SessionPool;
  returnedAt : Z;
  timezone : timezoneInfo;
  reconnectCfg : ReconnectConfig.t;
  retryCfg : RetryConfig.t
}.

Definition set_connection (s : Session) (c : option connection) : Session :=
  mkSession (sessionID s) c (connPool s) (sessPool s) (returnedAt s)
            (timezone s) (reconnectCfg s) (retryCfg s).

(** The three assignments that end the session-pool arm of [reConnect]. *)
Definition adopt (s newsession : Session) : Session :=
  mkSession (sessionID newsession) (connection_ newsession) (connPool s) (sessPool s)
            (returnedAt newsession) (timezone s) (reconnectCfg s) (retryCfg s).

(** [IsServerSessionError]: when session transfer to server is error. *)
Definition IsServerSessionError (resp : option ExecutionResponse) : bool :=
  match resp with
  | None => false
  | Some r => (GetErrorCode r =? ErrorCode_E_SESSION_INVALID)
              || (GetErrorCode r =? ErrorCode_E_SESSION_TIMEOUT)
  end.

Definition IsQueryOk (err : option error) (resp : option ExecutionResponse) : bool :=
  negb (is_some err) && negb (IsServerSessionError resp).

(** [IsError] dereferences its argument: [None] stands for the nil-pointer
    panic. *)
Definition IsError (resp : option ExecutionResponse) : option bool :=
  match resp with
  | None => None
  | Some r => Some (negb (GetErrorCode r =? ErrorCode_SUCCEEDED))
  end.

(** What a closure handed to [executeWithReconnect] returns as its
    [interface{}]: untyped nil, a [*ResultSet] (possibly a nil pointer) or a
    byte slice. *)
Inductive Iface : Type :=
| INil
| IResultSet (p : option ResultSet)
| IBytes (b : string).

(* ===================================================================== *)
(** ** Effects *)

Inductive LogLevel : Type := LInfo | LWarn | LError.

Inductive Event : Type :=
| EvExecute (c : connection) (sid : Z) (stmt : string) (params : list (string * Value))
| EvExecuteJson (c : connection) (sid : Z) (stmt : string) (params : list (string * Value))
| EvSignOut (c : connection) (sid : Z)
| EvClose (c : connection)
| EvGetIdleConn (pool : ConnectionPool)
| EvPoolRelease (pool : ConnectionPool) (c : option connection)
| EvNewSession (pool : SessionPool)
| EvNow
| EvSince
| EvSleep (d : Z)
| EvLog (lvl : LogLevel) (msg : string).

Definition is_EvExecute (ev : Event) : bool :=
  match ev with EvExecute _ _ _ _ => true | _ => false end.
Definition is_EvExecuteJson (ev : Event) : bool :=
  match ev with EvExecuteJson _ _ _ _ => true | _ => false end.
Definition is_EvSignOut (ev : Event) : bool :=
  match ev with EvSignOut _ _ => true | _ => false end.
Definition is_EvGetIdleConn (ev : Event) : bool :=
  match ev with EvGetIdleConn _ => true | _ => false end.
Definition is_EvNewSession (ev : Event) : bool :=
  match ev with EvNewSession _ => true | _ => false end.
Definition is_EvNow (ev : Event) : bool :=
  match ev with EvNow => true | _ => false end.
Definition is_clock_read (ev : Event) : bool :=
  match ev with EvNow | EvSince => true | _ => false end.
Definition is_EvSleep (ev : Event) : bool :=
  match ev with EvSleep _ => true | _ => false end.
Definition is_EvPoolRelease (ev : Event) : bool :=
  match ev with EvPoolRelease _ _ => true | _ => false end.
Definition is_EvClose (ev : Event) : bool :=
  match ev with EvClose _ => true | _ => false end.

(** Events that reach the transport or a pool. *)
Definition is_remote (ev : Event) : bool :=
  match ev with
  | EvExecute _ _ _ _ | EvExecuteJson _ _ _ _ | EvSignOut _ _ | EvClose _
  | EvGetIdleConn _ | EvPoolRelease _ _ | EvNewSession _ => true
  | _ => false
  end.

(** Number of events of one kind in a trace. *)
Fixpoint count (p : Event -> bool) (tr : list Event) : nat :=
  match tr with
  | [] => O
  | ev :: rest => if p ev then S (count p rest) else count p rest
  end.

(** The session object and the trace of effects so far, latest first. *)
Record State : Type := mkState { session : Session; trace : list Event }.

Inductive Result (A : Type) : Type :=
| Return (a : A) (st : State)
| Panic (st : State)
| OutOfFuel.
Arguments Return {A} a st.
Arguments Panic {A} st.
Arguments OutOfFuel {A}.

Definition M (A : Type) : Type := State -> Result A.

Definition ret {A} (a : A) : M A := fun st => Return a st.

Definition bind {A B} (c : M A) (k : A -> M B) : M B :=
  fun st =>
    match c st with
    | Return a st' => k a st'
    | Panic st' => Panic st'
    | OutOfFuel => OutOfFuel
    end.

Declare Scope session_scope.
Delimit Scope session_scope with session.
Notation "x <- c ;; k" := (bind c (fun x => k))
  (at level 61, c at next level, right associativity) : session_scope.
Notation "' p <- c ;; k" := (bind c (fun x => let p := x in k))
  (at level 61, p pattern, c at next level, right associativity) : session_scope.
Notation "c ;; k" := (bind c (fun _ => k))
  (at level 61, right associativity) : session_scope.

Definition panic {A} : M A := fun st => Panic st.
Definition out_of_fuel {A} : M A := fun _ => OutOfFuel.
Definition get_session : M Session := fun st => Return (session st) st.
Definition put_session (s : Session) : M unit :=
  fun st => Return tt (mkState s (trace st)).
Definition emit (ev : Event) : M unit :=
  fun st => Return tt (mkState (session st) (ev :: trace st)).
(** The number of earlier events of one kind. *)
Definition earlier (p : Event -> bool) : M nat :=
  fun st => Return (count p (trace st)) st.

Definition log (lvl : LogLevel) (msg : string) : M unit := emit (EvLog lvl msg).
Definition time_Sleep (d : Z) : M unit := emit (EvSleep d).

(** [err.Error()] on a possibly nil error. *)
Definition error_string (err : option error) : M string :=
  match err with
  | Some e => ret (Error e)
  | None => panic
  end.

(** [%d] *)
Definition fmt_d (z : Z) : string := NilZero.string_of_int (Z.to_int z).

(** [t.Sub(u)] saturates at the bounds of [time.Duration]. *)
Definition duration_sub (t u : Z) : Z :=
  Z.max int64_min (Z.min int64_max (t - u)).

(** The classifier as section 4.2 of the specification words it (the code
    has no such function; it tests the conditions one by one). *)
Inductive Outcome : Type := Success | TransportFailure | SessionInvalid | QueryError.

Definition classify_spec (err : option error) (resp : option ExecutionResponse) : Outcome :=
  if is_TransportException err then TransportFailure
  else if IsServerSessionError resp then SessionInvalid
  else
    match err, resp with
    | Some _, _ => QueryError
    | None, Some r => if GetErrorCode r =? ErrorCode_SUCCEEDED then Success else QueryError
    | None, None => Success
    end.

(* ===================================================================== *)
(** ** Sample sessions and environments *)

(** What amd64 yields for a float that no [int64] represents. *)
Definition amd64_unrepresentable : float -> Z := fun _ => int64_min.

(** 5.0, 2.5 and 2^64 *)
Definition float_five : float := F_fin false 5 0.
Definition float_two_and_a_half : float := F_fin false 5 (-1).
Definition float_two_pow_64 : float := F_fin false 1 64.

Definition sample_connection : connection :=
  mkConnection 1 (mkHostAddress "127.0.0.1" 9669).

Definition UTC : timezoneInfo := mkTimezoneInfo 0 "UTC".

(** A session that holds [sample_connection] and belongs to no pool, to a
    connection pool, or to a session pool. *)
Definition sample_session (cp : option ConnectionPool) (sp : option SessionPool)
    (reconnect : ReconnectConfig.t) (retry : RetryConfig.t) : Session :=
  mkSession 42 (Some sample_connection) cp sp 0 UTC reconnect retry.

Definition standalone_session : Session :=
  sample_session None None (ReconnectConfig.mk 3 0 10) (RetryConfig.mk 3 5).

Definition pooled_session (reconnect : ReconnectConfig.t) : Session :=
  sample_session (Some (mkConnectionPool 7)) None reconnect (RetryConfig.mk 3 5).

Definition fresh (s : Session) : State := mkState s [].

(** Answers of the transport. *)
Definition exec_plain_error (n : nat) (c : connection) (sid : Z) (stmt : string)
    (params : list (string * Value)) : option ExecutionResponse * option error :=
  (None, Some (PlainError "unexpected reply")).

Definition exec_transport_error (n : nat) (c : connection) (sid : Z) (stmt : string)
    (params : list (string * Value)) : option ExecutionResponse * option error :=
  (None, Some (TransportException "EOF")).

Definition session_invalid_response : ExecutionResponse :=
  mkExecutionResponse ErrorCode_E_SESSION_INVALID (Some "Session not existed!") None.

Definition syntax_error_response : ExecutionResponse :=
  mkExecutionResponse (-1004) (Some "SyntaxError") None.

Definition exec_session_invalid (n : nat) (c : connection) (sid : Z) (stmt : string)
    (params : list (string * Value)) : option ExecutionResponse * option error :=
  (Some session_invalid_response, None).

Definition exec_syntax_error (n : nat) (c : connection) (sid : Z) (stmt : string)
    (params : list (string * Value)) : option ExecutionResponse * option error :=
  (Some syntax_error_response, None).

(** The JSON text with which the server reports an invalid session. *)
Definition dquote : string := String (Ascii.ascii_of_nat 34) EmptyString.

(** The statement that [Ping] sends: [RETURN] and the quoted text
    [NEBULA GO PING]. *)
Definition ping_stmt : string :=
  ("RETURN " ++ dquote ++ "NEBULA GO PING" ++ dquote)%string.

Definition json_session_invalid : string :=
  ("{" ++ dquote ++ "errors" ++ dquote ++ ":[{" ++ dquote ++ "code" ++ dquote
       ++ ":-1002," ++ dquote ++ "message" ++ dquote ++ ":" ++ dquote
       ++ "Session not existed!" ++ dquote ++ "}]}")%string.

Definition json_reports_session_invalid (n : nat) (c : connection) (sid : Z)
    (stmt : string) (params : list (string * Value)) : string * option error :=
  (json_session_invalid, None).

Definition json_transport_error (n : nat) (c : connection) (sid : Z)
    (stmt : string) (params : list (string * Value)) : string * option error :=
  (EmptyString, Some (TransportException "EOF")).

Definition success_response : ExecutionResponse :=
  mkExecutionResponse ErrorCode_SUCCEEDED None (Some "1").

Definition exec_success (n : nat) (c : connection) (sid : Z) (stmt : string)
    (params : list (string * Value)) : option ExecutionResponse * option error :=
  (Some success_response, None).

(** The transport breaks on the first call and works afterwards. *)
Definition exec_fails_once (n : nat) (c : connection) (sid : Z) (stmt : string)
    (params : list (string * Value)) : option ExecutionResponse * option error :=
  match n with
  | O => (None, Some (TransportException "EOF"))
  | S _ => (Some success_response, None)
  end.

Definition spare_connection : connection :=
  mkConnection 2 (mkHostAddress "127.0.0.2" 9669).

Definition idle_connection_available (n : nat) (pool : ConnectionPool)
  : option connection * option error :=
  (Some spare_connection, None).

Definition signOut_ok (n : nat) (c : connection) (sid : Z) : option error := None.

(** Pools that have nothing to hand out. *)
Definition no_idle_connection (n : nat) (pool : ConnectionPool)
  : option connection * option error :=
  (None, Some (PlainError "failed to get connection: No valid connection")).

Definition no_new_session (n : nat) (pool : SessionPool)
  : option Session * option error :=
  (None, Some (PlainError "failed to create a new session")).

(** A clock whose readings are 100ms apart. *)
Definition clock_100ms (n : nat) : Z := Z.of_nat n * 100000000.

(** A result set that wraps the response. *)
Definition wrap_response (resp : option ExecutionResponse) (tz : timezoneInfo)
  : option ResultSet * option error :=
  (Some (mkResultSet resp [] tz), None).

Definition fmt_verbatim (s : string) : string := s.

(** A [parseParams] that wraps the error of the failing element. *)
Definition parse_error_prefixed (e : error) : error :=
  PlainError ("failed to parse params: " ++ Error e).

(** The transport answers the first call with a plain error and works
    afterwards. *)
Definition exec_plain_error_once (n : nat) (c : connection) (sid : Z) (stmt : string)
    (params : list (string * Value)) : option ExecutionResponse * option error :=
  match n with
  | O => (None, Some (PlainError "unexpected reply"))
  | S _ => (Some success_response, None)
  end.

Definition json_plain_error (n : nat) (c : connection) (sid : Z)
    (stmt : string) (params : list (string * Value)) : string * option error :=
  (EmptyString, Some (PlainError "unexpected reply")).

(** A pool that has a connection from the second request on. *)
Definition idle_connection_at_second_request (n : nat) (pool : ConnectionPool)
  : option connection * option error :=
  match n with
  | O => (None, Some (PlainError "failed to get connection: No valid connection"))
  | S _ => (Some spare_connection, None)
  end.

(** A result set succeeded when its response carries the code of success. *)
Definition code_is_succeeded (rs : ResultSet) : bool :=
  match rs_resp rs with
  | Some r => GetErrorCode r =? ErrorCode_SUCCEEDED
  | None => false
  end.

Definition message_of_response (rs : ResultSet) : string :=
  match rs_resp rs with
  | Some r => match ErrorMsg r with Some m => m | None => EmptyString end
  | None => EmptyString
  end.

(** The transport answers the first call with a plain error and breaks
    afterwards. *)
Definition exec_plain_then_transport (n : nat) (c : connection) (sid : Z) (stmt : string)
    (params : list (string * Value)) : option ExecutionResponse * option error :=
  match n with
  | O => (None, Some (PlainError "unexpected reply"))
  | S _ => (None, Some (TransportException "EOF"))
  end.

(** The transport breaks on the first call and answers with a plain error
    afterwards. *)
Definition exec_transport_then_plain_errors (n : nat) (c : connection) (sid : Z)
    (stmt : string) (params : list (string * Value))
  : option ExecutionResponse * option error :=
  match n with
  | O => (None, Some (TransportException "EOF"))
  | S _ => (None, Some (PlainError "unexpected reply"))
  end.

(** A session whose retry policy has no bound. *)
Definition unbounded_retry_session : Session :=
  sample_session None None (ReconnectConfig.mk 3 0 10) (RetryConfig.mk 0 5).

(* ===================================================================== *)
(** ** The session operations *)

Section SessionOps.
Local Open Scope session_scope.

(** *** The environment

    Each answer is indexed by the number of earlier calls of its kind. *)

Variable int64_unrepresentable : float -> Z.
Variable parse_error : error -> error.

(** [connection.executeWithParameter] and [ExecuteJsonWithParameter]. *)
Variable conn_executeWithParameter :
  nat -> connection -> Z -> string -> list (string * Value)
  -> option ExecutionResponse * option error.
Variable conn_ExecuteJsonWithParameter :
  nat -> connection -> Z -> string -> list (string * Value)
  -> string * option error.
Variable conn_signOut : nat -> connection -> Z -> option error.

(** [ConnectionPool.getIdleConn] and [SessionPool.newSession]. *)
Variable pool_getIdleConn : nat -> ConnectionPool -> option connection * option error.
Variable pool_newSession : nat -> SessionPool -> option Session * option error.

(** The n-th reading of the monotonic clock, in nanoseconds. *)
Variable clock : nat -> Z.

(** [genResultSet] lives in another file of the package. *)
Variable genResultSet :
  option ExecutionResponse -> timezoneInfo -> option ResultSet * option error.

(** What [fmt] renders for a format string that is given no operands
    (the string itself when it holds no verb). *)
Variable fmt_no_operands : string -> string.

(** *** Calls into the environment *)

Definition connection_executeWithParameter (cn : option connection) (sid : Z)
    (stmt : string) (params : list (string * Value))
  : M (option ExecutionResponse * option error) :=
  match cn with
  | None => panic
  | Some c =>
      n <- earlier is_EvExecute ;;
      emit (EvExecute c sid stmt params) ;;
      ret (conn_executeWithParameter n c sid stmt params)
  end.

Definition connection_ExecuteJsonWithParameter (cn : option connection) (sid : Z)
    (stmt : string) (params : list (string * Value))
  : M (string * option error) :=
  match cn with
  | None => panic
  | Some c =>
      n <- earlier is_EvExecuteJson ;;
      emit (EvExecuteJson c sid stmt params) ;;
      ret (conn_ExecuteJsonWithParameter n c sid stmt params)
  end.

Definition connection_signOut (c : connection) (sid : Z) : M (option error) :=
  n <- earlier is_EvSignOut ;;
  emit (EvSignOut c sid) ;;
  ret (conn_signOut n c sid).

Definition connection_close (c : connection) : M unit := emit (EvClose c).

Definition connPool_getIdleConn (pool : ConnectionPool)
  : M (option connection * option error) :=
  n <- earlier is_EvGetIdleConn ;;
  emit (EvGetIdleConn pool) ;;
  ret (pool_getIdleConn n pool).

Definition connPool_release (pool : ConnectionPool) (c : option connection) : M unit :=
  emit (EvPoolRelease pool c).

Definition sessPool_newSession (pool : SessionPool)
  : M (option Session * option error) :=
  n <- earlier is_EvNewSession ;;
  emit (EvNewSession pool) ;;
  ret (pool_newSession n pool).

Definition time_Now : M Z :=
  n <- earlier is_clock_read ;;
  emit EvNow ;;
  ret (clock n).

Definition time_Since (t : Z) : M Z :=
  n <- earlier is_clock_read ;;
  emit EvSince ;;
  ret (duration_sub (clock n) t).

(** [fmt.Errorf(err.Error())] *)
Definition Errorf_of (err : error) : error :=
  PlainError (fmt_no_operands (Error err)).

(** *** [reConnect] *)

Definition reConnect : M (option error) :=
  s <- get_session ;;
  match connPool s with
  | Some pool =>
      '(newconnection, err) <- connPool_getIdleConn pool ;;
      match err with
      | Some e => ret (Some (Errorf_of e))
      | None =>
          (* Release connection to pool *)
          connPool_release pool (connection_ s) ;;
          put_session (set_connection s newconnection) ;;
          ret None
      end
  | None =>
      match sessPool s with
      | Some pool =>
          '(newsession, err) <- sessPool_newSession pool ;;
          match err with
          | Some e => ret (Some (Errorf_of e))
          | None =>
              (* close current session connect *)
              match connection_ s with
              | Some c =>
                  log LWarn "Session has been released" ;;
                  err <- connection_signOut c (sessionID s) ;;
                  match err with
                  | Some e => log LWarn ("Sign out failed, " ++ Error e)
                  | None => ret tt
                  end ;;
                  (* close connection *)
                  connection_close c
              | None => ret tt
              end ;;
              match newsession with
              | None => panic
              | Some ns => put_session (adopt s ns) ;; ret None
              end
          end
      | None => ret None
      end
  end.

(** *** [reconnectWithExecuteErr] *)

(** The [for] loop of [reconnectWithExecuteErr]; it yields [_err]. *)
Fixpoint reconnect_loop (fuel : nat) (retryTime : Z) (startRetryTime : Z)
  : M (option error) :=
  match fuel with
  | O => out_of_fuel
  | S fuel' =>
      _err <- reConnect ;;
      match _err with
      | Some e =>
          log LError ("failed to reconnect, " ++ Error e) ;;
          s <- get_session ;;
          let cfg := reconnectCfg s in
          expired <-
            (if ReconnectConfig.MaxTimeDuration cfg =? 0 then ret false
             else
               retryTimeDuration <- time_Since startRetryTime ;;
               ret (ReconnectConfig.MaxTimeDuration cfg <=? retryTimeDuration)) ;;
          if expired : bool then ret _err
          else
            let retryTime' :=
              if ReconnectConfig.MaxTime cfg =? 0 then retryTime
              else int_incr retryTime in
            if negb (ReconnectConfig.MaxTime cfg =? 0)
               && (ReconnectConfig.MaxTime cfg <=? retryTime')
            then ret _err
            else
              time_Sleep (ReconnectConfig.IdleTime cfg) ;;
              reconnect_loop fuel' retryTime' startRetryTime
      | None => ret None
      end
  end.

(** One reconnect cycle: lines 46 to 83, entered once the guard of
    [reconnectWithExecuteErr] has let the error through. *)
Definition reconnect_cycle (fuel : nat) : M (option error) :=
  let retryTime := 0 in
  startRetryTime <- time_Now ;;
  _err <- reconnect_loop fuel retryTime startRetryTime ;;
  match _err with
  | Some _ => ret (Some (PlainError "Nebula Down"))
  | None =>
      s <- get_session ;;
      match connection_ s with
      | None => panic
      | Some c =>
          log LInfo ("Successfully reconnect to host: " ++ Host (severAddress c)
                     ++ ", port: " ++ fmt_d (Port (severAddress c))) ;;
          ret None
      end
  end.

Definition reconnectWithExecuteErr (fuel : nat) (resp : option ExecutionResponse)
    (err : option error) : M (option error) :=
  (* Reconnect only if the transport is closed *)
  let ok := is_TransportException err in
  if negb ok && negb (IsServerSessionError resp) then ret err
  else reconnect_cycle fuel.

(** *** [executeWithReconnect] *)

Definition reconnect_and_rerun (fuel : nat) (f : M (Iface * option error))
    (param : option ExecutionResponse) (err : option error)
  : M (Iface * option error) :=
  err2 <- reconnectWithExecuteErr fuel param err ;;
  match err2 with
  | Some e2 => ret (INil, Some e2)
  | None =>
      (* Execute with the new connection *)
      f
  end.

Definition executeWithReconnect (fuel : nat) (f : M (Iface * option error))
  : M (Iface * option error) :=
  '(resp, err) <- f ;;
  match resp with
  | IResultSet p =>
      match p with
      | None => panic
      | Some r =>
          let param := rs_resp r in
          if IsQueryOk err param then ret (resp, None)
          else reconnect_and_rerun fuel f param err
      end
  | _ =>
      if negb (is_some err) then ret (resp, None)
      else reconnect_and_rerun fuel f None err
  end.

(** *** [ExecuteWithParameter] *)

(** A nil parameter map is sent as an empty one. *)
Definition params_or_empty (m : option (list (string * Value))) : list (string * Value) :=
  match m with Some kvs => kvs | None => [] end.

(** The [for] loop of the closure [execFunc] of [ExecuteWithParameter];
    it yields [resp] and [err] as the loop leaves them. *)
Fixpoint exec_retry_loop (fuel : nat) (stmt : string)
    (paramsMap : list (string * Value)) (retryTime : Z)
  : M (option ExecutionResponse * option error) :=
  match fuel with
  | O => out_of_fuel
  | S fuel' =>
      s <- get_session ;;
      '(resp, err) <-
        connection_executeWithParameter (connection_ s) (sessionID s) stmt paramsMap ;;
      if IsQueryOk err resp then ret (resp, err)
      else
        (* TransportException need reconnect not retry *)
        let ok := is_TransportException err in
        if ok || IsServerSessionError resp then ret (resp, err)
        else
          let retryTime' :=
            if 0 <? RetryConfig.MaxTime (retryCfg s) then int_incr retryTime
            else retryTime in
          if (0 <? RetryConfig.MaxTime (retryCfg s))
             && (RetryConfig.MaxTime (retryCfg s) <=? retryTime')
          then ret (resp, err)
          else
            msg <- error_string err ;;
            log LError ("start retry, " ++ msg) ;;
            time_Sleep (RetryConfig.IdleTime (retryCfg s)) ;;
            exec_retry_loop fuel' stmt paramsMap retryTime'
  end.

(** The closure [execFunc] of [ExecuteWithParameter]. *)
Definition execFunc (fuel : nat) (stmt : string) (paramsMap : list (string * Value))
  : M (Iface * option error) :=
  let retryTime := 0 in
  '(resp, err) <- exec_retry_loop fuel stmt paramsMap retryTime ;;
  match err with
  | Some e => ret (INil, Some e)
  | None =>
      s <- get_session ;;
      let '(resSet, err) := genResultSet resp (timezone s) in
      match err with
      | Some e => ret (INil, Some e)
      | None => ret (IResultSet resSet, None)
      end
  end.

(** The last lines of [ExecuteWithParameter]:
    a non-nil [err] is returned with a nil result, otherwise [resp] is
    asserted to be a [*ResultSet]; the assertion panics on anything else. *)
Definition return_ResultSet (r : Iface * option error)
  : M (option ResultSet * option error) :=
  let '(resp, err) := r in
  match err with
  | Some e => ret (None, Some e)
  | None =>
      match resp with
      | IResultSet p => ret (p, None)
      | _ => panic
      end
  end.

Definition released_msg : string := "failed to execute: Session has been released".

(** [ExecuteWithParameter] returns the result of the given query as a
    ResultSet. *)
Definition ExecuteWithParameter (fuel : nat) (stmt : string)
    (params : list (string * GoValue)) : M (option ResultSet * option error) :=
  s <- get_session ;;
  match connection_ s with
  | None => ret (None, Some (PlainError released_msg))
  | Some _ =>
      let '(paramsMap, err) := parseParams int64_unrepresentable parse_error params in
      match err with
      | Some e => ret (None, Some e)
      | None =>
          r <- executeWithReconnect fuel (execFunc fuel stmt (params_or_empty paramsMap)) ;;
          return_ResultSet r
      end
  end.

(** [Execute] returns the result of the given query as a ResultSet. *)
Definition Execute (fuel : nat) (stmt : string) : M (option ResultSet * option error) :=
  ExecuteWithParameter fuel stmt [].

(** *** [ExecuteJsonWithParameter] *)

(** The [for] loop of the closure [execFunc] of [ExecuteJsonWithParameter];
    every exit of the loop is a [return] of the closure. *)
Fixpoint json_retry_loop (fuel : nat) (stmt : string)
    (paramsMap : list (string * Value)) (retryTime : Z)
  : M (Iface * option error) :=
  match fuel with
  | O => out_of_fuel
  | S fuel' =>
      s <- get_session ;;
      '(resp, err) <-
        connection_ExecuteJsonWithParameter (connection_ s) (sessionID s) stmt paramsMap ;;
      match err with
      | None => ret (IBytes resp, None)
      | Some e =>
          (* TransportException need reconnect not retry *)
          let ok := is_TransportException err in
          if ok then ret (INil, err)
          else
            let retryTime' :=
              if 0 <? RetryConfig.MaxTime (retryCfg s) then int_incr retryTime
              else retryTime in
            if (0 <? RetryConfig.MaxTime (retryCfg s))
               && (RetryConfig.MaxTime (retryCfg s) <=? retryTime')
            then ret (INil, err)
            else
              log LError ("start retry, " ++ Error e) ;;
              time_Sleep (RetryConfig.IdleTime (retryCfg s)) ;;
              json_retry_loop fuel' stmt paramsMap retryTime'
      end
  end.

(** The last lines of [ExecuteJsonWithParameter]:
    the same with a byte slice. *)
Definition return_bytes (r : Iface * option error) : M (option string * option error) :=
  let '(resp, err) := r in
  match err with
  | Some e => ret (None, Some e)
  | None =>
      match resp with
      | IBytes b => ret (Some b, None)
      | _ => panic
      end
  end.

Definition execFuncJson (fuel : nat) (stmt : string) (paramsMap : list (string * Value))
  : M (Iface * option error) :=
  let retryTime := 0 in
  json_retry_loop fuel stmt paramsMap retryTime.

(** [ExecuteJsonWithParameter] returns the result of the given query as a
    json string. *)
Definition ExecuteJsonWithParameter (fuel : nat) (stmt : string)
    (params : list (string * GoValue)) : M (option string * option error) :=
  s <- get_session ;;
  match connection_ s with
  | None => ret (None, Some (PlainError released_msg))
  | Some _ =>
      let '(paramsMap, er) := params_loop (fun e => e) (value2Nvalue int64_unrepresentable parse_error) params [] in
      match er with
      | Some e => ret (None, Some e)
      | None =>
          r <- executeWithReconnect fuel
                 (execFuncJson fuel stmt (params_or_empty paramsMap)) ;;
          return_bytes r
      end
  end.

Definition ExecuteJson (fuel : nat) (stmt : string) : M (option string * option error) :=
  ExecuteJsonWithParameter fuel stmt [].

(** *** [Release], [GetSessionID]

    [Release] logs out and releases the connection held by the session.
    The receiver is the session of the state, hence not nil (on a nil
    receiver the method returns at once). *)
Definition Release : M unit :=
  s <- get_session ;;
  match connection_ s with
  | None => log LWarn "Session has been released"
  | Some c =>
      err <- connection_signOut c (sessionID s) ;;
      match err with
      | Some e => log LWarn ("Sign out failed, " ++ Error e)
      | None => ret tt
      end ;;
      (* if the session is created from the connection pool, return the
         connection to the pool *)
      match connPool s with
      | Some pool => connPool_release pool (connection_ s)
      | None => ret tt
      end ;;
      put_session (set_connection s None)
  end.

Definition GetSessionID : M Z :=
  s <- get_session ;; ret (sessionID s).

(** *** [Ping]

    [ResultSet.IsSucceed] and [ResultSet.GetErrorMsg] live in another file
    of the package. *)
Variable ResultSet_IsSucceed : ResultSet -> bool.
Variable ResultSet_GetErrorMsg : ResultSet -> string.

(** [Ping] checks if the session is valid.  Both of its [fmt.Errorf] calls
    append the message to the format string and pass no operand. *)
Definition Ping (fuel : nat) : M (option error) :=
  s <- get_session ;;
  match connection_ s with
  | None => ret (Some (PlainError "failed to ping: Session has been released"))
  | Some _ =>
      (* send ping request *)
      '(resp, err) <- Execute fuel ping_stmt ;;
      (* check connection level error *)
      match err with
      | Some e =>
          ret (Some (PlainError (fmt_no_operands ("session ping failed, %s" ++ Error e))))
      | None =>
          (* check session level error *)
          match resp with
          | None => panic
          | Some rs =>
              if negb (ResultSet_IsSucceed rs)
              then ret (Some (PlainError
                                (fmt_no_operands ("session ping failed, %s"
                                                    ++ ResultSet_GetErrorMsg rs))))
              else ret None
          end
      end
  end.


(** *** Notions used by the statements *)

(** The state in which a computation ends, when it ends. *)
Definition final_state {A} (r : Result A) : option State :=
  match r with
  | Return _ st => Some st
  | Panic st => Some st
  | OutOfFuel => None
  end.

(** [reconnectWithExecuteErr] reads [time.Now()] once, when it enters its
    loop, and nothing else in the file does: the readings in a trace
    count the reconnect cycles. *)
Definition reconnect_cycles (tr : list Event) : nat := count is_EvNow tr.

(** A computation that adds no event of kind [p] to the trace. *)
Definition keeps {A} (p : Event -> bool) (c : M A) : Prop :=
  forall st st', final_state (c st) = Some st' ->
                 count p (trace st') = count p (trace st).

(** What is left of an execute operation once the outcome of its first
    run has been escalated: one reconnect cycle and, when that succeeds,
    the closure once more, whose outcome is final. *)
Definition one_cycle_then {A} (fuel : nat) (rerun : M (option A * option error))
  : M (option A * option error) :=
  bind (reconnect_cycle fuel)
       (fun err2 => match err2 with
                    | Some e2 => ret (None, Some e2)
                    | None => rerun
                    end).

(** An attempt to repair the connection through one of the pools. *)
Definition is_reconnect_attempt (ev : Event) : bool :=
  is_EvGetIdleConn ev || is_EvNewSession ev.

(** The outcomes on which the retry loop of [ExecuteWithParameter] goes
    round again: none of its first two [break]s applies. *)
Definition residual (reply : option ExecutionResponse * option error) : Prop :=
  IsQueryOk (snd reply) (fst reply) = false
  /\ is_TransportException (snd reply) = false
  /\ IsServerSessionError (fst reply) = false.

(** Every attempt of [reConnect] on session [s] fails: its pool hands out
    nothing. *)
Definition reconnect_always_fails (s : Session) : Prop :=
  match connPool s with
  | Some pool => forall k, snd (pool_getIdleConn k pool) <> None
  | None =>
      match sessPool s with
      | Some pool => forall k, snd (pool_newSession k pool) <> None
      | None => False
      end
  end.

(** When the cycle read the clock for the [n0]-th time on entry, its
    [i]-th failed attempt sees this much time elapsed. *)
Definition elapsed_at (n0 i : nat) : Z :=
  duration_sub (clock (n0 + i)) (clock n0).

(** The two [break]s of the reconnect loop after the [i]-th failed
    attempt; a bound of zero switches its test off. *)
Definition budget_exceeded (cfg : ReconnectConfig.t) (n0 i : nat) : bool :=
  (negb (ReconnectConfig.MaxTimeDuration cfg =? 0)
   && (ReconnectConfig.MaxTimeDuration cfg <=? elapsed_at n0 i))
  || (negb (ReconnectConfig.MaxTime cfg =? 0)
      && (ReconnectConfig.MaxTime cfg <=? Z.of_nat i)).

(** The answers on which the retry loop of [ExecuteWithParameter] leaves:
    one of its first two [break]s applies. *)
Definition leaves_loop (reply : option ExecutionResponse * option error) : bool :=
  IsQueryOk (snd reply) (fst reply)
  || (is_TransportException (snd reply) || IsServerSessionError (fst reply)).

(** What no operation changes in a session: the pool references, the
    timezone and the two policies, and for a session of a connection pool
    its identity and timestamp as well. *)
Definition session_kept (s s' : Session) : Prop :=
  connPool s' = connPool s
  /\ sessPool s' = sessPool s
  /\ timezone s' = timezone s
  /\ reconnectCfg s' = reconnectCfg s
  /\ retryCfg s' = retryCfg s
  /\ (connPool s <> None ->
      sessionID s' = sessionID s /\ returnedAt s' = returnedAt s).

(** A computation that ends in a session related by [R] to the one it
    started in. *)
Definition relates {A} (R : Session -> Session -> Prop) (c : M A) : Prop :=
  forall st st', final_state (c st) = Some st' -> R (session st) (session st').

(** The response that [executeWithReconnect] hands to
    [reconnectWithExecuteErr]. *)
Definition param_of (resp : Iface) : option ExecutionResponse :=
  match resp with
  | IResultSet (Some r) => rs_resp r
  | _ => None
  end.

(** [executeWithReconnect] does not return the first outcome of [f]. *)
Definition escalates (resp : Iface) (err : option error) : Prop :=
  match resp with
  | IResultSet (Some r) => IsQueryOk err (rs_resp r) = false
  | IResultSet None => False
  | _ => err <> None
  end.

(** What [value2Nvalue] returns on a value that holds an unsupported type
    somewhere, and on one that holds none. *)
Definition conversion_outcome (any : GoValue) : Prop :=
  (unsupported_in any = true ->
   exists e, value2Nvalue int64_unrepresentable parse_error any = (NewValue, Some e))
  /\ (unsupported_in any = false ->
      snd (value2Nvalue int64_unrepresentable parse_error any) = None).

(* =================================================================== *)
(** ** Facts: arithmetic of the float model *)

Lemma pow2_pos (n : Z) : 0 <= n -> 0 < 2 ^ n.
Proof. intros; apply Z.pow_pos_nonneg; lia. Qed.

Lemma pow2_split (a b : Z) : 0 <= a -> 0 <= b -> 2 ^ (a + b) = 2 ^ a * 2 ^ b.
Proof. intros; apply Z.pow_add_r; assumption. Qed.

(** On integers around the rounding boundaries of both formats,
    [float_of_Z] yields the value that the Standard Library's IEEE 754
    rounding yields. *)
Example float_of_Z_agrees_with_SpecFloat :
  forallb (fun z =>
             float_eqb (of_spec_float (SpecFloat.binary_normalize 53 1024 z 0 false))
                       (float_of_Z 53 z)
             && float_eqb (of_spec_float (SpecFloat.binary_normalize 24 128 z 0 false))
                          (float_of_Z 24 z))
          [0; 5; -5; 2 ^ 24 + 1; 2 ^ 24 + 3; 2 ^ 25 + 2; 2 ^ 25 + 6;
           2 ^ 53 + 1; 2 ^ 53 + 3; - (2 ^ 53 + 1); 2 ^ 54 + 2; 2 ^ 54 + 6;
           2 ^ 62 + 2 ^ 9; 2 ^ 62 + 2 ^ 9 + 1; 2 ^ 63 - 1; - 2 ^ 63;
           123456789123456789; 9007199254740993]
  = true.
Proof. vm_compute. reflexivity. Qed.

(** Rounding an integer that already fits the precision changes nothing:
    the result is some [q * 2^k] equal to the integer. *)
Lemma float_of_Z_representable (prec m e : Z) (neg : bool) :
  0 < prec -> 0 <= m < 2 ^ prec -> 0 <= e ->
  let z := if neg then - (m * 2 ^ e) else m * 2 ^ e in
  exists q k, float_of_Z prec z = F_fin (z <? 0) q k
              /\ 0 <= k /\ 0 <= q /\ q * 2 ^ k = m * 2 ^ e.
Proof.
  intros Hprec Hm He z.
  assert (Hpe : 0 < 2 ^ e) by (apply pow2_pos; lia).
  assert (Habs : Z.abs z = m * 2 ^ e).
  { subst z; destruct neg; [rewrite Z.abs_opp|]; apply Z.abs_eq; nia. }
  unfold float_of_Z. rewrite Habs.
  destruct (Z.leb_spec (Z.log2 (m * 2 ^ e) + 1 - prec) 0) as [Hk|Hk].
  - exists (m * 2 ^ e), 0. rewrite Z.pow_0_r. repeat split; try lia; nia.
  - set (a := m * 2 ^ e) in *. set (k := Z.log2 a + 1 - prec) in *.
    assert (Ha : 0 < a).
    { destruct (Z.eq_dec a 0) as [E|E]; [|subst a; nia].
      subst k. rewrite E in Hk. change (Z.log2 0) with 0 in Hk. lia. }
    assert (Hke : k <= e).
    { assert (a < 2 ^ (prec + e)).
      { rewrite pow2_split by lia. subst a. nia. }
      assert (Z.log2 a < prec + e) by (apply Z.log2_lt_pow2; lia).
      subst k; lia. }
    assert (Hdiv : a = (m * 2 ^ (e - k)) * 2 ^ k).
    { subst a. replace e with ((e - k) + k) at 1 by lia.
      rewrite pow2_split by lia. ring. }
    assert (Hpk : 0 < 2 ^ k) by (apply pow2_pos; lia).
    assert (Hq : a / 2 ^ k = m * 2 ^ (e - k)).
    { rewrite Hdiv at 1. apply Z.div_mul. lia. }
    assert (Hr : a mod 2 ^ k = 0).
    { rewrite Hdiv at 1. apply Z.mod_mul. lia. }
    assert (Hhalf : 0 < 2 ^ (k - 1)) by (apply pow2_pos; lia).
    rewrite Hr, Hq.
    replace (2 ^ (k - 1) <? 0) with false by (symmetry; apply Z.ltb_ge; lia).
    replace (0 =? 2 ^ (k - 1)) with false by (symmetry; apply Z.eqb_neq; lia).
    simpl. exists (m * 2 ^ (e - k)), k.
    assert (0 < 2 ^ (e - k)) by (apply pow2_pos; lia).
    repeat split; try lia; nia.
Qed.

(** Whatever integer is rounded, the result is an integer-valued float. *)
Lemma float_of_Z_shape (prec z : Z) :
  exists s q k, float_of_Z prec z = F_fin s q k /\ 0 <= k.
Proof.
  unfold float_of_Z.
  destruct (Z.leb_spec (Z.log2 (Z.abs z) + 1 - prec) 0).
  - eexists _, _, 0; split; [reflexivity | lia].
  - eexists _, _, _; split; [reflexivity | lia].
Qed.

(** A float with a fractional part equals no integer-valued float. *)
Lemma float_eqb_fractional (s s' : bool) (m e q k : Z) :
  e < 0 -> m mod 2 ^ (- e) <> 0 -> 0 <= k ->
  float_eqb (F_fin s m e) (F_fin s' q k) = false.
Proof.
  intros He Hm Hk. unfold float_eqb.
  rewrite Z.min_l by lia. rewrite Z.sub_diag, Z.pow_0_r, Z.mul_1_r.
  assert (Hmult : (q * 2 ^ (k - e)) mod 2 ^ (- e) = 0).
  { replace (k - e) with (k + - e) by lia. rewrite pow2_split by lia.
    rewrite Z.mul_assoc. apply Z.mod_mul.
    assert (0 < 2 ^ (- e)) by (apply pow2_pos; lia). lia. }
  assert (Hne : m <> q * 2 ^ (k - e)) by (intros E; rewrite E in Hm; auto).
  assert (Hm0 : m <> 0).
  { intros E; subst m. apply Hm. apply Z.mod_0_l.
    assert (0 < 2 ^ (- e)) by (apply pow2_pos; lia). lia. }
  apply Z.eqb_neq in Hne, Hm0. rewrite Hne, Hm0.
  rewrite andb_false_r. reflexivity.
Qed.

(** Two finite floats with the same sign and the same dyadic value are
    [==]. *)
Lemma float_eqb_same_value (s : bool) (m e a q k : Z) :
  0 <= k -> 0 <= a ->
  (0 <= e /\ a = m * 2 ^ e) \/ (e < 0 /\ m = a * 2 ^ (- e)) ->
  q * 2 ^ k = a ->
  float_eqb (F_fin s m e) (F_fin ((if s then - a else a) <? 0) q k) = true.
Proof.
  intros Hk Ha Hval Hq. unfold float_eqb.
  assert (Hsign : a <> 0 -> ((if s then - a else a) <? 0) = s).
  { intros; destruct s; [apply Z.ltb_lt | apply Z.ltb_ge]; lia. }
  assert (Heq : m * 2 ^ (e - Z.min e k) = q * 2 ^ (k - Z.min e k)).
  { destruct Hval as [[He Hv]|[He Hv]].
    - assert (Hmin : 0 <= Z.min e k) by lia.
      assert (Hp : 0 < 2 ^ Z.min e k) by (apply pow2_pos; lia).
      apply Z.mul_cancel_r with (p := 2 ^ Z.min e k); [lia|].
      rewrite <- !Z.mul_assoc, <- !pow2_split by lia.
      replace (e - Z.min e k + Z.min e k) with e by lia.
      replace (k - Z.min e k + Z.min e k) with k by lia. lia.
    - rewrite Z.min_l by lia. rewrite Z.sub_diag, Z.pow_0_r, Z.mul_1_r.
      replace (k - e) with (k + - e) by lia. rewrite pow2_split by lia.
      rewrite Z.mul_assoc, Hq. exact Hv. }
  rewrite Heq, Z.eqb_refl, andb_true_r.
  destruct (Z.eq_dec a 0) as [E|E].
  - assert (q * 2 ^ (k - Z.min e k) = 0).
    { rewrite <- Heq. destruct Hval as [[He Hv]|[He Hv]].
      + assert (0 < 2 ^ e) by (apply pow2_pos; lia).
        assert (m = 0) by nia. subst m. apply Z.mul_0_l.
      + rewrite Hv, E. reflexivity. }
    rewrite H, Z.eqb_refl. reflexivity.
  - rewrite (Hsign E). rewrite eqb_reflx. apply orb_true_r.
Qed.


(* =================================================================== *)
(** ** Facts: the codec on floats *)

(** An integral float of precision [prec] is [==] to the float made from
    its integer part. *)
Lemma integral_roundtrip (prec emin emax : Z) (v : float) (z : Z) :
  0 < prec -> float_valid prec emin emax v -> float_integral v ->
  float_trunc v = Some z ->
  float_eqb v (float_of_Z prec z) = true.
Proof.
  intros Hprec Hvalid Hint Htr.
  destruct v as [| |s m e]; simpl in Hint; try contradiction.
  simpl in Hvalid, Htr. destruct Hvalid as [Hm _].
  injection Htr as Htr.
  destruct (Z.leb_spec 0 e) as [He|He].
  - destruct (float_of_Z_representable prec m e s Hprec Hm He) as (q & k & Hf & Hk & Hq & Hv).
    cbv zeta in Hf. rewrite Htr in Hf. rewrite Hf. rewrite <- Htr.
    apply float_eqb_same_value with (a := m * 2 ^ e); try assumption.
    + assert (0 < 2 ^ e) by (apply pow2_pos; lia). nia.
    + left; split; [assumption | reflexivity].
  - destruct Hint as [Hint | [_ Hmod]]; [lia|].
    assert (Hp : 0 < 2 ^ (- e)) by (apply pow2_pos; lia).
    set (a := m / 2 ^ (- e)) in *.
    assert (Hma : m = a * 2 ^ (- e)).
    { subst a. rewrite Z.mul_comm. apply Z.div_exact; lia. }
    assert (Ha : 0 <= a < 2 ^ prec).
    { split; [subst a; apply Z.div_pos; lia | nia]. }
    destruct (float_of_Z_representable prec a 0 s Hprec Ha (Z.le_refl 0))
      as (q & k & Hf & Hk & Hq & Hv).
    cbv zeta in Hf. rewrite Z.pow_0_r, Z.mul_1_r in Hf, Hv.
    rewrite Htr in Hf. rewrite Hf. rewrite <- Htr.
    apply float_eqb_same_value with (a := a); try assumption; lia.
Qed.

(** A float with a fractional part is [==] to no float made from an
    integer. *)
Lemma fractional_no_roundtrip (prec : Z) (v : float) (z : Z) :
  float_fractional v -> float_eqb v (float_of_Z prec z) = false.
Proof.
  intros Hfr. destruct v as [| |s m e]; simpl in Hfr; try contradiction.
  destruct Hfr as [He Hm].
  destruct (float_of_Z_shape prec z) as (s' & q & k & Hf & Hk).
  rewrite Hf. apply float_eqb_fractional; assumption.
Qed.

Lemma int64_of_float_in_range (v : float) (z : Z) :
  float_trunc v = Some z -> in_int64 z = true ->
  int64_of_float int64_unrepresentable v = z.
Proof. intros Htr Hin. unfold int64_of_float. rewrite Htr, Hin. reflexivity. Qed.


(** C6 (amended): a float64 or float32 with zero fractional part whose
    value fits in an int64 is converted to the integer variant holding
    that value, never to the double variant; a float64 or float32 with a
    nonzero fractional part is converted to the double variant, the
    float32 widened to float64. *)
Theorem float_collapse_within_int64 (v : float) :
  (forall z, valid_float64 v -> float_integral v ->
             float_trunc v = Some z -> in_int64 z = true ->
             value2Nvalue int64_unrepresentable parse_error (GoFloat64 v)
             = (set_IVal NewValue z, None))
  /\ (forall z, valid_float32 v -> float_integral v ->
                float_trunc v = Some z -> in_int64 z = true ->
                value2Nvalue int64_unrepresentable parse_error (GoFloat32 v)
                = (set_IVal NewValue z, None))
  /\ (float_fractional v ->
      value2Nvalue int64_unrepresentable parse_error (GoFloat64 v) = (set_FVal NewValue v, None))
  /\ (float_fractional v ->
      value2Nvalue int64_unrepresentable parse_error (GoFloat32 v)
      = (set_FVal NewValue (float64_of_float32 v), None)).
Proof.
  repeat split.
  - intros z Hvalid Hint Htr Hin. simpl.
    rewrite (int64_of_float_in_range v z Htr Hin).
    unfold float64_of_int64.
    rewrite (integral_roundtrip 53 (-1074) 971 v z); auto; lia.
  - intros z Hvalid Hint Htr Hin. simpl.
    rewrite (int64_of_float_in_range v z Htr Hin).
    unfold float32_of_int64.
    rewrite (integral_roundtrip 24 (-149) 104 v z); auto; lia.
  - intros Hfr. simpl. unfold float64_of_int64.
    rewrite fractional_no_roundtrip by assumption. reflexivity.
  - intros Hfr. simpl. unfold float32_of_int64.
    rewrite fractional_no_roundtrip by assumption. reflexivity.
Qed.

(** No [int64] converts to the float 2^64: the nearest float of an [int64]
    has magnitude at most 2^63. *)
Lemma no_int64_rounds_to_two_pow_64 (y : Z) :
  in_int64 y = true -> float_eqb float_two_pow_64 (float_of_Z 53 y) = false.
Proof.
  unfold in_int64, int64_min, int64_max, float_two_pow_64. intros Hy.
  apply andb_prop in Hy. destruct Hy as [Hlo Hhi].
  apply Z.leb_le in Hlo, Hhi.
  assert (Ha : 0 <= Z.abs y <= 2 ^ 63) by lia.
  unfold float_of_Z. set (a := Z.abs y) in *. set (k := Z.log2 a + 1 - 53).
  assert (Hlog : a < 2 ^ (k + 53)).
  { destruct (Z.eq_dec a 0) as [E|E].
    - rewrite E. apply pow2_pos. subst k. rewrite E. change (Z.log2 0) with 0. lia.
    - subst k. replace (Z.log2 a + 1 - 53 + 53) with (Z.succ (Z.log2 a)) by lia.
      apply Z.log2_spec. lia. }
  destruct (Z.leb_spec k 0) as [Hk|Hk].
  - assert (a < 2 ^ 53).
    { eapply Z.lt_le_trans; [exact Hlog|]. apply Z.pow_le_mono_r; lia. }
    unfold float_eqb. rewrite Z.min_r by lia.
    rewrite Z.sub_0_r, Z.sub_diag, Z.pow_0_r, Z.mul_1_r, Z.mul_1_l.
    change (2 ^ 64) with 18446744073709551616.
    change (2 ^ 53) with 9007199254740992 in H.
    replace (18446744073709551616 =? a) with false by (symmetry; apply Z.eqb_neq; lia).
    simpl. apply andb_false_r.
  - assert (Hk11 : k <= 11).
    { assert (Hl : Z.log2 a <= Z.log2 (2 ^ 63)) by (apply Z.log2_le_mono; lia).
      rewrite Z.log2_pow2 in Hl by lia. subst k; lia. }
    assert (Hpk : 0 < 2 ^ k) by (apply pow2_pos; lia).
    assert (Hq : 0 <= a / 2 ^ k < 2 ^ 53).
    { split; [apply Z.div_pos; lia|].
      apply Z.div_lt_upper_bound; [lia|].
      rewrite <- pow2_split by lia. replace (k + 53) with (k + 53) by lia. exact Hlog. }
    set (q := a / 2 ^ k) in *. set (r := a mod 2 ^ k).
    set (q' := if (2 ^ (k - 1) <? r) || ((r =? 2 ^ (k - 1)) && Z.odd q) then q + 1 else q).
    assert (Hq' : 0 <= q' < 2 ^ (64 - k)).
    { destruct (Z.eq_dec k 11) as [E|E].
      - assert (Ea : a = 2 ^ 63).
        { assert (2 ^ 63 <= a); [|lia].
          destruct (Z.eq_dec a 0) as [E0|E0].
          - subst k. rewrite E0 in E. simpl in E. lia.
          - replace 63 with (Z.log2 a) by (subst k; lia). apply Z.log2_spec. lia. }
        subst q' q r. rewrite E, Ea. vm_compute. split; [discriminate | reflexivity].
      - assert (2 ^ 54 <= 2 ^ (64 - k)) by (apply Z.pow_le_mono_r; lia).
        change (2 ^ 54) with 18014398509481984 in H.
        change (2 ^ 53) with 9007199254740992 in Hq.
        subst q'. destruct (_ || _); lia. }
    unfold float_eqb. rewrite Z.min_r by lia.
    rewrite Z.sub_diag, Z.pow_0_r, Z.mul_1_r, Z.mul_1_l.
    assert (0 < 2 ^ (64 - k)) by (apply pow2_pos; lia).
    replace (2 ^ (64 - k) =? q') with false by (symmetry; apply Z.eqb_neq; lia).
    replace (2 ^ (64 - k) =? 0) with false by (symmetry; apply Z.eqb_neq; lia).
    simpl. apply andb_false_r.
Qed.

(** Whatever the platform makes of [int64(v)] there, the float 2^64 (which
    has no fractional part) is converted to the double variant. *)
Lemma two_pow_64_stays_double :
  in_int64 (int64_unrepresentable float_two_pow_64) = true ->
  value2Nvalue int64_unrepresentable parse_error (GoFloat64 float_two_pow_64)
  = (set_FVal NewValue float_two_pow_64, None).
Proof.
  intros Hrange.
  change (value2Nvalue int64_unrepresentable parse_error (GoFloat64 float_two_pow_64))
    with (if float_eqb float_two_pow_64
               (float64_of_int64 (int64_of_float int64_unrepresentable float_two_pow_64))
          then (set_IVal NewValue (int64_of_float int64_unrepresentable float_two_pow_64),
                @None error)
          else (set_FVal NewValue float_two_pow_64, None)).
  unfold float64_of_int64.
  rewrite no_int64_rounds_to_two_pow_64; [reflexivity|].
  unfold int64_of_float. exact Hrange.
Qed.

(* =================================================================== *)
(** ** Facts: the codec on lists, maps and unsupported types *)

(** Induction on host values, through the lists nested in them. *)
Lemma GoValue_nested_ind (P : GoValue -> Prop) :
  (forall any,
      match any with
      | GoSlice l => Forall P l
      | GoMap m => Forall (fun kv => P (snd kv)) m
      | _ => True
      end -> P any) ->
  forall any, P any.
Proof.
  intros Hstep. fix IH 1. intros any. apply Hstep.
  destruct any as [| | | | | |l|m| | | | | | |]; try exact I.
  - induction l as [|x l IHl]; constructor; [apply IH | exact IHl].
  - induction m as [|[k x] m IHm]; constructor; [apply IH | exact IHm].
Qed.

Lemma slice_loop_abort (conv : GoValue -> Value * option error)
    (pre : list GoValue) (x : GoValue) (post : list GoValue) (e : error) :
  Forall (fun y => snd (conv y) = None) pre -> snd (conv x) = Some e ->
  forall sv, slice_loop conv (pre ++ x :: post) sv = (None, Some e).
Proof.
  intros Hpre Hx. induction Hpre as [|y pre Hy _ IH]; intros sv; simpl.
  - destruct (conv x) as [nv er]. simpl in Hx. subst er. reflexivity.
  - destruct (conv y) as [nv er]. simpl in Hy. subst er. apply IH.
Qed.

Lemma params_loop_abort (wrap : error -> error)
    (conv : GoValue -> Value * option error)
    (pre : list (string * GoValue)) (k : string) (x : GoValue)
    (post : list (string * GoValue)) (e : error) :
  Forall (fun kv => snd (conv (snd kv)) = None) pre -> snd (conv x) = Some e ->
  forall paramsMap,
    params_loop wrap conv (pre ++ (k, x) :: post) paramsMap = (None, Some (wrap e)).
Proof.
  intros Hpre Hx. induction Hpre as [|[k' y] pre Hy _ IH]; intros pm; simpl.
  - destruct (conv x) as [nv er]. simpl in Hx. subst er. reflexivity.
  - simpl in Hy. destruct (conv y) as [nv er]. simpl in Hy. subst er. apply IH.
Qed.

(** Whether and with what the loop succeeds does not depend on what it
    does to errors. *)
Lemma params_loop_success_any_wrap (wrap wrap' : error -> error)
    (conv : GoValue -> Value * option error) (m : list (string * GoValue)) :
  forall paramsMap kvs,
    params_loop wrap conv m paramsMap = (Some kvs, None) ->
    params_loop wrap' conv m paramsMap = (Some kvs, None).
Proof.
  induction m as [|[k y] m IH]; intros pm kvs H; simpl in *.
  - exact H.
  - destruct (conv y) as [nv [e|]]; [discriminate H | apply IH; exact H].
Qed.

Lemma slice_loop_total (conv : GoValue -> Value * option error) (l : list GoValue) :
  Forall (fun y => snd (conv y) = None) l ->
  forall sv, exists nl, slice_loop conv l sv = (Some nl, None).
Proof.
  intros Hl. induction Hl as [|y l Hy _ IH]; intros sv; simpl.
  - eexists; reflexivity.
  - destruct (conv y) as [nv er]. simpl in Hy. subst er. apply IH.
Qed.

Lemma params_loop_total (wrap : error -> error)
    (conv : GoValue -> Value * option error) (m : list (string * GoValue)) :
  Forall (fun kv => snd (conv (snd kv)) = None) m ->
  forall paramsMap, exists kvs, params_loop wrap conv m paramsMap = (Some kvs, None).
Proof.
  intros Hm. induction Hm as [|[k y] m Hy _ IH]; intros pm; simpl.
  - eexists; reflexivity.
  - simpl in Hy. destruct (conv y) as [nv er]. simpl in Hy. subst er. apply IH.
Qed.

Lemma slice_loop_unsupported (l : list GoValue) :
  Forall conversion_outcome l -> existsb unsupported_in l = true ->
  forall sv, exists e, slice_loop (value2Nvalue int64_unrepresentable parse_error) l sv
                       = (None, Some e).
Proof.
  intros Hl. induction Hl as [|y l [Hbad Hgood] _ IH]; intros Hex sv; simpl in *.
  - discriminate.
  - destruct (unsupported_in y) eqn:Hy.
    + destruct (Hbad eq_refl) as [t Ht]. rewrite Ht. exists t. reflexivity.
    + specialize (Hgood eq_refl).
      destruct (value2Nvalue int64_unrepresentable parse_error y) as [nv er].
      simpl in Hgood. subst er. apply IH. exact Hex.
Qed.

Lemma params_loop_unsupported (m : list (string * GoValue)) :
  Forall (fun kv => conversion_outcome (snd kv)) m ->
  existsb (fun kv => unsupported_in (snd kv)) m = true ->
  forall wrap paramsMap, exists e,
    params_loop wrap (value2Nvalue int64_unrepresentable parse_error) m paramsMap
    = (None, Some e).
Proof.
  intros Hm. induction Hm as [|[k y] m [Hbad Hgood] _ IH]; intros Hex wrap pm; simpl in *.
  - discriminate.
  - destruct (unsupported_in y) eqn:Hy.
    + destruct (Hbad eq_refl) as [t Ht]. rewrite Ht. exists (wrap t). reflexivity.
    + specialize (Hgood eq_refl).
      destruct (value2Nvalue int64_unrepresentable parse_error y) as [nv er].
      simpl in Hgood. subst er. apply IH. exact Hex.
Qed.

Lemma Forall_supported {A} (f : A -> GoValue) (l : list A) :
  Forall (fun a => conversion_outcome (f a)) l ->
  existsb (fun a => unsupported_in (f a)) l = false ->
  Forall (fun a => snd (value2Nvalue int64_unrepresentable parse_error (f a)) = None) l.
Proof.
  intros Hl. induction Hl as [|y l [_ Hgood] _ IH]; intros Hex; simpl in *.
  - constructor.
  - apply orb_false_elim in Hex. destruct Hex as [Hy Hex].
    constructor; [apply Hgood; exact Hy | apply IH; exact Hex].
Qed.

(** The list and map arms of [value2Nvalue] are calls of [slice2Nlist]
    and [map2Nmap]. *)
Lemma value2Nvalue_GoSlice (v : list GoValue) :
  value2Nvalue int64_unrepresentable parse_error (GoSlice v)
  = (let '(nv, er) := slice2Nlist int64_unrepresentable parse_error v in
     (set_LVal NewValue nv, er)).
Proof. reflexivity. Qed.

Lemma value2Nvalue_GoMap (v : list (string * GoValue)) :
  value2Nvalue int64_unrepresentable parse_error (GoMap v)
  = (let '(nv, er) := map2Nmap int64_unrepresentable parse_error v in
     (set_MVal NewValue nv, er)).
Proof. reflexivity. Qed.

Lemma value2Nvalue_outcome (any : GoValue) : conversion_outcome any.
Proof.
  induction any as [any IH] using GoValue_nested_ind.
  destruct any as [| | v | v | | |l|m| | | | | | |t];
    try (split; intros H; [discriminate H | reflexivity]).
  - split; intros H; [discriminate H|]. simpl.
    destruct (float_eqb _ _); reflexivity.
  - split; intros H; [discriminate H|]. simpl.
    destruct (float_eqb _ _); reflexivity.
  - split; intros H; rewrite value2Nvalue_GoSlice; unfold slice2Nlist;
      simpl in H.
    + destruct (slice_loop_unsupported l IH H []) as [t Ht].
      rewrite Ht. exists t. reflexivity.
    + destruct (slice_loop_total (value2Nvalue int64_unrepresentable parse_error) l
                  (Forall_supported (fun y => y) l IH H) []) as [nl Hnl].
      rewrite Hnl. reflexivity.
  - split; intros H; rewrite value2Nvalue_GoMap; unfold map2Nmap, parseParams;
      simpl in H.
    + destruct (params_loop_unsupported m IH H parse_error []) as [t Ht].
      rewrite Ht. exists t. reflexivity.
    + destruct (params_loop_total parse_error
                  (value2Nvalue int64_unrepresentable parse_error) m
                  (Forall_supported snd m IH H) []) as [kvs Hk].
      rewrite Hk. reflexivity.
  - split; intros H; [|discriminate H]. eexists. reflexivity.
Qed.


(** C7: a host value of an unsupported type is converted to a
    ConversionError whose message names that type; a list or a map that
    holds such a value (at any depth) is converted to that error and an
    empty wire value, and conversion of a list or map stops at its first
    failing element, whose error it returns with a nil list or map. *)
Theorem unsupported_type_is_conversion_error :
  (forall t, value2Nvalue int64_unrepresentable parse_error (GoOther t)
             = (NewValue, Some (PlainError (unsupported_msg t)))
             /\ Error (PlainError (unsupported_msg t))
                = ("Only support convert boolean/float/int/string/map/list to nebula.Value but "
                     ++ t)%string)
  /\ (forall any, unsupported_in any = true ->
        exists e, value2Nvalue int64_unrepresentable parse_error any = (NewValue, Some e))
  /\ (forall pre x post e,
        Forall (fun y => snd (value2Nvalue int64_unrepresentable parse_error y) = None) pre ->
        snd (value2Nvalue int64_unrepresentable parse_error x) = Some e ->
        slice2Nlist int64_unrepresentable parse_error (pre ++ x :: post) = (None, Some e)
        /\ value2Nvalue int64_unrepresentable parse_error (GoSlice (pre ++ x :: post))
           = (NewValue, Some e))
  /\ (forall pre k x post e,
        Forall (fun kv => snd (value2Nvalue int64_unrepresentable parse_error (snd kv)) = None) pre ->
        snd (value2Nvalue int64_unrepresentable parse_error x) = Some e ->
        parseParams int64_unrepresentable parse_error (pre ++ (k, x) :: post)
        = (None, Some (parse_error e))
        /\ map2Nmap int64_unrepresentable parse_error (pre ++ (k, x) :: post)
           = (None, Some (parse_error e))
        /\ value2Nvalue int64_unrepresentable parse_error (GoMap (pre ++ (k, x) :: post))
           = (NewValue, Some (parse_error e))).
Proof.
  split; [|split; [|split]].
  - intros t. split; reflexivity.
  - intros any H. exact (proj1 (value2Nvalue_outcome any) H).
  - intros pre x post e Hpre Hx.
    assert (Hs : slice2Nlist int64_unrepresentable parse_error (pre ++ x :: post) = (None, Some e)).
    { unfold slice2Nlist. apply slice_loop_abort; assumption. }
    split; [exact Hs|]. rewrite value2Nvalue_GoSlice, Hs. reflexivity.
  - intros pre k x post e Hpre Hx.
    assert (Hp : parseParams int64_unrepresentable parse_error (pre ++ (k, x) :: post)
                 = (None, Some (parse_error e))).
    { unfold parseParams. apply params_loop_abort; assumption. }
    assert (Hm : map2Nmap int64_unrepresentable parse_error (pre ++ (k, x) :: post)
                 = (None, Some (parse_error e))).
    { unfold map2Nmap. rewrite Hp. reflexivity. }
    split; [exact Hp|]. split; [exact Hm|].
    rewrite value2Nvalue_GoMap, Hm. reflexivity.
Qed.



(* =================================================================== *)
(** ** Facts: traces and the monad *)

#[local] Arguments String.append : simpl never.

Lemma count_app (p : Event -> bool) (a b : list Event) :
  count p (a ++ b) = (count p a + count p b)%nat.
Proof. induction a as [|ev a IH]; simpl; [reflexivity|]. destruct (p ev); lia. Qed.

Lemma bind_Return {A B} (c : M A) (k : A -> M B) (st st' : State) (a : A) :
  c st = Return a st' -> bind c k st = k a st'.
Proof. intros H. unfold bind. rewrite H. reflexivity. Qed.

Lemma int_incr_small (x : Z) :
  int64_min <= x + 1 <= int64_max -> int_incr x = x + 1.
Proof.
  unfold int_incr, wrap_int64, int64_min, int64_max. intros H.
  rewrite Z.mod_small; lia.
Qed.

Lemma residual_error (resp : option ExecutionResponse) (err : option error) :
  residual (resp, err) -> exists e, err = Some e.
Proof.
  intros (Hok & _ & Hsess). simpl in *. unfold IsQueryOk in Hok.
  rewrite Hsess in Hok. destruct err as [e|]; [exists e; reflexivity | discriminate].
Qed.

(* =================================================================== *)
(** ** Facts: the retry loop *)

(** With [n + 1] attempts left and residual errors only, the loop makes
    [n + 1] calls and leaves with the answer to the last of them. *)
Lemma exec_retry_residual (n : nat) :
  forall (fuel : nat) (st : State) (c : connection) (stmt : string)
         (pm : list (string * Value)) (r : Z),
    connection_ (session st) = Some c ->
    0 <= r ->
    r + Z.of_nat (S n) = RetryConfig.MaxTime (retryCfg (session st)) ->
    RetryConfig.MaxTime (retryCfg (session st)) <= int64_max ->
    (forall k, (count is_EvExecute (trace st) <= k)%nat ->
               residual (conn_executeWithParameter k c (sessionID (session st)) stmt pm)) ->
    (S n <= fuel)%nat ->
    exists evs,
      exec_retry_loop fuel stmt pm r st
      = Return (conn_executeWithParameter (count is_EvExecute (trace st) + n) c
                  (sessionID (session st)) stmt pm)
               (mkState (session st) (evs ++ trace st))
      /\ count is_EvExecute evs = S n
      /\ count is_remote evs = S n
      /\ count is_clock_read evs = O
      /\ count is_EvNow evs = O
      /\ count is_EvSleep evs = n.
Proof.
  induction n as [|n IH]; intros fuel st c stmt pm r Hc Hr HN Hmax Hres Hfuel;
    (destruct fuel as [|fuel]; [lia|]);
    destruct st as [s tr]; simpl in Hc, HN, Hmax, Hres |- *;
    unfold bind, get_session, connection_executeWithParameter; simpl;
    rewrite Hc; unfold bind, earlier, emit, ret; simpl;
    pose proof (Hres (count is_EvExecute tr) (Nat.le_refl _)) as Hk;
    destruct (conn_executeWithParameter (count is_EvExecute tr) c (sessionID s) stmt pm)
      as [resp err] eqn:Hreply;
    destruct (residual_error _ _ Hk) as [e He];
    destruct Hk as (Hok & Htr & Hsess); simpl in Hok, Htr, Hsess;
    rewrite Hok, Htr, Hsess; simpl;
    assert (Hpos : (0 <? RetryConfig.MaxTime (retryCfg s)) = true)
      by (apply Z.ltb_lt; lia);
    rewrite Hpos; simpl;
    rewrite int_incr_small by (unfold int64_min; lia).
  - replace (RetryConfig.MaxTime (retryCfg s) <=? r + 1) with true
      by (symmetry; apply Z.leb_le; lia).
    exists [EvExecute c (sessionID s) stmt pm].
    rewrite Nat.add_0_r, Hreply. repeat split.
  - replace (RetryConfig.MaxTime (retryCfg s) <=? r + 1) with false
      by (symmetry; apply Z.leb_gt; lia).
    subst err. unfold error_string, ret, log, time_Sleep, emit. simpl.
    set (tr2 := EvSleep _ :: EvLog _ _ :: EvExecute c (sessionID s) stmt pm :: tr).
    destruct (IH fuel (mkState s tr2) c stmt pm (r + 1)) as (evs & Hrun & H1 & H2 & H3 & H4 & H5);
      simpl; try assumption; try lia.
    { intros k Hle. apply Hres. subst tr2. simpl in Hle. lia. }
    simpl in Hrun. rewrite Hrun.
    exists (evs ++ [EvSleep (RetryConfig.IdleTime (retryCfg s));
                    EvLog LError ("start retry, " ++ Error e);
                    EvExecute c (sessionID s) stmt pm]).
    split.
    { subst tr2. rewrite <- app_assoc. simpl.
      replace (S (count is_EvExecute tr + n)) with (count is_EvExecute tr + S n)%nat by lia.
      reflexivity. }
    rewrite !count_app, H1, H2, H3, H4, H5. simpl. repeat split; lia.
Qed.


(** An error that is no transport exception, coming out of the closure
    with no result, is returned as it is: no reconnect cycle is entered. *)
Lemma executeWithReconnect_plain_error (fuel : nat) (f : M (Iface * option error))
    (st st' : State) (e : error) :
  f st = Return (INil, Some e) st' ->
  is_TransportException (Some e) = false ->
  executeWithReconnect fuel f st = Return (INil, Some e) st'.
Proof.
  intros Hf Htr. unfold executeWithReconnect, bind. rewrite Hf. simpl.
  unfold reconnect_and_rerun, reconnectWithExecuteErr, bind.
  rewrite Htr. simpl. reflexivity.
Qed.

(** C1: with a retry bound [N > 0] and a call that fails on every attempt
    with an error that is no transport exception, beside a response that
    is no session error, the retry loop of [ExecuteWithParameter] calls
    [N] times and leaves with the answer to the [N]-th call, whose error
    [ExecuteWithParameter] returns; nothing else reaches the transport
    or a pool. *)
Theorem retry_bound_exhausted (st : State) (c : connection) (N : Z)
    (stmt : string) (params : list (string * GoValue))
    (pm : list (string * Value)) (fuel : nat) :
  connection_ (session st) = Some c ->
  RetryConfig.MaxTime (retryCfg (session st)) = N ->
  0 < N <= int64_max ->
  parseParams int64_unrepresentable parse_error params = (Some pm, None) ->
  (forall k, (count is_EvExecute (trace st) <= k)%nat ->
             residual (conn_executeWithParameter k c (sessionID (session st)) stmt pm)) ->
  (Z.to_nat N <= fuel)%nat ->
  let last := (count is_EvExecute (trace st) + (Z.to_nat N - 1))%nat in
  exists e evs,
    snd (conn_executeWithParameter last c (sessionID (session st)) stmt pm) = Some e
    /\ exec_retry_loop fuel stmt pm 0 st
       = Return (conn_executeWithParameter last c (sessionID (session st)) stmt pm)
                (mkState (session st) (evs ++ trace st))
    /\ ExecuteWithParameter fuel stmt params st
       = Return (None, Some e) (mkState (session st) (evs ++ trace st))
    /\ count is_EvExecute evs = Z.to_nat N
    /\ count is_remote evs = Z.to_nat N
    /\ reconnect_cycles evs = O.
Proof.
  intros Hc HN HNpos Hparse Hres Hfuel last.
  destruct (exec_retry_residual (Z.to_nat N - 1) fuel st c stmt pm 0)
    as (evs & Hrun & H1 & H2 & _ & H4 & _); try assumption; try lia.
  fold last in Hrun.
  assert (Hlast : residual (conn_executeWithParameter last c (sessionID (session st)) stmt pm))
    by (apply Hres; subst last; lia).
  destruct (conn_executeWithParameter last c (sessionID (session st)) stmt pm)
    as [resp err] eqn:Hreply.
  destruct (residual_error _ _ Hlast) as [e He]. subst err.
  destruct Hlast as (_ & Htr & _). simpl in Htr.
  exists e, evs. split; [reflexivity|]. split; [exact Hrun|].
  split; [|repeat split; try assumption; lia].
  assert (Hf : execFunc fuel stmt pm st
               = Return (INil, Some e) (mkState (session st) (evs ++ trace st))).
  { unfold execFunc, bind. rewrite Hrun. reflexivity. }
  unfold ExecuteWithParameter, bind, get_session. rewrite Hc, Hparse. simpl.
  rewrite (executeWithReconnect_plain_error fuel _ st _ e Hf Htr).
  reflexivity.
Qed.


(* =================================================================== *)
(** ** Facts: which events a computation adds *)

Section Keeps.
Variable p : Event -> bool.

Lemma keeps_ret {A} (a : A) : keeps p (ret a).
Proof. intros st st' H. injection H as <-. reflexivity. Qed.

Lemma keeps_panic {A} : keeps p (@panic A).
Proof. intros st st' H. injection H as <-. reflexivity. Qed.

Lemma keeps_out_of_fuel {A} : keeps p (@out_of_fuel A).
Proof. intros st st' H. discriminate H. Qed.

Lemma keeps_bind {A B} (c : M A) (k : A -> M B) :
  keeps p c -> (forall a, keeps p (k a)) -> keeps p (bind c k).
Proof.
  intros Hc Hk st st' H. unfold bind in H.
  destruct (c st) as [a st1| st1 |] eqn:Hrun.
  - rewrite (Hk a st1 st' H). apply Hc. rewrite Hrun. reflexivity.
  - injection H as <-. apply Hc. rewrite Hrun. reflexivity.
  - discriminate H.
Qed.

Lemma keeps_get_session : keeps p get_session.
Proof. intros st st' H. injection H as <-. reflexivity. Qed.

Lemma keeps_put_session (s : Session) : keeps p (put_session s).
Proof. intros st st' H. injection H as <-. reflexivity. Qed.

Lemma keeps_earlier (q : Event -> bool) : keeps p (earlier q).
Proof. intros st st' H. injection H as <-. reflexivity. Qed.

Lemma keeps_emit (ev : Event) : p ev = false -> keeps p (emit ev).
Proof. intros Hev st st' H. injection H as <-. simpl. rewrite Hev. reflexivity. Qed.

Lemma keeps_error_string (err : option error) : keeps p (error_string err).
Proof. destruct err; [apply keeps_ret | apply keeps_panic]. Qed.
End Keeps.

Ltac keeps_step :=
  match goal with
  | |- keeps _ (bind _ _) => apply keeps_bind; [|intros ?]
  | |- keeps _ (ret _) => apply keeps_ret
  | |- keeps _ panic => apply keeps_panic
  | |- keeps _ out_of_fuel => apply keeps_out_of_fuel
  | |- keeps _ get_session => apply keeps_get_session
  | |- keeps _ (put_session _) => apply keeps_put_session
  | |- keeps _ (earlier _) => apply keeps_earlier
  | |- keeps _ (error_string _) => apply keeps_error_string
  | |- keeps _ (emit _) => apply keeps_emit; reflexivity
  | |- keeps _ (log _ _) => apply keeps_emit; reflexivity
  | |- keeps _ (time_Sleep _) => apply keeps_emit; reflexivity
  | |- keeps _ (connection_close _) => apply keeps_emit; reflexivity
  | |- keeps _ (connPool_release _ _) => apply keeps_emit; reflexivity
  | |- keeps _ (match ?x with _ => _ end) => destruct x
  end.

Ltac keeps_auto := repeat keeps_step.

Lemma reConnect_keeps_now : keeps is_EvNow reConnect.
Proof.
  unfold reConnect, connPool_getIdleConn, sessPool_newSession, connection_signOut.
  keeps_auto.
Qed.

Lemma reconnect_loop_keeps_now (fuel : nat) (retryTime startRetryTime : Z) :
  keeps is_EvNow (reconnect_loop fuel retryTime startRetryTime).
Proof.
  revert retryTime. induction fuel as [|fuel IH]; intros retryTime; simpl.
  - apply keeps_out_of_fuel.
  - apply keeps_bind; [apply reConnect_keeps_now|]. intros [e|]; [|apply keeps_ret].
    unfold time_Since. keeps_auto; apply IH.
Qed.

Lemma exec_retry_loop_keeps_now (fuel : nat) (stmt : string)
    (pm : list (string * Value)) (retryTime : Z) :
  keeps is_EvNow (exec_retry_loop fuel stmt pm retryTime).
Proof.
  revert retryTime. induction fuel as [|fuel IH]; intros retryTime; simpl.
  - apply keeps_out_of_fuel.
  - unfold connection_executeWithParameter. keeps_auto; apply IH.
Qed.

Lemma execFunc_keeps_now (fuel : nat) (stmt : string) (pm : list (string * Value)) :
  keeps is_EvNow (execFunc fuel stmt pm).
Proof.
  unfold execFunc. apply keeps_bind; [apply exec_retry_loop_keeps_now|].
  intros [resp err]. keeps_auto.
Qed.

Lemma json_retry_loop_keeps_now (fuel : nat) (stmt : string)
    (pm : list (string * Value)) (retryTime : Z) :
  keeps is_EvNow (json_retry_loop fuel stmt pm retryTime).
Proof.
  revert retryTime. induction fuel as [|fuel IH]; intros retryTime; simpl.
  - apply keeps_out_of_fuel.
  - unfold connection_ExecuteJsonWithParameter. keeps_auto; apply IH.
Qed.

Lemma return_ResultSet_keeps (p : Event -> bool) (r : Iface * option error) :
  keeps p (return_ResultSet r).
Proof. unfold return_ResultSet. keeps_auto. Qed.

Lemma return_bytes_keeps (p : Event -> bool) (r : Iface * option error) :
  keeps p (return_bytes r).
Proof. unfold return_bytes. keeps_auto. Qed.

(** A reconnect cycle reads [time.Now()] exactly once. *)
Lemma reconnect_cycle_counts_one (fuel : nat) (st st' : State) :
  final_state (reconnect_cycle fuel st) = Some st' ->
  reconnect_cycles (trace st') = S (reconnect_cycles (trace st)).
Proof.
  unfold reconnect_cycle, time_Now. intros H.
  set (rest := fun startRetryTime : Z =>
                 bind (reconnect_loop fuel 0 startRetryTime) _) in H.
  unfold bind at 1 2 3 in H. unfold earlier, emit, ret in H. simpl in H.
  assert (Hrest : forall t, keeps is_EvNow (rest t)).
  { intros t. subst rest. simpl.
    apply keeps_bind; [apply reconnect_loop_keeps_now|]. intros a. keeps_auto. }
  unfold reconnect_cycles. rewrite (Hrest _ _ _ H). reflexivity.
Qed.


(* =================================================================== *)
(** ** Facts: escalation to the reconnect cycle *)

(** One call whose answer makes the retry loop [break] at once. *)
Lemma exec_retry_loop_break (fuel : nat) (st : State) (c : connection)
    (stmt : string) (pm : list (string * Value)) (r : Z)
    (resp : option ExecutionResponse) (err : option error) :
  connection_ (session st) = Some c ->
  conn_executeWithParameter (count is_EvExecute (trace st)) c
    (sessionID (session st)) stmt pm = (resp, err) ->
  IsQueryOk err resp || (is_TransportException err || IsServerSessionError resp) = true ->
  exec_retry_loop (S fuel) stmt pm r st
  = Return (resp, err)
           (mkState (session st) (EvExecute c (sessionID (session st)) stmt pm :: trace st)).
Proof.
  intros Hc Hreply Hbreak. simpl.
  unfold bind, get_session, connection_executeWithParameter. rewrite Hc.
  unfold bind, earlier, emit, ret. simpl. rewrite Hreply.
  destruct (IsQueryOk err resp); [reflexivity|].
  simpl in Hbreak. rewrite Hbreak. reflexivity.
Qed.

(** The retry loop through [j] residual answers and then one on which it
    leaves. *)
Lemma exec_retry_until_answer (j : nat) :
  forall (fuel : nat) (st : State) (c : connection) (stmt : string)
         (pm : list (string * Value)) (r : Z),
    connection_ (session st) = Some c ->
    0 <= r ->
    RetryConfig.MaxTime (retryCfg (session st)) <= int64_max ->
    RetryConfig.MaxTime (retryCfg (session st)) <= 0
    \/ r + Z.of_nat j < RetryConfig.MaxTime (retryCfg (session st)) ->
    (forall i, (i < j)%nat ->
               residual (conn_executeWithParameter (count is_EvExecute (trace st) + i) c
                           (sessionID (session st)) stmt pm)) ->
    leaves_loop (conn_executeWithParameter (count is_EvExecute (trace st) + j) c
                   (sessionID (session st)) stmt pm) = true ->
    (j < fuel)%nat ->
    exists evs,
      exec_retry_loop fuel stmt pm r st
      = Return (conn_executeWithParameter (count is_EvExecute (trace st) + j) c
                  (sessionID (session st)) stmt pm)
               (mkState (session st) (evs ++ trace st))
      /\ count is_EvExecute evs = S j
      /\ count is_remote evs = S j
      /\ count is_EvNow evs = O
      /\ count is_EvSleep evs = j
      /\ (forall d, In (EvSleep d) evs ->
                    d = RetryConfig.IdleTime (retryCfg (session st))).
Proof.
  induction j as [|j IH]; intros fuel st c stmt pm r Hc Hr Hmax Hbound Hres Hlast Hfuel;
    (destruct fuel as [|fuel]; [lia|]).
  - rewrite Nat.add_0_r in *.
    destruct (conn_executeWithParameter (count is_EvExecute (trace st)) c
                (sessionID (session st)) stmt pm) as [resp err] eqn:Hreply.
    exists [EvExecute c (sessionID (session st)) stmt pm].
    split; [|repeat split].
    + apply (exec_retry_loop_break fuel st c stmt pm r resp err Hc Hreply). exact Hlast.
    + intros d [Hd|[]]. discriminate Hd.
  - destruct st as [s tr]. simpl in Hc, Hmax, Hbound, Hres, Hlast |- *.
    unfold bind, get_session, connection_executeWithParameter; simpl.
    rewrite Hc. unfold bind, earlier, emit, ret. simpl.
    pose proof (Hres O (Nat.lt_0_succ j)) as Hk. rewrite Nat.add_0_r in Hk.
    destruct (conn_executeWithParameter (count is_EvExecute tr) c (sessionID s) stmt pm)
      as [resp err] eqn:Hreply.
    destruct (residual_error _ _ Hk) as [e He].
    destruct Hk as (Hok & Htr & Hsess). simpl in Hok, Htr, Hsess.
    rewrite Hok, Htr, Hsess. simpl. subst err.
    set (r' := if 0 <? RetryConfig.MaxTime (retryCfg s) then int_incr r else r).
    assert (Hr' : 0 <= r'
                  /\ (RetryConfig.MaxTime (retryCfg s) <= 0
                      \/ r' + Z.of_nat j < RetryConfig.MaxTime (retryCfg s))
                  /\ (0 <? RetryConfig.MaxTime (retryCfg s))
                     && (RetryConfig.MaxTime (retryCfg s) <=? r') = false).
    { subst r'. destruct (Z.ltb_spec 0 (RetryConfig.MaxTime (retryCfg s))) as [Hp|Hp].
      - rewrite int_incr_small by (unfold int64_min; lia).
        split; [lia|]. split; [right; lia|]. apply Z.leb_gt. lia.
      - split; [lia|]. split; [left; lia | reflexivity]. }
    destruct Hr' as (Hr0 & Hbound' & Hstop). rewrite Hstop.
    unfold error_string, ret, log, time_Sleep, emit. simpl.
    set (tr2 := EvSleep _ :: EvLog _ _ :: EvExecute c (sessionID s) stmt pm :: tr).
    destruct (IH fuel (mkState s tr2) c stmt pm r')
      as (evs & Hrun & H1 & H2 & H3 & H4 & H5); cbn [session trace];
      try assumption; try lia.
    + intros i Hi. subst tr2. cbn [count is_EvExecute].
      replace (S (count is_EvExecute tr) + i)%nat with (count is_EvExecute tr + S i)%nat
        by lia.
      apply Hres. lia.
    + subst tr2. cbn [count is_EvExecute].
      replace (S (count is_EvExecute tr) + j)%nat with (count is_EvExecute tr + S j)%nat
        by lia.
      exact Hlast.
    + cbn [session trace] in Hrun. rewrite Hrun.
      exists (evs ++ [EvSleep (RetryConfig.IdleTime (retryCfg s));
                      EvLog LError ("start retry, " ++ Error e);
                      EvExecute c (sessionID s) stmt pm]).
      split.
      { subst tr2. rewrite <- app_assoc. cbn [count is_EvExecute app].
        replace (S (count is_EvExecute tr) + j)%nat with (count is_EvExecute tr + S j)%nat
          by lia.
        reflexivity. }
      rewrite !count_app, H1, H2, H3, H4. simpl.
      repeat split; try lia.
      intros d Hin. apply in_app_or in Hin. destruct Hin as [Hin|Hin].
      * apply (H5 d Hin).
      * simpl in Hin. destruct Hin as [Hd|[Hd|[Hd|[]]]]; try discriminate Hd.
        injection Hd as <-. reflexivity.
Qed.

(** The JSON retry loop through [j] errors that are no transport
    exception, and then an answer without error or with a transport
    exception, on which it returns. *)
Lemma json_retry_until_answer (j : nat) :
  forall (fuel : nat) (st : State) (c : connection) (stmt : string)
         (pm : list (string * Value)) (r : Z) (b : string) (err : option error),
    connection_ (session st) = Some c ->
    0 <= r ->
    RetryConfig.MaxTime (retryCfg (session st)) <= int64_max ->
    RetryConfig.MaxTime (retryCfg (session st)) <= 0
    \/ r + Z.of_nat j < RetryConfig.MaxTime (retryCfg (session st)) ->
    (forall i, (i < j)%nat ->
               snd (conn_ExecuteJsonWithParameter (count is_EvExecuteJson (trace st) + i) c
                      (sessionID (session st)) stmt pm) <> None
               /\ is_TransportException
                    (snd (conn_ExecuteJsonWithParameter
                            (count is_EvExecuteJson (trace st) + i) c
                            (sessionID (session st)) stmt pm)) = false) ->
    conn_ExecuteJsonWithParameter (count is_EvExecuteJson (trace st) + j) c
      (sessionID (session st)) stmt pm = (b, err) ->
    err = None \/ is_TransportException err = true ->
    (j < fuel)%nat ->
    exists evs,
      json_retry_loop fuel stmt pm r st
      = Return (match err with None => IBytes b | Some _ => INil end, err)
               (mkState (session st) (evs ++ trace st))
      /\ count is_EvExecuteJson evs = S j
      /\ count is_remote evs = S j
      /\ count is_EvNow evs = O
      /\ count is_EvSleep evs = j.
Proof.
  induction j as [|j IH];
    intros fuel st c stmt pm r b err Hc Hr Hmax Hbound Hres Hlast Hcase Hfuel;
    (destruct fuel as [|fuel]; [lia|]).
  - rewrite Nat.add_0_r in Hlast.
    exists [EvExecuteJson c (sessionID (session st)) stmt pm].
    split; [|repeat split].
    simpl. unfold bind, get_session, connection_ExecuteJsonWithParameter. rewrite Hc.
    unfold bind, earlier, emit, ret. simpl. rewrite Hlast.
    destruct err as [e|]; [|reflexivity].
    destruct Hcase as [Hcase|Hcase]; [discriminate|]. rewrite Hcase. reflexivity.
  - destruct st as [s tr]. simpl in Hc, Hmax, Hbound, Hres, Hlast |- *.
    unfold bind, get_session, connection_ExecuteJsonWithParameter; simpl.
    rewrite Hc. unfold bind, earlier, emit, ret. simpl.
    pose proof (Hres O (Nat.lt_0_succ j)) as [Hsome Htr]. rewrite Nat.add_0_r in Hsome, Htr.
    destruct (conn_ExecuteJsonWithParameter (count is_EvExecuteJson tr) c (sessionID s) stmt pm)
      as [b0 [e|]] eqn:Hreply; simpl in Hsome; try congruence.
    cbn [snd] in Htr. rewrite Htr.
    set (r' := if 0 <? RetryConfig.MaxTime (retryCfg s) then int_incr r else r).
    assert (Hr' : 0 <= r'
                  /\ (RetryConfig.MaxTime (retryCfg s) <= 0
                      \/ r' + Z.of_nat j < RetryConfig.MaxTime (retryCfg s))
                  /\ (0 <? RetryConfig.MaxTime (retryCfg s))
                     && (RetryConfig.MaxTime (retryCfg s) <=? r') = false).
    { subst r'. destruct (Z.ltb_spec 0 (RetryConfig.MaxTime (retryCfg s))) as [Hp|Hp].
      - rewrite int_incr_small by (unfold int64_min; lia).
        split; [lia|]. split; [right; lia|]. apply Z.leb_gt. lia.
      - split; [lia|]. split; [left; lia | reflexivity]. }
    destruct Hr' as (Hr0 & Hbound' & Hstop). rewrite Hstop.
    unfold log, time_Sleep, emit. simpl.
    set (tr2 := EvSleep _ :: EvLog _ _ :: EvExecuteJson c (sessionID s) stmt pm :: tr).
    destruct (IH fuel (mkState s tr2) c stmt pm r' b err)
      as (evs & Hrun & H1 & H2 & H3 & H4); cbn [session trace];
      try assumption; try lia.
    + intros i Hi. subst tr2. cbn [count is_EvExecuteJson].
      replace (S (count is_EvExecuteJson tr) + i)%nat
        with (count is_EvExecuteJson tr + S i)%nat by lia.
      apply Hres. lia.
    + subst tr2. cbn [count is_EvExecuteJson].
      replace (S (count is_EvExecuteJson tr) + j)%nat
        with (count is_EvExecuteJson tr + S j)%nat by lia.
      exact Hlast.
    + cbn [session trace] in Hrun. rewrite Hrun.
      exists (evs ++ [EvSleep (RetryConfig.IdleTime (retryCfg s));
                      EvLog LError ("start retry, " ++ Error e);
                      EvExecuteJson c (sessionID s) stmt pm]).
      split.
      { subst tr2. rewrite <- app_assoc. reflexivity. }
      rewrite !count_app, H1, H2, H3, H4. simpl.
      repeat split; lia.
Qed.

(** The calls of one run of the retry loop that returns: at least one,
    one more than it sleeps, no reading of the clock, and under a positive
    retry bound no more than the bound leaves. *)
Lemma exec_retry_loop_calls (fuel : nat) :
  forall (stmt : string) (pm : list (string * Value)) (r : Z) (st st' : State)
         (x : option ExecutionResponse * option error),
    exec_retry_loop fuel stmt pm r st = Return x st' ->
    exists evs,
      st' = mkState (session st) (evs ++ trace st)
      /\ count is_EvNow evs = O
      /\ count is_EvExecute evs = S (count is_EvSleep evs)
      /\ count is_remote evs = count is_EvExecute evs
      /\ (0 < RetryConfig.MaxTime (retryCfg (session st)) <= int64_max ->
          0 <= r < RetryConfig.MaxTime (retryCfg (session st)) ->
          Z.of_nat (count is_EvExecute evs)
          <= RetryConfig.MaxTime (retryCfg (session st)) - r).
Proof.
  induction fuel as [|fuel IH]; intros stmt pm r [s tr] st' x H; simpl in H.
  - discriminate H.
  - unfold bind at 1 in H. unfold get_session in H. cbn [session] in H.
    unfold connection_executeWithParameter in H.
    destruct (connection_ s) as [c|] eqn:Hc; [|discriminate H].
    unfold bind, earlier, emit, ret in H. cbn [session trace] in H.
    destruct (conn_executeWithParameter (count is_EvExecute tr) c (sessionID s) stmt pm)
      as [resp0 err0] eqn:Hreply.
    cbn [session trace].
    assert (Hone : forall st0 : State,
               st0 = mkState s (EvExecute c (sessionID s) stmt pm :: tr) ->
               exists evs,
                 st0 = mkState s (evs ++ tr)
                 /\ count is_EvNow evs = O
                 /\ count is_EvExecute evs = S (count is_EvSleep evs)
                 /\ count is_remote evs = count is_EvExecute evs
                 /\ (0 < RetryConfig.MaxTime (retryCfg s) <= int64_max ->
                     0 <= r < RetryConfig.MaxTime (retryCfg s) ->
                     Z.of_nat (count is_EvExecute evs)
                     <= RetryConfig.MaxTime (retryCfg s) - r)).
    { intros st0 ->. exists [EvExecute c (sessionID s) stmt pm].
      split; [reflexivity|]. split; [reflexivity|]. split; [reflexivity|].
      split; [reflexivity|]. intros _ Hr. simpl. lia. }
    destruct (IsQueryOk err0 resp0) eqn:Hok.
    { injection H as _ <-. apply Hone. reflexivity. }
    destruct (is_TransportException err0 || IsServerSessionError resp0) eqn:Hesc.
    { injection H as _ <-. apply Hone. reflexivity. }
    destruct ((0 <? RetryConfig.MaxTime (retryCfg s))
              && (RetryConfig.MaxTime (retryCfg s)
                  <=? (if 0 <? RetryConfig.MaxTime (retryCfg s)
                       then int_incr r else r))) eqn:Hbound.
    { injection H as _ <-. apply Hone. reflexivity. }
    destruct err0 as [e|]; [|discriminate H].
    cbn [error_string] in H. unfold log, time_Sleep, bind, emit, ret in H.
    cbn [session trace] in H.
    destruct (IH _ _ _ _ _ _ H) as (evs & Hst & Hnow & Hcalls & Hrem & Hle).
    cbn [session trace] in Hst, Hle.
    exists (evs ++ [EvSleep (RetryConfig.IdleTime (retryCfg s));
                    EvLog LError ("start retry, " ++ Error e);
                    EvExecute c (sessionID s) stmt pm]).
    split; [rewrite Hst, <- app_assoc; reflexivity|].
    rewrite !count_app. cbn [count is_EvNow is_EvExecute is_EvSleep is_remote].
    split; [lia|]. split; [lia|]. split; [lia|].
    intros Hpos Hr.
    destruct (Z.ltb_spec 0 (RetryConfig.MaxTime (retryCfg s))) as [Hp|Hp]; [|lia].
    rewrite int_incr_small in Hbound, Hle by (unfold int64_min; lia).
    cbn [andb] in Hbound. apply Z.leb_gt in Hbound.
    specialize (Hle Hpos ltac:(lia)). lia.
Qed.

(** The same for one run of the JSON retry loop. *)
Lemma json_retry_loop_calls (fuel : nat) :
  forall (stmt : string) (pm : list (string * Value)) (r : Z) (st st' : State)
         (x : Iface * option error),
    json_retry_loop fuel stmt pm r st = Return x st' ->
    exists evs,
      st' = mkState (session st) (evs ++ trace st)
      /\ count is_EvNow evs = O
      /\ count is_EvExecuteJson evs = S (count is_EvSleep evs)
      /\ count is_remote evs = count is_EvExecuteJson evs
      /\ (0 < RetryConfig.MaxTime (retryCfg (session st)) <= int64_max ->
          0 <= r < RetryConfig.MaxTime (retryCfg (session st)) ->
          Z.of_nat (count is_EvExecuteJson evs)
          <= RetryConfig.MaxTime (retryCfg (session st)) - r).
Proof.
  induction fuel as [|fuel IH]; intros stmt pm r [s tr] st' x H; simpl in H.
  - discriminate H.
  - unfold bind at 1 in H. unfold get_session in H. cbn [session] in H.
    unfold connection_ExecuteJsonWithParameter in H.
    destruct (connection_ s) as [c|] eqn:Hc; [|discriminate H].
    unfold bind, earlier, emit, ret in H. cbn [session trace] in H.
    destruct (conn_ExecuteJsonWithParameter (count is_EvExecuteJson tr) c (sessionID s)
                stmt pm) as [b0 err0] eqn:Hreply.
    cbn [session trace].
    assert (Hone : forall st0 : State,
               st0 = mkState s (EvExecuteJson c (sessionID s) stmt pm :: tr) ->
               exists evs,
                 st0 = mkState s (evs ++ tr)
                 /\ count is_EvNow evs = O
                 /\ count is_EvExecuteJson evs = S (count is_EvSleep evs)
                 /\ count is_remote evs = count is_EvExecuteJson evs
                 /\ (0 < RetryConfig.MaxTime (retryCfg s) <= int64_max ->
                     0 <= r < RetryConfig.MaxTime (retryCfg s) ->
                     Z.of_nat (count is_EvExecuteJson evs)
                     <= RetryConfig.MaxTime (retryCfg s) - r)).
    { intros st0 ->. exists [EvExecuteJson c (sessionID s) stmt pm].
      split; [reflexivity|]. split; [reflexivity|]. split; [reflexivity|].
      split; [reflexivity|]. intros _ Hr. simpl. lia. }
    destruct err0 as [e|].
    2:{ injection H as _ <-. apply Hone. reflexivity. }
    destruct (is_TransportException (Some e)) eqn:Htr.
    { injection H as _ <-. apply Hone. reflexivity. }
    destruct ((0 <? RetryConfig.MaxTime (retryCfg s))
              && (RetryConfig.MaxTime (retryCfg s)
                  <=? (if 0 <? RetryConfig.MaxTime (retryCfg s)
                       then int_incr r else r))) eqn:Hbound.
    { injection H as _ <-. apply Hone. reflexivity. }
    unfold log, time_Sleep, bind, emit, ret in H.
    cbn [session trace] in H.
    destruct (IH _ _ _ _ _ _ H) as (evs & Hst & Hnow & Hcalls & Hrem & Hle).
    cbn [session trace] in Hst, Hle.
    exists (evs ++ [EvSleep (RetryConfig.IdleTime (retryCfg s));
                    EvLog LError ("start retry, " ++ Error e);
                    EvExecuteJson c (sessionID s) stmt pm]).
    split; [rewrite Hst, <- app_assoc; reflexivity|].
    rewrite !count_app. cbn [count is_EvNow is_EvExecuteJson is_EvSleep is_remote].
    split; [lia|]. split; [lia|]. split; [lia|].
    intros Hpos Hr.
    destruct (Z.ltb_spec 0 (RetryConfig.MaxTime (retryCfg s))) as [Hp|Hp]; [|lia].
    rewrite int_incr_small in Hbound, Hle by (unfold int64_min; lia).
    cbn [andb] in Hbound. apply Z.leb_gt in Hbound.
    specialize (Hle Hpos ltac:(lia)). lia.
Qed.


(** The equation behind "reconnect, then run the closure once more". *)
Lemma bind_reconnect_and_rerun {A} (fuel : nat) (f : M (Iface * option error))
    (k : Iface * option error -> M A) (fail : error -> M A)
    (param : option ExecutionResponse) (err : option error) (st : State) :
  is_TransportException err || IsServerSessionError param = true ->
  (forall e2 st2, k (INil, Some e2) st2 = fail e2 st2) ->
  bind (reconnect_and_rerun fuel f param err) k st
  = bind (reconnect_cycle fuel)
         (fun err2 => match err2 with
                      | Some e2 => fail e2
                      | None => bind f k
                      end) st.
Proof.
  intros Hguard Hfail.
  unfold reconnect_and_rerun, reconnectWithExecuteErr.
  replace (negb (is_TransportException err) && negb (IsServerSessionError param))
    with false
    by (destruct (is_TransportException err), (IsServerSessionError param);
        simpl in *; congruence).
  unfold bind. destruct (reconnect_cycle fuel st) as [[e2|] st2 | st2 |];
    try reflexivity.
  simpl. apply Hfail.
Qed.

(** C2 (amended): an answer with a nil error and a response that is no
    session error, whatever its error code, ends the retry loop with that
    call, be it the first or one that follows retried errors; the response
    reaches the caller in the result set and no reconnect is triggered.
    An error that is no transport exception, beside a response that is no
    session error, is retried: with a retry bound [N > 0] and such an
    answer to every call, the call is made exactly [N] times, with a sleep
    between two calls, and the error of the [N]-th call is returned to the
    caller as it is, without any reconnect; so is every such error that a
    closure ends with. *)
Theorem query_failure_is_returned_without_reconnect :
  (forall (st : State) (c : connection) (stmt : string)
          (params : list (string * GoValue)) (pm : list (string * Value))
          (resp : option ExecutionResponse) (rs : ResultSet) (fuel : nat),
      connection_ (session st) = Some c ->
      parseParams int64_unrepresentable parse_error params = (Some pm, None) ->
      conn_executeWithParameter (count is_EvExecute (trace st)) c
        (sessionID (session st)) stmt pm = (resp, None) ->
      IsServerSessionError resp = false ->
      genResultSet resp (timezone (session st)) = (Some rs, None) ->
      rs_resp rs = resp ->
      ExecuteWithParameter (S fuel) stmt params st
      = Return (Some rs, None)
               (mkState (session st)
                        (EvExecute c (sessionID (session st)) stmt pm :: trace st)))
  /\ (forall (st : State) (c : connection) (stmt : string)
             (params : list (string * GoValue)) (pm : list (string * Value))
             (resp : option ExecutionResponse) (rs : ResultSet) (j fuel : nat),
         connection_ (session st) = Some c ->
         parseParams int64_unrepresentable parse_error params = (Some pm, None) ->
         RetryConfig.MaxTime (retryCfg (session st)) <= int64_max ->
         RetryConfig.MaxTime (retryCfg (session st)) <= 0
         \/ Z.of_nat j < RetryConfig.MaxTime (retryCfg (session st)) ->
         (forall i, (i < j)%nat ->
                    residual (conn_executeWithParameter (count is_EvExecute (trace st) + i)
                                c (sessionID (session st)) stmt pm)) ->
         conn_executeWithParameter (count is_EvExecute (trace st) + j) c
           (sessionID (session st)) stmt pm = (resp, None) ->
         IsServerSessionError resp = false ->
         genResultSet resp (timezone (session st)) = (Some rs, None) ->
         rs_resp rs = resp ->
         (j < fuel)%nat ->
         exists evs,
           ExecuteWithParameter fuel stmt params st
           = Return (Some rs, None) (mkState (session st) (evs ++ trace st))
           /\ count is_EvExecute evs = S j
           /\ count is_remote evs = S j
           /\ count is_EvSleep evs = j
           /\ reconnect_cycles evs = O)
  /\ (forall (st : State) (c : connection) (N : Z) (stmt : string)
             (params : list (string * GoValue)) (pm : list (string * Value))
             (fuel : nat),
         connection_ (session st) = Some c ->
         RetryConfig.MaxTime (retryCfg (session st)) = N ->
         0 < N <= int64_max ->
         parseParams int64_unrepresentable parse_error params = (Some pm, None) ->
         (forall k, (count is_EvExecute (trace st) <= k)%nat ->
                    residual (conn_executeWithParameter k c (sessionID (session st))
                                stmt pm)) ->
         (Z.to_nat N <= fuel)%nat ->
         exists e evs,
           snd (conn_executeWithParameter
                  (count is_EvExecute (trace st) + (Z.to_nat N - 1)) c
                  (sessionID (session st)) stmt pm) = Some e
           /\ ExecuteWithParameter fuel stmt params st
              = Return (None, Some e) (mkState (session st) (evs ++ trace st))
           /\ count is_EvExecute evs = Z.to_nat N
           /\ count is_remote evs = Z.to_nat N
           /\ count is_EvSleep evs = (Z.to_nat N - 1)%nat
           /\ reconnect_cycles evs = O)
  /\ (forall (fuel : nat) (f : M (Iface * option error)) (st st' : State) (e : error),
         f st = Return (INil, Some e) st' ->
         is_TransportException (Some e) = false ->
         executeWithReconnect fuel f st = Return (INil, Some e) st'
         /\ bind (executeWithReconnect fuel f) return_ResultSet st
            = Return (None, Some e) st').
Proof.
  split; [|split; [|split]].
  - intros st c stmt params pm resp rs fuel Hc Hparse Hreply Hsess Hgen Hrs.
    assert (Hloop := exec_retry_loop_break fuel st c stmt pm 0 resp None Hc Hreply).
    unfold IsQueryOk in Hloop at 1. rewrite Hsess in Hloop.
    specialize (Hloop eq_refl).
    unfold ExecuteWithParameter, bind, get_session. rewrite Hc, Hparse. simpl.
    unfold executeWithReconnect, execFunc, bind. rewrite Hloop.
    unfold get_session. simpl. rewrite Hgen. simpl. rewrite Hrs.
    unfold IsQueryOk. rewrite Hsess. reflexivity.
  - intros st c stmt params pm resp rs j fuel
           Hc Hparse Hmax Hbound Hres Hreply Hsess Hgen Hrs Hfuel.
    destruct (exec_retry_until_answer j fuel st c stmt pm 0)
      as (evs & Hrun & H1 & H2 & H3 & H4 & _); try assumption; try lia.
    { rewrite Hreply. unfold leaves_loop, IsQueryOk. simpl. rewrite Hsess. reflexivity. }
    exists evs. split; [|repeat split; assumption].
    rewrite Hreply in Hrun.
    unfold ExecuteWithParameter, bind, get_session. rewrite Hc, Hparse. simpl.
    unfold executeWithReconnect, execFunc, bind. rewrite Hrun.
    unfold get_session. simpl. rewrite Hgen. simpl. rewrite Hrs.
    unfold IsQueryOk. rewrite Hsess. reflexivity.
  - intros st c N stmt params pm fuel Hc HN HNpos Hparse Hres Hfuel.
    destruct (exec_retry_residual (Z.to_nat N - 1) fuel st c stmt pm 0)
      as (evs & Hrun & H1 & H2 & _ & H4 & H5); try assumption; try lia.
    assert (Hlast : residual (conn_executeWithParameter
                                (count is_EvExecute (trace st) + (Z.to_nat N - 1)) c
                                (sessionID (session st)) stmt pm))
      by (apply Hres; lia).
    destruct (conn_executeWithParameter
                (count is_EvExecute (trace st) + (Z.to_nat N - 1)) c
                (sessionID (session st)) stmt pm) as [resp err] eqn:Hreply.
    destruct (residual_error _ _ Hlast) as [e He]. subst err.
    destruct Hlast as (_ & Htr & _). simpl in Htr.
    exists e, evs. split; [reflexivity|].
    split; [|repeat split; try assumption; lia].
    assert (Hf : execFunc fuel stmt pm st
                 = Return (INil, Some e) (mkState (session st) (evs ++ trace st))).
    { unfold execFunc, bind. rewrite Hrun. reflexivity. }
    unfold ExecuteWithParameter, bind, get_session. rewrite Hc, Hparse. simpl.
    rewrite (executeWithReconnect_plain_error fuel _ st _ e Hf Htr).
    reflexivity.
  - intros fuel f st st' e Hf Htr.
    assert (H := executeWithReconnect_plain_error fuel f st st' e Hf Htr).
    split; [exact H|]. unfold bind. rewrite H. reflexivity.
Qed.


Lemma one_cycle_then_counts_one {A} (fuel : nat)
    (rerun : M (option A * option error)) (st st' : State) :
  keeps is_EvNow rerun ->
  final_state (one_cycle_then fuel rerun st) = Some st' ->
  reconnect_cycles (trace st') = S (reconnect_cycles (trace st)).
Proof.
  intros Hrerun H. unfold one_cycle_then, bind in H.
  destruct (reconnect_cycle fuel st) as [[e2|] st2 | st2 |] eqn:Hcycle;
    try discriminate H.
  - injection H as <-. apply (reconnect_cycle_counts_one fuel).
    rewrite Hcycle. reflexivity.
  - unfold reconnect_cycles. rewrite (Hrerun st2 st' H).
    apply (reconnect_cycle_counts_one fuel). rewrite Hcycle. reflexivity.
  - injection H as <-. apply (reconnect_cycle_counts_one fuel).
    rewrite Hcycle. reflexivity.
Qed.

(** [ExecuteWithParameter] after a first run of its closure that ended
    with [(resp, err)] in state [st1] and has to be escalated. *)
Lemma ExecuteWithParameter_escalated (fuel : nat) (st st1 : State) (c : connection)
    (stmt : string) (params : list (string * GoValue)) (pm : list (string * Value))
    (resp : Iface) (err : option error) :
  connection_ (session st) = Some c ->
  parseParams int64_unrepresentable parse_error params = (Some pm, None) ->
  execFunc fuel stmt pm st = Return (resp, err) st1 ->
  escalates resp err ->
  is_TransportException err || IsServerSessionError (param_of resp) = true ->
  ExecuteWithParameter fuel stmt params st
  = one_cycle_then fuel (bind (execFunc fuel stmt pm) return_ResultSet) st1.
Proof.
  intros Hc Hparse Hf Hesc Hguard.
  unfold ExecuteWithParameter, get_session. unfold bind at 1. rewrite Hc, Hparse.
  simpl params_or_empty. unfold executeWithReconnect.
  unfold bind at 1 2. rewrite Hf.
  unfold one_cycle_then.
  destruct resp as [|[r|]|b]; simpl in Hesc, Hguard |- *.
  - destruct err as [e|]; [|congruence]. simpl.
    apply (bind_reconnect_and_rerun fuel _ return_ResultSet
             (fun e2 => ret (None, Some e2))); [exact Hguard | reflexivity].
  - rewrite Hesc.
    apply (bind_reconnect_and_rerun fuel _ return_ResultSet
             (fun e2 => ret (None, Some e2))); [exact Hguard | reflexivity].
  - contradiction.
  - destruct err as [e|]; [|congruence]. simpl.
    apply (bind_reconnect_and_rerun fuel _ return_ResultSet
             (fun e2 => ret (None, Some e2))); [exact Hguard | reflexivity].
Qed.

Lemma ExecuteJsonWithParameter_escalated (fuel : nat) (st st1 : State) (c : connection)
    (stmt : string) (params : list (string * GoValue)) (pm : list (string * Value))
    (resp : Iface) (err : option error) :
  connection_ (session st) = Some c ->
  params_loop (fun e => e) (value2Nvalue int64_unrepresentable parse_error) params [] = (Some pm, None) ->
  execFuncJson fuel stmt pm st = Return (resp, err) st1 ->
  escalates resp err ->
  is_TransportException err || IsServerSessionError (param_of resp) = true ->
  ExecuteJsonWithParameter fuel stmt params st
  = one_cycle_then fuel (bind (execFuncJson fuel stmt pm) return_bytes) st1.
Proof.
  intros Hc Hparse Hf Hesc Hguard.
  unfold ExecuteJsonWithParameter, get_session. unfold bind at 1. rewrite Hc, Hparse.
  simpl params_or_empty. unfold executeWithReconnect.
  unfold bind at 1 2. rewrite Hf.
  unfold one_cycle_then.
  destruct resp as [|[r|]|b]; simpl in Hesc, Hguard |- *.
  - destruct err as [e|]; [|congruence]. simpl.
    apply (bind_reconnect_and_rerun fuel _ return_bytes
             (fun e2 => ret (None, Some e2))); [exact Hguard | reflexivity].
  - rewrite Hesc.
    apply (bind_reconnect_and_rerun fuel _ return_bytes
             (fun e2 => ret (None, Some e2))); [exact Hguard | reflexivity].
  - contradiction.
  - destruct err as [e|]; [|congruence]. simpl.
    apply (bind_reconnect_and_rerun fuel _ return_bytes
             (fun e2 => ret (None, Some e2))); [exact Hguard | reflexivity].
Qed.


Lemma execFunc_transport (fuel : nat) (st : State) (c : connection)
    (stmt : string) (pm : list (string * Value))
    (resp : option ExecutionResponse) (m : string) :
  connection_ (session st) = Some c ->
  conn_executeWithParameter (count is_EvExecute (trace st)) c
    (sessionID (session st)) stmt pm = (resp, Some (TransportException m)) ->
  execFunc (S fuel) stmt pm st
  = Return (INil, Some (TransportException m))
           (mkState (session st) (EvExecute c (sessionID (session st)) stmt pm :: trace st)).
Proof.
  intros Hc Hreply. unfold execFunc, bind.
  rewrite (exec_retry_loop_break fuel st c stmt pm 0 _ _ Hc Hreply).
  - reflexivity.
  - reflexivity.
Qed.

Lemma execFunc_session_error (fuel : nat) (st : State) (c : connection)
    (stmt : string) (pm : list (string * Value))
    (resp : option ExecutionResponse) (rs : ResultSet) :
  connection_ (session st) = Some c ->
  conn_executeWithParameter (count is_EvExecute (trace st)) c
    (sessionID (session st)) stmt pm = (resp, None) ->
  IsServerSessionError resp = true ->
  genResultSet resp (timezone (session st)) = (Some rs, None) ->
  execFunc (S fuel) stmt pm st
  = Return (IResultSet (Some rs), None)
           (mkState (session st) (EvExecute c (sessionID (session st)) stmt pm :: trace st)).
Proof.
  intros Hc Hreply Hsess Hgen. unfold execFunc, bind.
  rewrite (exec_retry_loop_break fuel st c stmt pm 0 _ _ Hc Hreply).
  - unfold get_session. simpl. rewrite Hgen. reflexivity.
  - rewrite Hsess. unfold IsQueryOk. rewrite Hsess. reflexivity.
Qed.

Lemma execFuncJson_first_call (fuel : nat) (st : State) (c : connection)
    (stmt : string) (pm : list (string * Value)) (b : string) (err : option error) :
  connection_ (session st) = Some c ->
  conn_ExecuteJsonWithParameter (count is_EvExecuteJson (trace st)) c
    (sessionID (session st)) stmt pm = (b, err) ->
  err = None \/ is_TransportException err = true ->
  execFuncJson (S fuel) stmt pm st
  = Return (match err with None => IBytes b | Some _ => INil end, err)
           (mkState (session st)
                    (EvExecuteJson c (sessionID (session st)) stmt pm :: trace st)).
Proof.
  intros Hc Hreply Hcase. unfold execFuncJson. simpl.
  unfold bind, get_session, connection_ExecuteJsonWithParameter. rewrite Hc.
  unfold bind, earlier, emit, ret. simpl. rewrite Hreply.
  destruct err as [e|]; [|reflexivity].
  destruct Hcase as [Hcase|Hcase]; [discriminate|]. rewrite Hcase. reflexivity.
Qed.

(** C3 (amended): on the ResultSet path a call that fails with a
    transport exception, or that returns no error and a session-invalid
    or session-timeout response, be it the first call or one that follows
    [j] retried errors, ends the retry loop with that call; when this
    happens in the first run of the closure, one reconnect cycle follows,
    and the operation enters exactly one such cycle in all, whatever the
    run after the reconnect ends with.  On the JSON path the same holds
    for a transport exception, whereas an answer without error is
    returned to the caller as it is, whatever the server reports in it,
    and no reconnect follows. *)
Theorem transport_or_session_error_escalates_once
    (st : State) (c : connection) (stmt : string)
    (params : list (string * GoValue)) (pm : list (string * Value)) (j fuel : nat) :
  connection_ (session st) = Some c ->
  parseParams int64_unrepresentable parse_error params = (Some pm, None) ->
  RetryConfig.MaxTime (retryCfg (session st)) <= int64_max ->
  RetryConfig.MaxTime (retryCfg (session st)) <= 0
  \/ Z.of_nat j < RetryConfig.MaxTime (retryCfg (session st)) ->
  (j < fuel)%nat ->
  let sid := sessionID (session st) in
  let k0 := count is_EvExecute (trace st) in
  let kj := count is_EvExecuteJson (trace st) in
  (forall resp m,
      (forall i, (i < j)%nat ->
                 residual (conn_executeWithParameter (k0 + i)%nat c sid stmt pm)) ->
      conn_executeWithParameter (k0 + j)%nat c sid stmt pm
      = (resp, Some (TransportException m)) ->
      exists evs,
        count is_EvExecute evs = S j
        /\ count is_EvSleep evs = j
        /\ reconnect_cycles evs = O
        /\ execFunc fuel stmt pm st
           = Return (INil, Some (TransportException m))
                    (mkState (session st) (evs ++ trace st))
        /\ ExecuteWithParameter fuel stmt params st
           = one_cycle_then fuel (bind (execFunc fuel stmt pm) return_ResultSet)
               (mkState (session st) (evs ++ trace st))
        /\ forall st', final_state (ExecuteWithParameter fuel stmt params st) = Some st' ->
                       reconnect_cycles (trace st') = S (reconnect_cycles (trace st)))
  /\ (forall resp rs,
         (forall i, (i < j)%nat ->
                    residual (conn_executeWithParameter (k0 + i)%nat c sid stmt pm)) ->
         conn_executeWithParameter (k0 + j)%nat c sid stmt pm = (resp, None) ->
         IsServerSessionError resp = true ->
         genResultSet resp (timezone (session st)) = (Some rs, None) ->
         rs_resp rs = resp ->
         exists evs,
           count is_EvExecute evs = S j
           /\ count is_EvSleep evs = j
           /\ reconnect_cycles evs = O
           /\ execFunc fuel stmt pm st
              = Return (IResultSet (Some rs), None)
                       (mkState (session st) (evs ++ trace st))
           /\ ExecuteWithParameter fuel stmt params st
              = one_cycle_then fuel (bind (execFunc fuel stmt pm) return_ResultSet)
                  (mkState (session st) (evs ++ trace st))
           /\ forall st', final_state (ExecuteWithParameter fuel stmt params st) = Some st' ->
                          reconnect_cycles (trace st') = S (reconnect_cycles (trace st)))
  /\ (forall b m,
         (forall i, (i < j)%nat ->
                    snd (conn_ExecuteJsonWithParameter (kj + i)%nat c sid stmt pm) <> None
                    /\ is_TransportException
                         (snd (conn_ExecuteJsonWithParameter (kj + i)%nat c sid stmt pm))
                       = false) ->
         conn_ExecuteJsonWithParameter (kj + j)%nat c sid stmt pm
         = (b, Some (TransportException m)) ->
         exists evs,
           count is_EvExecuteJson evs = S j
           /\ count is_EvSleep evs = j
           /\ reconnect_cycles evs = O
           /\ execFuncJson fuel stmt pm st
              = Return (INil, Some (TransportException m))
                       (mkState (session st) (evs ++ trace st))
           /\ ExecuteJsonWithParameter fuel stmt params st
              = one_cycle_then fuel (bind (execFuncJson fuel stmt pm) return_bytes)
                  (mkState (session st) (evs ++ trace st))
           /\ forall st', final_state (ExecuteJsonWithParameter fuel stmt params st)
                          = Some st' ->
                          reconnect_cycles (trace st') = S (reconnect_cycles (trace st)))
  /\ (forall b,
         (forall i, (i < j)%nat ->
                    snd (conn_ExecuteJsonWithParameter (kj + i)%nat c sid stmt pm) <> None
                    /\ is_TransportException
                         (snd (conn_ExecuteJsonWithParameter (kj + i)%nat c sid stmt pm))
                       = false) ->
         conn_ExecuteJsonWithParameter (kj + j)%nat c sid stmt pm = (b, None) ->
         exists evs,
           count is_EvExecuteJson evs = S j
           /\ count is_EvSleep evs = j
           /\ reconnect_cycles evs = O
           /\ ExecuteJsonWithParameter fuel stmt params st
              = Return (Some b, None) (mkState (session st) (evs ++ trace st))).
Proof.
  intros Hc Hparse Hmax Hbound Hfuel sid k0 kj.
  assert (Hparsej : params_loop (fun e => e)
                      (value2Nvalue int64_unrepresentable parse_error) params []
                    = (Some pm, None))
    by exact (params_loop_success_any_wrap parse_error (fun e => e) _ _ _ _ Hparse).
  assert (Hkeep : keeps is_EvNow (bind (execFunc fuel stmt pm) return_ResultSet)).
  { apply keeps_bind; [apply execFunc_keeps_now | intros r; apply return_ResultSet_keeps]. }
  assert (Hkeepj : keeps is_EvNow (bind (execFuncJson fuel stmt pm) return_bytes)).
  { apply keeps_bind; [apply json_retry_loop_keeps_now | intros r; apply return_bytes_keeps]. }
  assert (Hcycles : forall evs st',
             reconnect_cycles evs = O ->
             reconnect_cycles (trace st')
             = S (reconnect_cycles (trace (mkState (session st) (evs ++ trace st)))) ->
             reconnect_cycles (trace st') = S (reconnect_cycles (trace st))).
  { intros evs st' H0 H. rewrite H. unfold reconnect_cycles in *. cbn [trace].
    rewrite count_app, H0. reflexivity. }
  split; [|split; [|split]].
  - intros resp m Hres Hreply.
    destruct (exec_retry_until_answer j fuel st c stmt pm 0)
      as (evs & Hrun & H1 & _ & H3 & H4 & _); try assumption; try lia.
    { fold sid k0. rewrite Hreply. reflexivity. }
    fold sid k0 in Hrun. rewrite Hreply in Hrun.
    assert (Hf : execFunc fuel stmt pm st
                 = Return (INil, Some (TransportException m))
                          (mkState (session st) (evs ++ trace st))).
    { unfold execFunc, bind. rewrite Hrun. reflexivity. }
    assert (Heq : ExecuteWithParameter fuel stmt params st
                  = one_cycle_then fuel (bind (execFunc fuel stmt pm) return_ResultSet)
                      (mkState (session st) (evs ++ trace st))).
    { apply (ExecuteWithParameter_escalated fuel st _ c stmt params pm INil
               (Some (TransportException m))); try assumption.
      - simpl. congruence.
      - reflexivity. }
    exists evs. split; [exact H1|]. split; [exact H4|]. split; [exact H3|].
    split; [exact Hf|]. split; [exact Heq|].
    intros st' Hfin. rewrite Heq in Hfin. apply (Hcycles evs st' H3).
    apply (one_cycle_then_counts_one _ _ _ st' Hkeep Hfin).
  - intros resp rs Hres Hreply Hsess Hgen Hrs.
    destruct (exec_retry_until_answer j fuel st c stmt pm 0)
      as (evs & Hrun & H1 & _ & H3 & H4 & _); try assumption; try lia.
    { fold sid k0. rewrite Hreply. unfold leaves_loop. cbn [fst snd].
      rewrite Hsess. destruct (IsQueryOk None resp); reflexivity. }
    fold sid k0 in Hrun. rewrite Hreply in Hrun.
    assert (Hf : execFunc fuel stmt pm st
                 = Return (IResultSet (Some rs), None)
                          (mkState (session st) (evs ++ trace st))).
    { unfold execFunc, bind. rewrite Hrun. unfold get_session. cbn [session].
      rewrite Hgen. reflexivity. }
    assert (Heq : ExecuteWithParameter fuel stmt params st
                  = one_cycle_then fuel (bind (execFunc fuel stmt pm) return_ResultSet)
                      (mkState (session st) (evs ++ trace st))).
    { apply (ExecuteWithParameter_escalated fuel st _ c stmt params pm
               (IResultSet (Some rs)) None); try assumption.
      - simpl. rewrite Hrs. unfold IsQueryOk. rewrite Hsess. reflexivity.
      - simpl. rewrite Hrs. exact Hsess. }
    exists evs. split; [exact H1|]. split; [exact H4|]. split; [exact H3|].
    split; [exact Hf|]. split; [exact Heq|].
    intros st' Hfin. rewrite Heq in Hfin. apply (Hcycles evs st' H3).
    apply (one_cycle_then_counts_one _ _ _ st' Hkeep Hfin).
  - intros b m Hres Hreply.
    destruct (json_retry_until_answer j fuel st c stmt pm 0 b
                (Some (TransportException m)))
      as (evs & Hrun & H1 & _ & H3 & H4); try assumption; try lia.
    { right. reflexivity. }
    assert (Hf : execFuncJson fuel stmt pm st
                 = Return (INil, Some (TransportException m))
                          (mkState (session st) (evs ++ trace st)))
      by exact Hrun.
    assert (Heq : ExecuteJsonWithParameter fuel stmt params st
                  = one_cycle_then fuel (bind (execFuncJson fuel stmt pm) return_bytes)
                      (mkState (session st) (evs ++ trace st))).
    { apply (ExecuteJsonWithParameter_escalated fuel st _ c stmt params pm INil
               (Some (TransportException m))); try assumption.
      - simpl. congruence.
      - reflexivity. }
    exists evs. split; [exact H1|]. split; [exact H4|]. split; [exact H3|].
    split; [exact Hf|]. split; [exact Heq|].
    intros st' Hfin. rewrite Heq in Hfin. apply (Hcycles evs st' H3).
    apply (one_cycle_then_counts_one _ _ _ st' Hkeepj Hfin).
  - intros b Hres Hreply.
    destruct (json_retry_until_answer j fuel st c stmt pm 0 b None)
      as (evs & Hrun & H1 & _ & H3 & H4); try assumption; try lia.
    { left. reflexivity. }
    exists evs. split; [exact H1|]. split; [exact H4|]. split; [exact H3|].
    unfold ExecuteJsonWithParameter, get_session. unfold bind at 1.
    rewrite Hc, Hparsej. simpl params_or_empty.
    unfold executeWithReconnect. unfold bind at 1 2.
    unfold execFuncJson. rewrite Hrun. reflexivity.
Qed.


(** C4 (amended): when the first outcome of the closure is escalated and
    the reconnect succeeds, [executeWithReconnect] runs the closure once
    more, in the repaired state, and the outcome of that run is its own
    outcome; the closures of the two execute operations never enter a
    reconnect cycle themselves, so no second reconnect follows.  The run
    is the whole closure, its retry loop included: it makes one call more
    than it sleeps, under a retry bound [N > 0] at most [N] calls, and on
    the repaired connection exactly [N] calls when each of them fails with
    an error that is retried. *)
Theorem rerun_after_reconnect_is_final :
  (forall (fuel : nat) (f : M (Iface * option error)) (st st1 st2 : State)
          (resp : Iface) (err : option error),
      f st = Return (resp, err) st1 ->
      escalates resp err ->
      reconnectWithExecuteErr fuel (param_of resp) err st1 = Return None st2 ->
      executeWithReconnect fuel f st = f st2)
  /\ (forall (fuel : nat) (stmt : string) (pm : list (string * Value)) (st2 st' : State),
         final_state (execFunc fuel stmt pm st2) = Some st' ->
         reconnect_cycles (trace st') = reconnect_cycles (trace st2))
  /\ (forall (fuel : nat) (stmt : string) (pm : list (string * Value)) (st2 st' : State),
         final_state (execFuncJson fuel stmt pm st2) = Some st' ->
         reconnect_cycles (trace st') = reconnect_cycles (trace st2))
  /\ (forall (fuel : nat) (stmt : string) (pm : list (string * Value)) (st2 st' : State)
             (r : Iface * option error),
         execFunc fuel stmt pm st2 = Return r st' ->
         exists evs,
           st' = mkState (session st2) (evs ++ trace st2)
           /\ reconnect_cycles evs = O
           /\ count is_EvExecute evs = S (count is_EvSleep evs)
           /\ count is_remote evs = count is_EvExecute evs
           /\ (0 < RetryConfig.MaxTime (retryCfg (session st2)) <= int64_max ->
               Z.of_nat (count is_EvExecute evs)
               <= RetryConfig.MaxTime (retryCfg (session st2))))
  /\ (forall (fuel : nat) (stmt : string) (pm : list (string * Value)) (st2 st' : State)
             (r : Iface * option error),
         execFuncJson fuel stmt pm st2 = Return r st' ->
         exists evs,
           st' = mkState (session st2) (evs ++ trace st2)
           /\ reconnect_cycles evs = O
           /\ count is_EvExecuteJson evs = S (count is_EvSleep evs)
           /\ count is_remote evs = count is_EvExecuteJson evs
           /\ (0 < RetryConfig.MaxTime (retryCfg (session st2)) <= int64_max ->
               Z.of_nat (count is_EvExecuteJson evs)
               <= RetryConfig.MaxTime (retryCfg (session st2))))
  /\ (forall (fuel : nat) (st st1 st2 : State) (c c2 : connection) (N : Z)
             (stmt : string) (params : list (string * GoValue))
             (pm : list (string * Value)) (resp : Iface) (err : option error),
         connection_ (session st) = Some c ->
         parseParams int64_unrepresentable parse_error params = (Some pm, None) ->
         execFunc fuel stmt pm st = Return (resp, err) st1 ->
         escalates resp err ->
         is_TransportException err || IsServerSessionError (param_of resp) = true ->
         reconnect_cycle fuel st1 = Return None st2 ->
         connection_ (session st2) = Some c2 ->
         RetryConfig.MaxTime (retryCfg (session st2)) = N ->
         0 < N <= int64_max ->
         (forall k, (count is_EvExecute (trace st2) <= k)%nat ->
                    residual (conn_executeWithParameter k c2 (sessionID (session st2))
                                stmt pm)) ->
         (Z.to_nat N <= fuel)%nat ->
         exists e evs,
           snd (conn_executeWithParameter
                  (count is_EvExecute (trace st2) + (Z.to_nat N - 1)) c2
                  (sessionID (session st2)) stmt pm) = Some e
           /\ ExecuteWithParameter fuel stmt params st
              = Return (None, Some e) (mkState (session st2) (evs ++ trace st2))
           /\ count is_EvExecute evs = Z.to_nat N
           /\ count is_EvSleep evs = (Z.to_nat N - 1)%nat
           /\ reconnect_cycles evs = O).
Proof.
  split; [|split; [|split; [|split; [|split]]]].
  - intros fuel f st st1 st2 resp err Hf Hesc Hrec.
    unfold executeWithReconnect. unfold bind at 1. rewrite Hf.
    destruct resp as [|[r|]|b]; simpl in Hesc, Hrec |- *.
    + destruct err as [e|]; [|congruence]. simpl.
      unfold reconnect_and_rerun, bind. rewrite Hrec. reflexivity.
    + rewrite Hesc. unfold reconnect_and_rerun, bind. rewrite Hrec. reflexivity.
    + contradiction.
    + destruct err as [e|]; [|congruence]. simpl.
      unfold reconnect_and_rerun, bind. rewrite Hrec. reflexivity.
  - intros fuel stmt pm st2 st' H. apply (execFunc_keeps_now fuel stmt pm st2 st' H).
  - intros fuel stmt pm st2 st' H.
    apply (json_retry_loop_keeps_now fuel stmt pm 0 st2 st' H).
  - intros fuel stmt pm st2 st' r H. unfold execFunc, bind in H.
    destruct (exec_retry_loop fuel stmt pm 0 st2) as [[resp err] st1| st1 |] eqn:Hrun;
      try discriminate H.
    assert (Hst : st' = st1).
    { destruct err as [e|]; [injection H as _ <-; reflexivity|].
      unfold get_session in H.
      destruct (genResultSet resp (timezone (session st1))) as [rs [e|]];
        injection H as _ <-; reflexivity. }
    subst st'.
    destruct (exec_retry_loop_calls fuel stmt pm 0 st2 st1 _ Hrun)
      as (evs & Hst & Hnow & Hcalls & Hrem & Hle).
    exists evs. split; [exact Hst|]. split; [exact Hnow|]. split; [exact Hcalls|].
    split; [exact Hrem|]. intros Hpos. specialize (Hle Hpos ltac:(lia)). lia.
  - intros fuel stmt pm st2 st' r H. unfold execFuncJson in H.
    destruct (json_retry_loop_calls fuel stmt pm 0 st2 st' _ H)
      as (evs & Hst & Hnow & Hcalls & Hrem & Hle).
    exists evs. split; [exact Hst|]. split; [exact Hnow|]. split; [exact Hcalls|].
    split; [exact Hrem|]. intros Hpos. specialize (Hle Hpos ltac:(lia)). lia.
  - intros fuel st st1 st2 c c2 N stmt params pm resp err
           Hc Hparse Hf Hesc Hguard Hrec Hc2 HN HNpos Hres Hfuel.
    rewrite (ExecuteWithParameter_escalated fuel st st1 c stmt params pm resp err
               Hc Hparse Hf Hesc Hguard).
    unfold one_cycle_then. unfold bind at 1. rewrite Hrec.
    destruct (exec_retry_residual (Z.to_nat N - 1) fuel st2 c2 stmt pm 0)
      as (evs & Hrun & H1 & _ & _ & H4 & H5); try assumption; try lia.
    assert (Hlast : residual (conn_executeWithParameter
                                (count is_EvExecute (trace st2) + (Z.to_nat N - 1)) c2
                                (sessionID (session st2)) stmt pm))
      by (apply Hres; lia).
    destruct (conn_executeWithParameter
                (count is_EvExecute (trace st2) + (Z.to_nat N - 1)) c2
                (sessionID (session st2)) stmt pm) as [resp2 err2] eqn:Hreply.
    destruct (residual_error _ _ Hlast) as [e He]. subst err2.
    exists e, evs. split; [reflexivity|].
    split; [|repeat split; try assumption; lia].
    unfold execFunc, bind. rewrite Hrun. reflexivity.
Qed.

(* =================================================================== *)
(** ** Facts: release *)

Lemma Release_returns (st : State) :
  exists st1, Release st = Return tt st1 /\ connection_ (session st1) = None.
Proof.
  destruct st as [s tr]. unfold Release, bind, get_session. simpl.
  destruct (connection_ s) as [c|] eqn:Hc.
  - unfold connection_signOut, bind, earlier, emit, ret. simpl.
    destruct (conn_signOut (count is_EvSignOut tr) c (sessionID s)) as [e|];
      destruct (connPool s) as [pool|]; simpl;
      eexists; split; reflexivity.
  - eexists; split; [reflexivity | exact Hc].
Qed.

(** C9: after [Release] the session holds no connection; a second
    [Release] only logs a warning and returns: no sign-out, nothing on
    the transport or a pool; and every execute operation fails with the
    "released" error without any effect at all. *)
Theorem release_is_idempotent (st : State) :
  exists st1,
    Release st = Return tt st1
    /\ connection_ (session st1) = None
    /\ Release st1
       = Return tt (mkState (session st1)
                            (EvLog LWarn "Session has been released" :: trace st1))
    /\ (forall st2, bind Release (fun _ => Release) st = Return tt st2 ->
                    session st2 = session st1
                    /\ count is_remote (trace st2) = count is_remote (trace st1)
                    /\ count is_EvSignOut (trace st2) = count is_EvSignOut (trace st1))
    /\ (forall fuel stmt params,
           ExecuteWithParameter fuel stmt params st1
           = Return (None, Some (PlainError "failed to execute: Session has been released")) st1
           /\ ExecuteJsonWithParameter fuel stmt params st1
              = Return (None, Some (PlainError "failed to execute: Session has been released")) st1)
    /\ (forall fuel stmt,
           Execute fuel stmt st1
           = Return (None, Some (PlainError "failed to execute: Session has been released")) st1
           /\ ExecuteJson fuel stmt st1
              = Return (None, Some (PlainError "failed to execute: Session has been released")) st1).
Proof.
  destruct (Release_returns st) as (st1 & Hrel & Hnil).
  exists st1.
  assert (Hsecond : Release st1
                    = Return tt (mkState (session st1)
                                   (EvLog LWarn "Session has been released" :: trace st1))).
  { unfold Release, bind, get_session. rewrite Hnil. reflexivity. }
  assert (Hexec : forall fuel stmt params,
             ExecuteWithParameter fuel stmt params st1
             = Return (None, Some (PlainError "failed to execute: Session has been released")) st1
             /\ ExecuteJsonWithParameter fuel stmt params st1
                = Return (None, Some (PlainError "failed to execute: Session has been released")) st1).
  { intros fuel stmt params.
    unfold ExecuteWithParameter, ExecuteJsonWithParameter, bind, get_session.
    rewrite Hnil. split; reflexivity. }
  split; [exact Hrel|]. split; [exact Hnil|]. split; [exact Hsecond|].
  split; [|split; [exact Hexec|]].
  - intros st2 H. unfold bind in H. rewrite Hrel, Hsecond in H.
    injection H as <-. simpl. repeat split.
  - intros fuel stmt. unfold Execute, ExecuteJson. apply Hexec.
Qed.

(* =================================================================== *)
(** ** Facts: a session outside every pool *)

(** C10: on a session whose two pool references are nil, [reConnect]
    returns nil and changes nothing; a reconnect cycle entered on such a
    session (which holds a connection, as every session that executes
    does) reports success after one pass through its loop, with the same
    connection, session identity and timestamp as before. *)
Theorem reconnect_without_pool_reports_success (st : State) (c : connection) :
  connPool (session st) = None ->
  sessPool (session st) = None ->
  connection_ (session st) = Some c ->
  reConnect st = Return None st
  /\ (forall retryTime startRetryTime,
         reconnect_loop 1 retryTime startRetryTime st = Return None st)
  /\ (forall fuel resp m,
         exists st',
           reconnectWithExecuteErr (S fuel) resp (Some (TransportException m)) st
           = Return None st'
           /\ session st' = session st
           /\ trace st'
              = EvLog LInfo ("Successfully reconnect to host: " ++ Host (severAddress c)
                             ++ ", port: " ++ fmt_d (Port (severAddress c)))
                :: EvNow :: trace st
           /\ count is_remote (trace st') = count is_remote (trace st)).
Proof.
  intros Hcp Hsp Hc.
  assert (Hre : reConnect st = Return None st).
  { unfold reConnect, bind, get_session. rewrite Hcp, Hsp. reflexivity. }
  assert (Hloop : forall fuel retryTime startRetryTime st0,
             session st0 = session st ->
             reconnect_loop (S fuel) retryTime startRetryTime st0 = Return None st0).
  { intros fuel r t st0 Hs. simpl. unfold bind.
    replace (reConnect st0) with (Return (A := option error) None st0); [reflexivity|].
    unfold reConnect, bind, get_session. rewrite Hs, Hcp, Hsp. reflexivity. }
  split; [exact Hre|]. split; [intros r t; apply Hloop; reflexivity|].
  intros fuel resp m. eexists.
  change (reconnectWithExecuteErr (S fuel) resp (Some (TransportException m)))
    with (reconnect_cycle (S fuel)).
  unfold reconnect_cycle.
  erewrite bind_Return by reflexivity.
  erewrite bind_Return by (apply Hloop; reflexivity).
  cbv beta iota.
  erewrite bind_Return by reflexivity.
  cbn [session]. rewrite Hc.
  erewrite bind_Return by reflexivity.
  split; [reflexivity|]. repeat split.
Qed.


(* =================================================================== *)
(** ** Facts: the reconnect loop *)

(** A failing [reConnect] asks its pool once and leaves the session as it
    was. *)
Lemma reConnect_fails (st : State) :
  reconnect_always_fails (session st) ->
  exists e ev,
    reConnect st = Return (Some e) (mkState (session st) (ev :: trace st))
    /\ is_reconnect_attempt ev = true
    /\ is_clock_read ev = false /\ is_EvSleep ev = false
    /\ is_EvNow ev = false /\ is_EvExecute ev = false.
Proof.
  destruct st as [s tr]. unfold reconnect_always_fails, reConnect. simpl.
  intros Hfail. unfold bind at 1. unfold get_session. simpl.
  destruct (connPool s) as [pool|].
  - unfold connPool_getIdleConn, bind, earlier, emit, ret. simpl.
    specialize (Hfail (count is_EvGetIdleConn tr)).
    destruct (pool_getIdleConn (count is_EvGetIdleConn tr) pool) as [newc [e|]];
      simpl in Hfail; [|congruence].
    exists (Errorf_of e), (EvGetIdleConn pool). repeat split.
  - destruct (sessPool s) as [pool|]; [|contradiction].
    unfold sessPool_newSession, bind, earlier, emit, ret. simpl.
    specialize (Hfail (count is_EvNewSession tr)).
    destruct (pool_newSession (count is_EvNewSession tr) pool) as [news [e|]];
      simpl in Hfail; [|congruence].
    exists (Errorf_of e), (EvNewSession pool). repeat split.
Qed.

(** One pass through the loop when [reConnect] fails. *)
Lemma reconnect_loop_failed_pass (fuel : nat) (r start : Z) (st : State) :
  reconnect_always_fails (session st) ->
  exists e ev,
    is_reconnect_attempt ev = true
    /\ is_clock_read ev = false /\ is_EvSleep ev = false
    /\ is_EvNow ev = false /\ is_EvExecute ev = false
    /\ reconnect_loop (S fuel) r start st
       = (let cfg := reconnectCfg (session st) in
          let D := ReconnectConfig.MaxTimeDuration cfg in
          let Mx := ReconnectConfig.MaxTime cfg in
          let tr1 := EvLog LError ("failed to reconnect, " ++ Error e) :: ev :: trace st in
          let tr2 := if D =? 0 then tr1 else EvSince :: tr1 in
          let elapsed := duration_sub (clock (count is_clock_read (trace st))) start in
          let r' := if Mx =? 0 then r else int_incr r in
          if negb (D =? 0) && (D <=? elapsed)
          then Return (Some e) (mkState (session st) tr2)
          else if negb (Mx =? 0) && (Mx <=? r')
               then Return (Some e) (mkState (session st) tr2)
               else reconnect_loop fuel r' start
                      (mkState (session st)
                               (EvSleep (ReconnectConfig.IdleTime cfg) :: tr2))).
Proof.
  intros Hfail. destruct (reConnect_fails st Hfail) as (e & ev & Hre & H1 & H2 & H3 & H4 & H5).
  exists e, ev. repeat (split; [assumption|]).
  cbn [reconnect_loop]. erewrite bind_Return by exact Hre. cbv beta iota.
  erewrite bind_Return by reflexivity.
  erewrite bind_Return by reflexivity.
  cbn [session trace]. cbv zeta.
  destruct (ReconnectConfig.MaxTimeDuration (reconnectCfg (session st)) =? 0) eqn:HD.
  - erewrite bind_Return by reflexivity. simpl negb. cbv beta iota. simpl andb at 1.
    cbv iota.
    destruct (negb (ReconnectConfig.MaxTime (reconnectCfg (session st)) =? 0)
              && (ReconnectConfig.MaxTime (reconnectCfg (session st))
                  <=? (if ReconnectConfig.MaxTime (reconnectCfg (session st)) =? 0
                       then r else int_incr r))); [reflexivity|].
    erewrite bind_Return by reflexivity. reflexivity.
  - unfold time_Since.
    erewrite bind_Return.
    2:{ unfold bind, earlier, emit, ret. cbn [session trace]. reflexivity. }
    cbn [count]. cbn [is_clock_read]. rewrite H2. simpl negb. simpl andb at 2.
    destruct (ReconnectConfig.MaxTimeDuration (reconnectCfg (session st))
              <=? duration_sub (clock (count is_clock_read (trace st))) start);
      [reflexivity|].
    destruct (negb (ReconnectConfig.MaxTime (reconnectCfg (session st)) =? 0)
              && (ReconnectConfig.MaxTime (reconnectCfg (session st))
                  <=? (if ReconnectConfig.MaxTime (reconnectCfg (session st)) =? 0
                       then r else int_incr r))); [reflexivity|].
    erewrite bind_Return by reflexivity. reflexivity.
Qed.


(** From [j] failed attempts on, with the budget first exceeded at attempt
    [j + d + 1], the loop makes [d + 1] more attempts and gives up. *)
Lemma reconnect_loop_exhausts (n0 : nat) (s : Session) (d : nat) :
  let cfg := reconnectCfg s in
  let D := ReconnectConfig.MaxTimeDuration cfg in
  let Mx := ReconnectConfig.MaxTime cfg in
  reconnect_always_fails s ->
  Mx <= int64_max ->
  forall (j fuel : nat) (tr : list Event),
    count is_clock_read tr = (n0 + 1 + (if (D =? 0)%Z then O else j))%nat ->
    (Mx <> 0 -> Z.of_nat j < int64_max) ->
    (forall i, (j < i < j + S d)%nat -> budget_exceeded cfg n0 i = false) ->
    budget_exceeded cfg n0 (j + S d) = true ->
    (S d <= fuel)%nat ->
    exists e evs,
      reconnect_loop fuel (if Mx =? 0 then 0 else Z.of_nat j) (clock n0) (mkState s tr)
      = Return (Some e) (mkState s (evs ++ tr))
      /\ count is_reconnect_attempt evs = S d
      /\ count is_EvSleep evs = d
      /\ count is_EvNow evs = O
      /\ count is_EvExecute evs = O.
Proof.
  intros cfg D Mx Hfail Hmax.
  induction d as [|d IH]; intros j fuel tr Hclock Hwrap Hbefore Hat Hfuel;
    (destruct fuel as [|fuel]; [lia|]);
    destruct (reconnect_loop_failed_pass fuel (if Mx =? 0 then 0 else Z.of_nat j)
                (clock n0) (mkState s tr) Hfail)
      as (e & ev & Hev1 & Hev2 & Hev3 & Hev4 & Hev5 & Hpass);
    cbn [session trace] in Hpass; cbv zeta in Hpass;
    fold cfg in Hpass; fold D in Hpass; fold Mx in Hpass;
    rewrite Hpass; clear Hpass;
    assert (Hr' : (if Mx =? 0 then (if Mx =? 0 then 0 else Z.of_nat j)
                   else int_incr (if Mx =? 0 then 0 else Z.of_nat j))
                  = (if Mx =? 0 then 0 else Z.of_nat j + 1))
      by (destruct (Z.eqb_spec Mx 0) as [E|E]; [reflexivity|];
          rewrite int_incr_small by (specialize (Hwrap E); unfold int64_min; lia);
          reflexivity);
    rewrite Hr'; clear Hr';
    assert (Hcond : (negb (D =? 0)
                     && (D <=? duration_sub (clock (count is_clock_read tr)) (clock n0)))
                    || (negb (Mx =? 0) && (Mx <=? (if Mx =? 0 then 0 else Z.of_nat j + 1)))
                    = budget_exceeded cfg n0 (S j))
      by (unfold budget_exceeded, elapsed_at; fold D; fold Mx; rewrite Hclock;
          rewrite Nat2Z.inj_succ; unfold Z.succ;
          destruct (D =? 0); destruct (Mx =? 0); cbn [negb andb orb]; try reflexivity;
          replace (n0 + 1 + j)%nat with (n0 + S j)%nat by lia; reflexivity).
  - replace (j + 1)%nat with (S j) in Hat by lia. rewrite Hat in Hcond.
    set (tr2 := if D =? 0 then _ else _).
    exists e, (if D =? 0
               then [EvLog LError ("failed to reconnect, " ++ Error e); ev]
               else [EvSince; EvLog LError ("failed to reconnect, " ++ Error e); ev]).
    split.
    + assert (Htr2 : tr2 = (if D =? 0
               then [EvLog LError ("failed to reconnect, " ++ Error e); ev]
               else [EvSince; EvLog LError ("failed to reconnect, " ++ Error e); ev]) ++ tr)
        by (subst tr2; destruct (D =? 0); reflexivity).
      rewrite <- Htr2.
      destruct (negb (D =? 0)
                && (D <=? duration_sub (clock (count is_clock_read tr)) (clock n0)));
        [reflexivity|].
      cbn [orb] in Hcond. rewrite Hcond. reflexivity.
    + unfold is_reconnect_attempt in *.
      destruct (D =? 0); simpl; rewrite ?Hev1, ?Hev3, ?Hev4, ?Hev5; repeat split.
  - assert (Hnot : budget_exceeded cfg n0 (S j) = false) by (apply Hbefore; lia).
    rewrite Hnot in Hcond. apply orb_false_elim in Hcond. destruct Hcond as [Hc1 Hc2].
    rewrite Hc1, Hc2.
    set (tr2 := if D =? 0 then _ else _).
    destruct (IH (S j) fuel (EvSleep (ReconnectConfig.IdleTime cfg) :: tr2))
      as (e' & evs & Hrun & H1 & H2 & H3 & H4).
    + subst tr2. destruct (D =? 0); cbn [count is_clock_read];
        rewrite ?Hev2; rewrite Hclock; lia.
    + intros HM. unfold budget_exceeded in Hnot. fold D in Hnot. fold Mx in Hnot.
      apply orb_false_elim in Hnot. destruct Hnot as [_ Hnot].
      apply Z.eqb_neq in HM. rewrite HM in Hnot. simpl in Hnot.
      apply Z.leb_gt in Hnot. lia.
    + intros i Hi. apply Hbefore. lia.
    + replace (S j + S d)%nat with (j + S (S d))%nat by lia. exact Hat.
    + lia.
    + replace (Z.of_nat j + 1) with (Z.of_nat (S j)) by lia. rewrite Hrun.
      exists e', (evs ++ EvSleep (ReconnectConfig.IdleTime cfg)
                       :: (if D =? 0
                           then [EvLog LError ("failed to reconnect, " ++ Error e); ev]
                           else [EvSince; EvLog LError ("failed to reconnect, " ++ Error e); ev])).
      split.
      * rewrite <- app_assoc. subst tr2. destruct (D =? 0); reflexivity.
      * rewrite !count_app, H1, H2, H3, H4. unfold is_reconnect_attempt in *.
        destruct (D =? 0); simpl; rewrite ?Hev1, ?Hev3, ?Hev4, ?Hev5; repeat split; lia.
Qed.

(** The first index, from 1 on, at which a test holds. *)
Lemma first_index (P : nat -> bool) (i : nat) :
  (1 <= i)%nat -> P i = true ->
  exists n, (1 <= n <= i)%nat /\ P n = true
            /\ forall k, (1 <= k < n)%nat -> P k = false.
Proof.
  induction i as [i IH] using (well_founded_induction lt_wf). intros Hi HP.
  destruct (existsb P (seq 1 (i - 1))) eqn:Hex.
  - apply existsb_exists in Hex. destruct Hex as (k & Hin & Hk).
    apply in_seq in Hin.
    destruct (IH k) as (n & Hn & HPn & Hleast); try assumption; try lia.
    exists n. repeat split; try assumption; lia.
  - exists i. repeat split; try assumption; try lia.
    intros k Hk. destruct (P k) eqn:HPk; [|reflexivity].
    assert (existsb P (seq 1 (i - 1)) = true).
    { apply existsb_exists. exists k. split; [apply in_seq; lia | exact HPk]. }
    congruence.
Qed.


(** C5: with a nonzero attempt bound or a nonzero elapsed-time bound, and
    a clock that eventually shows the elapsed bound when no attempt bound
    is set, a reconnect cycle whose attempts all fail ends: it gives up
    at the first failed attempt after which a nonzero bound is reached
    and returns the fatal "Nebula Down" error; with no elapsed bound it
    makes exactly as many attempts as the attempt bound says, with no
    attempt bound it goes on until the elapsed bound is reached. *)
Theorem reconnect_loop_terminates (st : State) :
  let s := session st in
  let cfg := reconnectCfg s in
  let D := ReconnectConfig.MaxTimeDuration cfg in
  let Mx := ReconnectConfig.MaxTime cfg in
  let n0 := count is_clock_read (trace st) in
  Mx <> 0 \/ D <> 0 ->
  Mx <= int64_max ->
  reconnect_always_fails s ->
  (Mx = 0 -> exists i, (1 <= i)%nat /\ D <= elapsed_at n0 i) ->
  exists n,
    (1 <= n)%nat
    /\ budget_exceeded cfg n0 n = true
    /\ (forall i, (1 <= i < n)%nat -> budget_exceeded cfg n0 i = false)
    /\ (D = 0 -> 0 < Mx -> Z.of_nat n = Mx)
    /\ (Mx = 0 -> D <= elapsed_at n0 n
                  /\ forall i, (1 <= i < n)%nat -> elapsed_at n0 i < D)
    /\ forall fuel, (n <= fuel)%nat ->
         exists evs,
           reconnect_cycle fuel st
           = Return (Some (PlainError "Nebula Down")) (mkState s (evs ++ trace st))
           /\ (forall resp m,
                  reconnectWithExecuteErr fuel resp (Some (TransportException m)) st
                  = Return (Some (PlainError "Nebula Down")) (mkState s (evs ++ trace st)))
           /\ count is_reconnect_attempt evs = n
           /\ count is_EvSleep evs = (n - 1)%nat
           /\ count is_EvExecute evs = O.
Proof.
  intros s cfg D Mx n0 Hpolicy Hmax Hfail Htime.
  assert (Hsome : exists i, (1 <= i)%nat /\ budget_exceeded cfg n0 i = true).
  { destruct (Z.eq_dec Mx 0) as [E|E].
    - destruct (Htime E) as (i & Hi & Hel). exists i. split; [exact Hi|].
      unfold budget_exceeded. fold D. fold Mx.
      assert (HD : D <> 0) by (destruct Hpolicy; congruence).
      apply Z.eqb_neq in HD. rewrite HD. apply Z.leb_le in Hel. rewrite Hel. reflexivity.
    - exists (Z.to_nat (Z.max 1 Mx)). split; [lia|].
      unfold budget_exceeded. fold D. fold Mx.
      apply Z.eqb_neq in E. rewrite E.
      replace (Mx <=? Z.of_nat (Z.to_nat (Z.max 1 Mx))) with true
        by (symmetry; apply Z.leb_le; lia).
      apply orb_true_r. }
  destruct Hsome as (i & Hi & Hex).
  destruct (first_index (budget_exceeded cfg n0) i Hi Hex) as (n & Hn & Hat & Hleast).
  exists n. split; [lia|]. split; [exact Hat|]. split; [exact Hleast|].
  split; [|split].
  - intros HD HM.
    assert (Hge : Mx <= Z.of_nat n).
    { unfold budget_exceeded in Hat. fold D in Hat. fold Mx in Hat.
      rewrite HD in Hat. simpl in Hat.
      apply andb_prop in Hat. destruct Hat as [_ Hat]. apply Z.leb_le in Hat. exact Hat. }
    destruct (Z.eq_dec (Z.of_nat n) Mx) as [E|E]; [exact E|].
    assert (Hlt : budget_exceeded cfg n0 (Z.to_nat Mx) = false) by (apply Hleast; lia).
    unfold budget_exceeded in Hlt. fold D in Hlt. fold Mx in Hlt.
    apply orb_false_elim in Hlt. destruct Hlt as [_ Hlt].
    replace (Mx =? 0) with false in Hlt by (symmetry; apply Z.eqb_neq; lia).
    simpl in Hlt. apply Z.leb_gt in Hlt. lia.
  - intros HM. unfold budget_exceeded in Hat, Hleast.
    fold D in Hat, Hleast. fold Mx in Hat, Hleast.
    rewrite HM in Hat, Hleast. simpl in Hat, Hleast.
    rewrite orb_false_r in Hat. apply andb_prop in Hat. destruct Hat as [HD Hat].
    split; [apply Z.leb_le; exact Hat|].
    intros k Hk. specialize (Hleast k Hk). rewrite orb_false_r in Hleast.
    rewrite HD in Hleast. simpl in Hleast. apply Z.leb_gt. exact Hleast.
  - intros fuel Hfuel.
    destruct (reconnect_loop_exhausts n0 s (n - 1) Hfail Hmax O fuel (EvNow :: trace st))
      as (e & evs & Hrun & H1 & H2 & H3 & H4).
    + cbn [count is_clock_read]. fold n0. destruct (_ =? 0); lia.
    + intros _. unfold int64_max. simpl. lia.
    + intros k Hk. apply Hleast. lia.
    + replace (0 + S (n - 1))%nat with n by lia. exact Hat.
    + lia.
    + assert (Hr0 : (if ReconnectConfig.MaxTime (reconnectCfg s) =? 0
                     then 0 else Z.of_nat 0) = 0)
        by (destruct (_ =? 0); reflexivity).
      rewrite Hr0 in Hrun.
      assert (Hcycle : reconnect_cycle fuel st
                       = Return (Some (PlainError "Nebula Down"))
                                (mkState s ((evs ++ [EvNow]) ++ trace st))).
      { unfold reconnect_cycle.
        erewrite bind_Return by reflexivity.
        fold n0. fold s.
        erewrite bind_Return by exact Hrun.
        rewrite <- app_assoc. reflexivity. }
      exists (evs ++ [EvNow]). split; [exact Hcycle|]. split.
      * intros resp m. exact Hcycle.
      * rewrite !count_app, H1, H2, H4. simpl. repeat split; lia.
Qed.


(* =================================================================== *)
(** ** More on the codec: lists and maps that convert *)

Lemma slice_loop_in_order (conv : GoValue -> Value * option error) (items : list GoValue) :
  Forall (fun y => snd (conv y) = None) items ->
  forall sv, slice_loop conv items sv
             = (Some (mkNList (sv ++ map (fun y => fst (conv y)) items)), None).
Proof.
  intros Hall. induction Hall as [|y items Hy _ IH]; intros sv; simpl.
  - rewrite app_nil_r. reflexivity.
  - destruct (conv y) as [nv er]. simpl in Hy. subst er. simpl.
    rewrite IH, <- app_assoc. reflexivity.
Qed.

(** X1: a list whose elements all convert is converted element by
    element, in order: the wire list has as many values as the host list,
    the i-th being the conversion of the i-th element (an empty list gives
    an empty, non-nil wire list). *)
Theorem slice2Nlist_converts_in_order (items : list GoValue) :
  (forall x, In x items -> snd (value2Nvalue int64_unrepresentable parse_error x) = None) ->
  let values := map (fun x => fst (value2Nvalue int64_unrepresentable parse_error x)) items in
  slice2Nlist int64_unrepresentable parse_error items = (Some (mkNList values), None)
  /\ value2Nvalue int64_unrepresentable parse_error (GoSlice items)
     = (set_LVal NewValue (Some (mkNList values)), None)
  /\ List.length values = List.length items.
Proof.
  intros Hall values.
  assert (Hs : slice2Nlist int64_unrepresentable parse_error items
               = (Some (mkNList values), None)).
  { unfold slice2Nlist.
    rewrite (slice_loop_in_order (value2Nvalue int64_unrepresentable parse_error) items).
    - reflexivity.
    - apply Forall_forall. exact Hall. }
  split; [exact Hs|]. split.
  - rewrite value2Nvalue_GoSlice, Hs. reflexivity.
  - subst values. apply List.length_map.
Qed.

Lemma map_lookup_store_same {A} (k : string) (v : A) (m : list (string * A)) :
  map_lookup k (map_store k v m) = Some v.
Proof.
  induction m as [|[k' v'] m IH]; simpl.
  - rewrite String.eqb_refl. reflexivity.
  - destruct (String.eqb k k') eqn:E; simpl.
    + rewrite String.eqb_refl. reflexivity.
    + rewrite E. exact IH.
Qed.

Lemma map_lookup_store_other {A} (k k' : string) (v : A) (m : list (string * A)) :
  k <> k' -> map_lookup k' (map_store k v m) = map_lookup k' m.
Proof.
  intros Hne. induction m as [|[k0 v0] m IH]; simpl.
  - replace (String.eqb k' k) with false; [reflexivity|].
    symmetry. apply String.eqb_neq. congruence.
  - destruct (String.eqb k k0) eqn:E; simpl.
    + apply String.eqb_eq in E. subst k0.
      replace (String.eqb k' k) with false; [reflexivity|].
      symmetry. apply String.eqb_neq. congruence.
    + destruct (String.eqb k' k0); [reflexivity | exact IH].
Qed.

Lemma map_lookup_absent {A} (k : string) (m : list (string * A)) :
  ~ In k (map fst m) -> map_lookup k m = None.
Proof.
  induction m as [|[k' v'] m IH]; simpl; intros Hnot; [reflexivity|].
  destruct (String.eqb k k') eqn:E.
  - apply String.eqb_eq in E. subst k'. exfalso. apply Hnot. left. reflexivity.
  - apply IH. intros Hin. apply Hnot. right. exact Hin.
Qed.

Lemma params_loop_lookup (wrap : error -> error) (conv : GoValue -> Value * option error)
    (params : list (string * GoValue)) :
  NoDup (map fst params) ->
  forall paramsMap kvs,
    params_loop wrap conv params paramsMap = (Some kvs, None) ->
    forall k, map_lookup k kvs
              = match map_lookup k params with
                | Some v => Some (fst (conv v))
                | None => map_lookup k paramsMap
                end.
Proof.
  induction params as [|[k0 v0] rest IH]; intros Hnd pm kvs Hrun k; simpl in *.
  - injection Hrun as <-. reflexivity.
  - inversion Hnd as [|? ? Hnotin Hnd']; subst.
    destruct (conv v0) as [nv [e|]] eqn:Hconv; [discriminate Hrun|].
    rewrite (IH Hnd' _ _ Hrun k).
    destruct (String.eqb k k0) eqn:E.
    + apply String.eqb_eq in E. subst k0.
      rewrite (map_lookup_absent k rest Hnotin), map_lookup_store_same, Hconv.
      reflexivity.
    + destruct (map_lookup k rest); [reflexivity|].
      apply map_lookup_store_other. intros ->. rewrite String.eqb_refl in E. discriminate.
Qed.

(** X2: when a parameter map (its keys distinct, as in every Go map) is
    converted, looking a key up in the result gives the conversion of what
    the key holds in the parameter map, and nothing for a key that the
    parameter map does not hold; this is so for the loop written out in
    [ExecuteJsonWithParameter] and for the wire map of [map2Nmap]. *)
Theorem converted_params_lookup (wrap : error -> error)
    (params : list (string * GoValue)) (kvs : list (string * Value)) :
  NoDup (map fst params) ->
  params_loop wrap (value2Nvalue int64_unrepresentable parse_error) params []
  = (Some kvs, None) ->
  (forall k, map_lookup k kvs
             = option_map (fun v => fst (value2Nvalue int64_unrepresentable parse_error v))
                          (map_lookup k params))
  /\ map2Nmap int64_unrepresentable parse_error params = (Some (mkNMap kvs), None).
Proof.
  intros Hnd Hrun. split.
  - intros k. rewrite (params_loop_lookup wrap _ params Hnd [] kvs Hrun k).
    destruct (map_lookup k params); reflexivity.
  - unfold map2Nmap, parseParams.
    rewrite (params_loop_success_any_wrap wrap parse_error _ _ _ _ Hrun). reflexivity.
Qed.

Lemma slice_loop_success_shape (conv : GoValue -> Value * option error)
    (items : list GoValue) :
  forall sv nv, slice_loop conv items sv = (nv, None) -> exists nl, nv = Some nl.
Proof.
  induction items as [|y items IH]; intros sv nv H; simpl in H.
  - injection H as <-. eexists; reflexivity.
  - destruct (conv y) as [v [e|]]; [discriminate H | exact (IH _ _ H)].
Qed.

(** X3: a conversion that succeeds populates exactly one variant of the
    wire value, the one of the host type (a float gives the integer or the
    double variant, a wire value passes through as it is); a conversion
    that fails populates none. *)
Theorem conversion_populates_one_variant (any : GoValue) :
  let r := value2Nvalue int64_unrepresentable parse_error any in
  (snd r = None ->
   match any with
   | GoBool _ => variant_of (fst r) = VarBool
   | GoInt _ => variant_of (fst r) = VarInt
   | GoFloat64 _ | GoFloat32 _ =>
       variant_of (fst r) = VarInt \/ variant_of (fst r) = VarDouble
   | GoString _ => variant_of (fst r) = VarString
   | GoNil => variant_of (fst r) = VarNull
   | GoSlice _ => variant_of (fst r) = VarList
   | GoMap _ => variant_of (fst r) = VarMap
   | GoNebulaValue v => fst r = v
   | GoDate _ => variant_of (fst r) = VarDate
   | GoDateTime _ => variant_of (fst r) = VarDateTime
   | GoDuration _ => variant_of (fst r) = VarDuration
   | GoTime _ => variant_of (fst r) = VarTime
   | GoGeography _ => variant_of (fst r) = VarGeography
   | GoOther _ => False
   end)
  /\ (snd r <> None -> variant_of (fst r) = VarNone).
Proof.
  intros r. split.
  - intros Hok. subst r.
    destruct any as [| | v | v | | |l|m| | | | | | |t]; try reflexivity.
    + simpl. destruct (float_eqb _ _); [left | right]; reflexivity.
    + simpl. destruct (float_eqb _ _); [left | right]; reflexivity.
    + rewrite value2Nvalue_GoSlice in Hok |- *. unfold slice2Nlist in *.
      destruct (slice_loop _ l []) as [nv er] eqn:Hloop. simpl in Hok. subst er.
      destruct (slice_loop_success_shape _ _ _ _ Hloop) as [nl ->]. reflexivity.
    + rewrite value2Nvalue_GoMap in Hok |- *. unfold map2Nmap, nmap_of_params in *.
      destruct (parseParams _ _ m) as [kvs [e|]]; [discriminate Hok | reflexivity].
    + discriminate Hok.
  - intros Herr. subst r. destruct (value2Nvalue_outcome any) as [Hbad Hgood].
    destruct (unsupported_in any).
    + destruct (Hbad eq_refl) as [e He]. rewrite He. reflexivity.
    + exfalso. apply Herr. apply Hgood. reflexivity.
Qed.

(** X4: NaN and the two infinities are converted to the double variant,
    as float64 and as float32, whatever the platform makes of their
    conversion to an integer. *)
Theorem nonfinite_float_stays_double (v : float) :
  float_trunc v = None ->
  value2Nvalue int64_unrepresentable parse_error (GoFloat64 v) = (set_FVal NewValue v, None)
  /\ value2Nvalue int64_unrepresentable parse_error (GoFloat32 v)
     = (set_FVal NewValue (float64_of_float32 v), None).
Proof.
  intros Hnf.
  assert (Hne : forall prec z, float_eqb v (float_of_Z prec z) = false).
  { intros prec z. destruct (float_of_Z_shape prec z) as (s & q & k & Hf & _).
    rewrite Hf. destruct v; [reflexivity | reflexivity | discriminate Hnf]. }
  split; simpl.
  - unfold float64_of_int64. rewrite Hne. reflexivity.
  - unfold float32_of_int64. rewrite Hne. reflexivity.
Qed.


(* =================================================================== *)
(** ** More on the execute operations: parameters and retries *)

(** X5: when a parameter holds a value of an unsupported type, at any
    depth, both execute operations return an error at once: the state is
    as before, so no call was made and nothing was logged. *)
Theorem conversion_error_precedes_any_call (st : State) (c : connection) (fuel : nat)
    (stmt : string) (params : list (string * GoValue)) (k : string) (v : GoValue) :
  connection_ (session st) = Some c ->
  In (k, v) params ->
  unsupported_in v = true ->
  (exists e, ExecuteWithParameter fuel stmt params st = Return (None, Some e) st)
  /\ (exists e, ExecuteJsonWithParameter fuel stmt params st = Return (None, Some e) st).
Proof.
  intros Hc Hin Hbad.
  assert (Hex : existsb (fun kv => unsupported_in (snd kv)) params = true).
  { apply existsb_exists. exists (k, v). split; [exact Hin | exact Hbad]. }
  assert (Hall : Forall (fun kv => conversion_outcome (snd kv)) params).
  { apply Forall_forall. intros kv _. apply value2Nvalue_outcome. }
  split.
  - destruct (params_loop_unsupported params Hall Hex parse_error []) as [e He].
    exists e. unfold ExecuteWithParameter, bind, get_session. rewrite Hc.
    unfold parseParams. rewrite He. reflexivity.
  - destruct (params_loop_unsupported params Hall Hex (fun e => e) []) as [e He].
    exists e. unfold ExecuteJsonWithParameter, bind, get_session. rewrite Hc, He.
    reflexivity.
Qed.

(** X6: when the first [j] answers are errors on which the loop goes
    round again, [j] below the retry bound or the bound not positive, and
    the next answer carries no error and no session error, then
    [ExecuteWithParameter] returns the result set of that answer after
    [j + 1] calls, having slept the idle time of the retry policy [j]
    times, without any reconnect. *)
Theorem retry_until_success (st : State) (c : connection) (j fuel : nat)
    (stmt : string) (params : list (string * GoValue)) (pm : list (string * Value))
    (resp : option ExecutionResponse) (rs : ResultSet) :
  connection_ (session st) = Some c ->
  parseParams int64_unrepresentable parse_error params = (Some pm, None) ->
  RetryConfig.MaxTime (retryCfg (session st)) <= int64_max ->
  RetryConfig.MaxTime (retryCfg (session st)) <= 0
  \/ Z.of_nat j < RetryConfig.MaxTime (retryCfg (session st)) ->
  (forall i, (i < j)%nat ->
             residual (conn_executeWithParameter (count is_EvExecute (trace st) + i) c
                         (sessionID (session st)) stmt pm)) ->
  conn_executeWithParameter (count is_EvExecute (trace st) + j) c
    (sessionID (session st)) stmt pm = (resp, None) ->
  IsServerSessionError resp = false ->
  genResultSet resp (timezone (session st)) = (Some rs, None) ->
  rs_resp rs = resp ->
  (j < fuel)%nat ->
  exists evs,
    ExecuteWithParameter fuel stmt params st
    = Return (Some rs, None) (mkState (session st) (evs ++ trace st))
    /\ count is_EvExecute evs = S j
    /\ count is_remote evs = S j
    /\ reconnect_cycles evs = O
    /\ count is_EvSleep evs = j
    /\ (forall d, In (EvSleep d) evs -> d = RetryConfig.IdleTime (retryCfg (session st))).
Proof.
  intros Hc Hparse Hmax Hbound Hres Hreply Hsess Hgen Hrs Hfuel.
  destruct (exec_retry_until_answer j fuel st c stmt pm 0)
    as (evs & Hrun & H1 & H2 & H3 & H4 & H5); try assumption; try lia.
  { rewrite Hreply. unfold leaves_loop, IsQueryOk. simpl. rewrite Hsess. reflexivity. }
  exists evs. split; [|repeat split; assumption].
  rewrite Hreply in Hrun.
  unfold ExecuteWithParameter, bind, get_session. rewrite Hc, Hparse. simpl.
  unfold executeWithReconnect, execFunc, bind. rewrite Hrun.
  unfold get_session. simpl. rewrite Hgen. simpl. rewrite Hrs.
  unfold IsQueryOk. rewrite Hsess. reflexivity.
Qed.

(** X7: with a retry bound that is not positive there is no bound: as
    long as every answer is an error on which the loop goes round again,
    the loop does not end, and neither does [ExecuteWithParameter]. *)
Theorem unbounded_retry_never_returns (st : State) (c : connection)
    (stmt : string) (params : list (string * GoValue)) (pm : list (string * Value)) :
  connection_ (session st) = Some c ->
  parseParams int64_unrepresentable parse_error params = (Some pm, None) ->
  RetryConfig.MaxTime (retryCfg (session st)) <= 0 ->
  (forall k, (count is_EvExecute (trace st) <= k)%nat ->
             residual (conn_executeWithParameter k c (sessionID (session st)) stmt pm)) ->
  forall fuel,
    (forall r, exec_retry_loop fuel stmt pm r st = OutOfFuel)
    /\ ExecuteWithParameter fuel stmt params st = OutOfFuel.
Proof.
  intros Hc Hparse Hmax Hres fuel.
  assert (Hloop : forall r, exec_retry_loop fuel stmt pm r st = OutOfFuel).
  { revert st Hc Hmax Hres. induction fuel as [|fuel IH]; intros st Hc Hmax Hres r.
    - reflexivity.
    - destruct st as [s tr]. simpl in Hc, Hmax, Hres |- *.
      unfold bind, get_session, connection_executeWithParameter; simpl.
      rewrite Hc. unfold bind, earlier, emit, ret. simpl.
      pose proof (Hres (count is_EvExecute tr) (Nat.le_refl _)) as Hk.
      destruct (conn_executeWithParameter (count is_EvExecute tr) c (sessionID s) stmt pm)
        as [resp err] eqn:Hreply.
      destruct (residual_error _ _ Hk) as [e He].
      destruct Hk as (Hok & Htr & Hsess). simpl in Hok, Htr, Hsess.
      rewrite Hok, Htr, Hsess. simpl. subst err.
      replace (0 <? RetryConfig.MaxTime (retryCfg s)) with false
        by (symmetry; apply Z.ltb_ge; lia).
      simpl. unfold error_string, ret, log, time_Sleep, emit. simpl.
      apply (IH (mkState s _)); simpl; try assumption.
      intros k Hk. apply Hres. lia. }
  split; [exact Hloop|].
  unfold ExecuteWithParameter, bind, get_session. rewrite Hc, Hparse. simpl.
  unfold executeWithReconnect, execFunc, bind. rewrite Hloop. reflexivity.
Qed.


(** With [n + 1] attempts left and errors that are no transport exception
    only, the JSON loop makes [n + 1] calls and returns the last error. *)
Lemma json_retry_plain_errors (n : nat) :
  forall (fuel : nat) (st : State) (c : connection) (stmt : string)
         (pm : list (string * Value)) (r : Z),
    connection_ (session st) = Some c ->
    0 <= r ->
    r + Z.of_nat (S n) = RetryConfig.MaxTime (retryCfg (session st)) ->
    RetryConfig.MaxTime (retryCfg (session st)) <= int64_max ->
    (forall k, (count is_EvExecuteJson (trace st) <= k)%nat ->
               snd (conn_ExecuteJsonWithParameter k c (sessionID (session st)) stmt pm) <> None
               /\ is_TransportException
                    (snd (conn_ExecuteJsonWithParameter k c (sessionID (session st)) stmt pm))
                  = false) ->
    (S n <= fuel)%nat ->
    exists evs,
      json_retry_loop fuel stmt pm r st
      = Return (INil, snd (conn_ExecuteJsonWithParameter
                             (count is_EvExecuteJson (trace st) + n) c
                             (sessionID (session st)) stmt pm))
               (mkState (session st) (evs ++ trace st))
      /\ count is_EvExecuteJson evs = S n
      /\ count is_remote evs = S n
      /\ count is_EvNow evs = O
      /\ count is_EvSleep evs = n.
Proof.
  induction n as [|n IH]; intros fuel st c stmt pm r Hc Hr HN Hmax Hres Hfuel;
    (destruct fuel as [|fuel]; [lia|]);
    destruct st as [s tr]; simpl in Hc, HN, Hmax, Hres |- *;
    unfold bind, get_session, connection_ExecuteJsonWithParameter; simpl;
    rewrite Hc; unfold bind, earlier, emit, ret; simpl;
    pose proof (Hres (count is_EvExecuteJson tr) (Nat.le_refl _)) as [Hsome Htr];
    destruct (conn_ExecuteJsonWithParameter (count is_EvExecuteJson tr) c (sessionID s) stmt pm)
      as [b [e|]] eqn:Hreply; simpl in Hsome; try congruence;
    cbn [snd] in Htr; rewrite Htr;
    assert (Hpos : (0 <? RetryConfig.MaxTime (retryCfg s)) = true)
      by (apply Z.ltb_lt; lia);
    rewrite Hpos; simpl;
    rewrite int_incr_small by (unfold int64_min; lia).
  - replace (RetryConfig.MaxTime (retryCfg s) <=? r + 1) with true
      by (symmetry; apply Z.leb_le; lia).
    exists [EvExecuteJson c (sessionID s) stmt pm].
    rewrite Nat.add_0_r, Hreply. repeat split.
  - replace (RetryConfig.MaxTime (retryCfg s) <=? r + 1) with false
      by (symmetry; apply Z.leb_gt; lia).
    unfold log, time_Sleep, emit. simpl.
    set (tr2 := EvSleep _ :: EvLog _ _ :: EvExecuteJson c (sessionID s) stmt pm :: tr).
    destruct (IH fuel (mkState s tr2) c stmt pm (r + 1))
      as (evs & Hrun & H1 & H2 & H3 & H4); cbn [session trace];
      try assumption; try lia.
    { intros k Hle. apply Hres. subst tr2. simpl in Hle. lia. }
    cbn [session trace] in Hrun. rewrite Hrun.
    exists (evs ++ [EvSleep (RetryConfig.IdleTime (retryCfg s));
                    EvLog LError ("start retry, " ++ Error e);
                    EvExecuteJson c (sessionID s) stmt pm]).
    split.
    { subst tr2. rewrite <- app_assoc. cbn [count is_EvExecuteJson app].
      replace (S (count is_EvExecuteJson tr) + n)%nat
        with (count is_EvExecuteJson tr + S n)%nat by lia.
      reflexivity. }
    rewrite !count_app, H1, H2, H3, H4. simpl. repeat split; lia.
Qed.

(** X8: on the JSON path too, with a retry bound [N > 0] and a call that
    fails on every attempt with an error that is no transport exception,
    the call is made exactly [N] times, with [N - 1] sleeps in between,
    and [ExecuteJsonWithParameter] returns the error of the [N]-th call
    without any reconnect. *)
Theorem json_retry_bound_exhausted (st : State) (c : connection) (N : Z)
    (stmt : string) (params : list (string * GoValue))
    (pm : list (string * Value)) (fuel : nat) :
  connection_ (session st) = Some c ->
  RetryConfig.MaxTime (retryCfg (session st)) = N ->
  0 < N <= int64_max ->
  params_loop (fun e => e) (value2Nvalue int64_unrepresentable parse_error) params []
  = (Some pm, None) ->
  (forall k, (count is_EvExecuteJson (trace st) <= k)%nat ->
             snd (conn_ExecuteJsonWithParameter k c (sessionID (session st)) stmt pm) <> None
             /\ is_TransportException
                  (snd (conn_ExecuteJsonWithParameter k c (sessionID (session st)) stmt pm))
                = false) ->
  (Z.to_nat N <= fuel)%nat ->
  let last := (count is_EvExecuteJson (trace st) + (Z.to_nat N - 1))%nat in
  exists e evs,
    snd (conn_ExecuteJsonWithParameter last c (sessionID (session st)) stmt pm) = Some e
    /\ ExecuteJsonWithParameter fuel stmt params st
       = Return (None, Some e) (mkState (session st) (evs ++ trace st))
    /\ count is_EvExecuteJson evs = Z.to_nat N
    /\ count is_remote evs = Z.to_nat N
    /\ reconnect_cycles evs = O
    /\ count is_EvSleep evs = (Z.to_nat N - 1)%nat.
Proof.
  intros Hc HN HNpos Hparse Hres Hfuel last.
  destruct (json_retry_plain_errors (Z.to_nat N - 1) fuel st c stmt pm 0)
    as (evs & Hrun & H1 & H2 & H3 & H4); try assumption; try lia.
  fold last in Hrun.
  destruct (Hres last) as [Hsome Htr]; [subst last; lia|].
  destruct (snd (conn_ExecuteJsonWithParameter last c (sessionID (session st)) stmt pm))
    as [e|] eqn:He; [|congruence].
  exists e, evs. split; [reflexivity|].
  split; [|repeat split; try assumption; lia].
  unfold ExecuteJsonWithParameter, bind, get_session. rewrite Hc, Hparse. simpl.
  fold (bind (executeWithReconnect fuel (execFuncJson fuel stmt pm)) return_bytes st).
  erewrite bind_Return.
  2:{ apply (executeWithReconnect_plain_error fuel _ st _ e); [exact Hrun | exact Htr]. }
  reflexivity.
Qed.


(* =================================================================== *)
(** ** More on reconnecting *)

(** X9: a [reConnect] that returns an error leaves the session as it was
    and has done nothing but ask its pool once: the old connection is
    neither handed back to a pool, nor signed out, nor closed. *)
Theorem failed_reConnect_changes_nothing (st st' : State) (e : error) :
  reConnect st = Return (Some e) st' ->
  session st' = session st
  /\ exists ev, trace st' = ev :: trace st /\ is_reconnect_attempt ev = true.
Proof.
  destruct st as [s tr]. unfold reConnect. unfold bind at 1. unfold get_session.
  cbn [session trace]. intros H.
  destruct (connPool s) as [pool|].
  - unfold connPool_getIdleConn, bind, earlier, emit, ret in H. cbn [session trace] in H.
    destruct (pool_getIdleConn (count is_EvGetIdleConn tr) pool) as [newc [e0|]].
    + injection H as _ <-. split; [reflexivity|]. eexists. split; reflexivity.
    + unfold connPool_release, put_session, emit in H. cbn in H. discriminate H.
  - destruct (sessPool s) as [pool|]; [|discriminate H].
    unfold sessPool_newSession, bind, earlier, emit, ret in H. cbn [session trace] in H.
    destruct (pool_newSession (count is_EvNewSession tr) pool) as [news [e0|]].
    + injection H as _ <-. split; [reflexivity|]. eexists. split; reflexivity.
    + exfalso. unfold connection_signOut, connection_close, log, put_session, panic,
        bind, earlier, emit, ret in H.
      destruct (connection_ s) as [c|]; cbn in H.
      * destruct (conn_signOut (count is_EvSignOut tr) c (sessionID s)) as [e1|];
          destruct news as [ns|]; cbn in H; discriminate H.
      * destruct news as [ns|]; cbn in H; discriminate H.
Qed.

Lemma reConnect_connPool_fails (s : Session) (tr : list Event) (pool : ConnectionPool)
    (newc : option connection) (e0 : error) :
  connPool s = Some pool ->
  pool_getIdleConn (count is_EvGetIdleConn tr) pool = (newc, Some e0) ->
  reConnect (mkState s tr)
  = Return (Some (Errorf_of e0)) (mkState s (EvGetIdleConn pool :: tr)).
Proof.
  intros Hp Hreply. unfold reConnect. unfold bind at 1. unfold get_session.
  cbn [session trace]. rewrite Hp.
  unfold connPool_getIdleConn, bind, earlier, emit, ret. cbn [session trace].
  rewrite Hreply. reflexivity.
Qed.

Lemma reConnect_connPool_succeeds (s : Session) (tr : list Event) (pool : ConnectionPool)
    (newc : option connection) :
  connPool s = Some pool ->
  pool_getIdleConn (count is_EvGetIdleConn tr) pool = (newc, None) ->
  reConnect (mkState s tr)
  = Return None (mkState (set_connection s newc)
                         (EvPoolRelease pool (connection_ s) :: EvGetIdleConn pool :: tr)).
Proof.
  intros Hp Hreply. unfold reConnect. unfold bind at 1. unfold get_session.
  cbn [session trace]. rewrite Hp.
  unfold connPool_getIdleConn, connPool_release, put_session, bind, earlier, emit, ret.
  cbn [session trace]. rewrite Hreply. reflexivity.
Qed.

(** One pass through the reconnect loop after a [reConnect] that failed. *)
Lemma reconnect_loop_pass (fuel : nat) (r start : Z) (st : State) (e : error) (ev : Event) :
  reConnect st = Return (Some e) (mkState (session st) (ev :: trace st)) ->
  is_clock_read ev = false ->
  reconnect_loop (S fuel) r start st
  = (let cfg := reconnectCfg (session st) in
     let D := ReconnectConfig.MaxTimeDuration cfg in
     let Mx := ReconnectConfig.MaxTime cfg in
     let tr1 := EvLog LError ("failed to reconnect, " ++ Error e) :: ev :: trace st in
     let tr2 := if D =? 0 then tr1 else EvSince :: tr1 in
     let elapsed := duration_sub (clock (count is_clock_read (trace st))) start in
     let r' := if Mx =? 0 then r else int_incr r in
     if negb (D =? 0) && (D <=? elapsed)
     then Return (Some e) (mkState (session st) tr2)
     else if negb (Mx =? 0) && (Mx <=? r')
          then Return (Some e) (mkState (session st) tr2)
          else reconnect_loop fuel r' start
                 (mkState (session st)
                          (EvSleep (ReconnectConfig.IdleTime cfg) :: tr2))).
Proof.
  intros Hre H2.
  cbn [reconnect_loop]. erewrite bind_Return by exact Hre. cbv beta iota.
  erewrite bind_Return by reflexivity.
  erewrite bind_Return by reflexivity.
  cbn [session trace]. cbv zeta.
  destruct (ReconnectConfig.MaxTimeDuration (reconnectCfg (session st)) =? 0) eqn:HD.
  - erewrite bind_Return by reflexivity. simpl negb. cbv beta iota. simpl andb at 1.
    cbv iota.
    destruct (negb (ReconnectConfig.MaxTime (reconnectCfg (session st)) =? 0)
              && (ReconnectConfig.MaxTime (reconnectCfg (session st))
                  <=? (if ReconnectConfig.MaxTime (reconnectCfg (session st)) =? 0
                       then r else int_incr r))); [reflexivity|].
    erewrite bind_Return by reflexivity. reflexivity.
  - unfold time_Since.
    erewrite bind_Return.
    2:{ unfold bind, earlier, emit, ret. cbn [session trace]. reflexivity. }
    cbn [count]. cbn [is_clock_read]. rewrite H2. simpl negb. simpl andb at 2.
    destruct (ReconnectConfig.MaxTimeDuration (reconnectCfg (session st))
              <=? duration_sub (clock (count is_clock_read (trace st))) start);
      [reflexivity|].
    destruct (negb (ReconnectConfig.MaxTime (reconnectCfg (session st)) =? 0)
              && (ReconnectConfig.MaxTime (reconnectCfg (session st))
                  <=? (if ReconnectConfig.MaxTime (reconnectCfg (session st)) =? 0
                       then r else int_incr r))); [reflexivity|].
    erewrite bind_Return by reflexivity. reflexivity.
Qed.

(** X10: with no attempt bound and no elapsed bound, a reconnect cycle
    whose attempts all fail does not end. *)
Theorem unbounded_reconnect_never_returns (st : State) :
  ReconnectConfig.MaxTime (reconnectCfg (session st)) = 0 ->
  ReconnectConfig.MaxTimeDuration (reconnectCfg (session st)) = 0 ->
  reconnect_always_fails (session st) ->
  forall fuel,
    reconnect_cycle fuel st = OutOfFuel
    /\ forall resp m,
         reconnectWithExecuteErr fuel resp (Some (TransportException m)) st = OutOfFuel.
Proof.
  intros HM HD Hfail fuel.
  assert (Hloop : forall fuel r start tr,
             reconnect_loop fuel r start (mkState (session st) tr) = OutOfFuel).
  { clear fuel. induction fuel as [|fuel IH]; intros r start tr; [reflexivity|].
    destruct (reconnect_loop_failed_pass fuel r start (mkState (session st) tr) Hfail)
      as (e & ev & _ & _ & _ & _ & _ & Hpass).
    rewrite Hpass. cbn [session trace]. cbv zeta. rewrite HM, HD. simpl. apply IH. }
  assert (Hcycle : reconnect_cycle fuel st = OutOfFuel).
  { unfold reconnect_cycle. erewrite bind_Return by reflexivity.
    unfold bind. cbn [session]. rewrite Hloop. reflexivity. }
  split; [exact Hcycle | intros resp m; exact Hcycle].
Qed.


(** From [i0] failed attempts on: [j] more failures within the budget,
    then the pool hands out a connection. *)
Lemma reconnect_loop_recovers (n0 : nat) (s : Session) (pool : ConnectionPool)
    (newc : option connection) (j : nat) :
  let cfg := reconnectCfg s in
  let D := ReconnectConfig.MaxTimeDuration cfg in
  let Mx := ReconnectConfig.MaxTime cfg in
  connPool s = Some pool ->
  Mx <= int64_max ->
  forall (i0 fuel : nat) (tr : list Event),
    count is_clock_read tr = (n0 + 1 + (if (D =? 0)%Z then O else i0))%nat ->
    (forall i, (i < j)%nat ->
               snd (pool_getIdleConn (count is_EvGetIdleConn tr + i) pool) <> None) ->
    pool_getIdleConn (count is_EvGetIdleConn tr + j) pool = (newc, None) ->
    (forall i, (i0 < i <= i0 + j)%nat -> budget_exceeded cfg n0 i = false) ->
    (j < fuel)%nat ->
    exists evs,
      reconnect_loop fuel (if Mx =? 0 then 0 else Z.of_nat i0) (clock n0) (mkState s tr)
      = Return None (mkState (set_connection s newc) (evs ++ tr))
      /\ count is_reconnect_attempt evs = S j
      /\ count is_EvSleep evs = j
      /\ count is_EvPoolRelease evs = 1%nat
      /\ In (EvPoolRelease pool (connection_ s)) evs
      /\ count is_EvExecute evs = O
      /\ count is_EvNow evs = O
      /\ count is_EvSignOut evs = O
      /\ count is_EvClose evs = O.
Proof.
  intros cfg D Mx Hpool Hmax.
  induction j as [|j IH]; intros i0 fuel tr Hclock Hfails Hsucc Hbudget Hfuel;
    (destruct fuel as [|fuel]; [lia|]).
  - rewrite Nat.add_0_r in Hsucc.
    exists [EvPoolRelease pool (connection_ s); EvGetIdleConn pool].
    split.
    + cbn [reconnect_loop].
      erewrite bind_Return by (apply (reConnect_connPool_succeeds s tr pool newc Hpool Hsucc)).
      reflexivity.
    + repeat split. left. reflexivity.
  - pose proof (Hfails O (Nat.lt_0_succ j)) as Hfirst. rewrite Nat.add_0_r in Hfirst.
    destruct (pool_getIdleConn (count is_EvGetIdleConn tr) pool) as [nc [e0|]] eqn:Hreply;
      [clear Hfirst | exfalso; apply Hfirst; reflexivity].
    rewrite (reconnect_loop_pass fuel _ (clock n0) (mkState s tr) (Errorf_of e0)
               (EvGetIdleConn pool));
      [| apply (reConnect_connPool_fails s tr pool nc e0 Hpool Hreply) | reflexivity].
    cbn [session trace]. cbv zeta. fold cfg. fold D. fold Mx.
    assert (Hnot : budget_exceeded cfg n0 (S i0) = false) by (apply Hbudget; lia).
    assert (Hr' : (if Mx =? 0 then (if Mx =? 0 then 0 else Z.of_nat i0)
                   else int_incr (if Mx =? 0 then 0 else Z.of_nat i0))
                  = (if Mx =? 0 then 0 else Z.of_nat i0 + 1)).
    { destruct (Z.eqb_spec Mx 0) as [E|E]; [reflexivity|].
      rewrite int_incr_small; [reflexivity|].
      unfold budget_exceeded in Hnot. fold D in Hnot. fold Mx in Hnot.
      apply orb_false_elim in Hnot. destruct Hnot as [_ Hnot].
      apply Z.eqb_neq in E. rewrite E in Hnot. simpl in Hnot.
      apply Z.leb_gt in Hnot. unfold int64_min. lia. }
    rewrite Hr'. clear Hr'.
    assert (Hcond : (negb (D =? 0)
                     && (D <=? duration_sub (clock (count is_clock_read tr)) (clock n0)))
                    || (negb (Mx =? 0) && (Mx <=? (if Mx =? 0 then 0 else Z.of_nat i0 + 1)))
                    = budget_exceeded cfg n0 (S i0)).
    { unfold budget_exceeded, elapsed_at. fold D. fold Mx. rewrite Hclock.
      rewrite Nat2Z.inj_succ. unfold Z.succ.
      destruct (D =? 0); destruct (Mx =? 0); cbn [negb andb orb]; try reflexivity;
        replace (n0 + 1 + i0)%nat with (n0 + S i0)%nat by lia; reflexivity. }
    rewrite Hnot in Hcond. apply orb_false_elim in Hcond. destruct Hcond as [Hc1 Hc2].
    rewrite Hc1, Hc2.
    set (tr2 := if D =? 0 then _ else _).
    assert (Hg : count is_EvGetIdleConn (EvSleep (ReconnectConfig.IdleTime cfg) :: tr2)
                 = S (count is_EvGetIdleConn tr))
      by (subst tr2; destruct (D =? 0); reflexivity).
    destruct (IH (S i0) fuel (EvSleep (ReconnectConfig.IdleTime cfg) :: tr2))
      as (evs & Hrun & H1 & H2 & H3 & H4 & H5 & H6 & H7 & H8).
    + subst tr2. destruct (D =? 0); cbn [count is_clock_read]; rewrite Hclock; lia.
    + intros i Hi. rewrite Hg.
      replace (S (count is_EvGetIdleConn tr) + i)%nat
        with (count is_EvGetIdleConn tr + S i)%nat by lia.
      apply Hfails. lia.
    + rewrite Hg.
      replace (S (count is_EvGetIdleConn tr) + j)%nat
        with (count is_EvGetIdleConn tr + S j)%nat by lia.
      exact Hsucc.
    + intros i Hi. apply Hbudget. lia.
    + lia.
    + replace (Z.of_nat i0 + 1) with (Z.of_nat (S i0)) by lia. rewrite Hrun.
      exists (evs ++ EvSleep (ReconnectConfig.IdleTime cfg)
                  :: (if D =? 0
                      then [EvLog LError ("failed to reconnect, " ++ Error (Errorf_of e0));
                            EvGetIdleConn pool]
                      else [EvSince;
                            EvLog LError ("failed to reconnect, " ++ Error (Errorf_of e0));
                            EvGetIdleConn pool])).
      split.
      * rewrite <- app_assoc. subst tr2. destruct (D =? 0); reflexivity.
      * rewrite !count_app, H1, H2, H3, H5, H6, H7, H8. unfold is_reconnect_attempt.
        destruct (D =? 0); simpl; repeat split; try lia;
          apply in_or_app; left; exact H4.
Qed.

(** X11: on a session of a connection pool, when the pool fails [j] times
    within the reconnect budget and then hands out a connection, a
    reconnect cycle returns nil after [j + 1] attempts and [j] sleeps; the
    session then holds the new connection, the old one has been handed
    back to the pool exactly once, and nothing was signed out or closed. *)
Theorem reconnect_recovers_after_failures (st : State) (pool : ConnectionPool)
    (c2 : connection) (j fuel : nat) :
  let s := session st in
  let cfg := reconnectCfg s in
  let n0 := count is_clock_read (trace st) in
  let g0 := count is_EvGetIdleConn (trace st) in
  connPool s = Some pool ->
  ReconnectConfig.MaxTime cfg <= int64_max ->
  (forall i, (i < j)%nat -> snd (pool_getIdleConn (g0 + i) pool) <> None) ->
  pool_getIdleConn (g0 + j) pool = (Some c2, None) ->
  (forall i, (1 <= i <= j)%nat -> budget_exceeded cfg n0 i = false) ->
  (j < fuel)%nat ->
  exists evs,
    reconnect_cycle fuel st
    = Return None (mkState (set_connection s (Some c2)) (evs ++ trace st))
    /\ (forall resp m,
           reconnectWithExecuteErr fuel resp (Some (TransportException m)) st
           = Return None (mkState (set_connection s (Some c2)) (evs ++ trace st)))
    /\ count is_reconnect_attempt evs = S j
    /\ count is_EvSleep evs = j
    /\ count is_EvPoolRelease evs = 1%nat
    /\ In (EvPoolRelease pool (connection_ s)) evs
    /\ count is_EvSignOut evs = O
    /\ count is_EvClose evs = O
    /\ reconnect_cycles evs = 1%nat.
Proof.
  intros s cfg n0 g0 Hpool Hmax Hfails Hsucc Hbudget Hfuel.
  destruct (reconnect_loop_recovers n0 s pool (Some c2) j Hpool Hmax O fuel
              (EvNow :: trace st))
    as (evs & Hrun & H1 & H2 & H3 & H4 & H5 & H6 & H7 & H8).
  - cbn [count is_clock_read]. fold n0. destruct (_ =? 0); lia.
  - intros i Hi. cbn [count is_EvGetIdleConn]. apply Hfails. exact Hi.
  - cbn [count is_EvGetIdleConn]. exact Hsucc.
  - intros i Hi. apply Hbudget. lia.
  - exact Hfuel.
  - assert (Hr0 : (if ReconnectConfig.MaxTime (reconnectCfg s) =? 0
                   then 0 else Z.of_nat 0) = 0)
      by (destruct (_ =? 0); reflexivity).
    rewrite Hr0 in Hrun.
    set (info := EvLog LInfo ("Successfully reconnect to host: " ++ Host (severAddress c2)
                              ++ ", port: " ++ fmt_d (Port (severAddress c2)))).
    assert (Hcycle : reconnect_cycle fuel st
                     = Return None (mkState (set_connection s (Some c2))
                                      ((info :: evs ++ [EvNow]) ++ trace st))).
    { unfold reconnect_cycle.
      erewrite bind_Return by reflexivity.
      fold n0. fold s.
      erewrite bind_Return by exact Hrun.
      cbv beta iota. erewrite bind_Return by reflexivity.
      cbn [session connection_ set_connection].
      erewrite bind_Return by reflexivity.
      cbn [trace]. rewrite <- app_comm_cons, <- app_assoc. reflexivity. }
    exists (info :: evs ++ [EvNow]). split; [exact Hcycle|]. split.
    + intros resp m. exact Hcycle.
    + unfold reconnect_cycles. subst info. cbn [count is_reconnect_attempt is_EvGetIdleConn
        is_EvNewSession is_EvSleep is_EvPoolRelease is_EvSignOut is_EvClose is_EvNow orb].
      rewrite !count_app, H1, H2, H3, H6, H7, H8. simpl.
      repeat split; try lia. right. apply in_or_app. left. exact H4.
Qed.


(** A reconnect cycle whose attempts all fail, the budget first exceeded
    at attempt [n]. *)
Lemma reconnect_cycle_exhausts (st : State) (n fuel : nat) :
  let cfg := reconnectCfg (session st) in
  let n0 := count is_clock_read (trace st) in
  reconnect_always_fails (session st) ->
  ReconnectConfig.MaxTime cfg <= int64_max ->
  (1 <= n)%nat ->
  budget_exceeded cfg n0 n = true ->
  (forall i, (1 <= i < n)%nat -> budget_exceeded cfg n0 i = false) ->
  (n <= fuel)%nat ->
  exists evs,
    reconnect_cycle fuel st
    = Return (Some (PlainError "Nebula Down")) (mkState (session st) (evs ++ trace st))
    /\ count is_reconnect_attempt evs = n
    /\ count is_EvExecute evs = O
    /\ count is_EvNow evs = 1%nat.
Proof.
  intros cfg n0 Hfail Hmax Hn Hat Hleast Hfuel.
  destruct (reconnect_loop_exhausts n0 (session st) (n - 1) Hfail Hmax O fuel
              (EvNow :: trace st))
    as (e & evs & Hrun & H1 & H2 & H3 & H4).
  - cbn [count is_clock_read]. fold n0. destruct (_ =? 0); lia.
  - intros _. unfold int64_max. simpl. lia.
  - intros k Hk. apply Hleast. lia.
  - replace (0 + S (n - 1))%nat with n by lia. exact Hat.
  - lia.
  - assert (Hr0 : (if ReconnectConfig.MaxTime (reconnectCfg (session st)) =? 0
                   then 0 else Z.of_nat 0) = 0)
      by (destruct (_ =? 0); reflexivity).
    rewrite Hr0 in Hrun.
    exists (evs ++ [EvNow]). split.
    + unfold reconnect_cycle.
      erewrite bind_Return by reflexivity.
      fold n0.
      erewrite bind_Return by exact Hrun.
      rewrite <- app_assoc. reflexivity.
    + rewrite !count_app, H1, H3, H4. simpl. repeat split; lia.
Qed.

(** X12: when the first call fails with a transport exception and every
    reconnect attempt fails until the reconnect budget is exceeded, at
    attempt [n], [ExecuteWithParameter] returns the error "Nebula Down" in
    place of the transport error: the call was made once and is not made
    again. *)
Theorem reconnect_exhausted_is_nebula_down (st : State) (c : connection)
    (stmt : string) (params : list (string * GoValue)) (pm : list (string * Value))
    (resp : option ExecutionResponse) (m : string) (n fuel : nat) :
  let cfg := reconnectCfg (session st) in
  let n0 := count is_clock_read (trace st) in
  connection_ (session st) = Some c ->
  parseParams int64_unrepresentable parse_error params = (Some pm, None) ->
  conn_executeWithParameter (count is_EvExecute (trace st)) c
    (sessionID (session st)) stmt pm = (resp, Some (TransportException m)) ->
  reconnect_always_fails (session st) ->
  ReconnectConfig.MaxTime cfg <= int64_max ->
  (1 <= n)%nat ->
  budget_exceeded cfg n0 n = true ->
  (forall i, (1 <= i < n)%nat -> budget_exceeded cfg n0 i = false) ->
  (n <= fuel)%nat ->
  exists evs,
    ExecuteWithParameter fuel stmt params st
    = Return (None, Some (PlainError "Nebula Down"))
             (mkState (session st) (evs ++ trace st))
    /\ count is_EvExecute evs = 1%nat
    /\ count is_reconnect_attempt evs = n
    /\ reconnect_cycles evs = 1%nat.
Proof.
  intros cfg n0 Hc Hparse Hreply Hfail Hmax Hn Hat Hleast Hfuel.
  destruct fuel as [|fuel]; [lia|].
  set (st1 := mkState (session st)
                      (EvExecute c (sessionID (session st)) stmt pm :: trace st)).
  destruct (reconnect_cycle_exhausts st1 n (S fuel)) as (evs & Hcycle & H1 & H2 & H3);
    try assumption.
  rewrite (ExecuteWithParameter_escalated (S fuel) st st1 c stmt params pm INil
             (Some (TransportException m)) Hc Hparse
             (execFunc_transport fuel st c stmt pm resp m Hc Hreply)).
  - unfold one_cycle_then. erewrite bind_Return by exact Hcycle.
    exists (evs ++ [EvExecute c (sessionID (session st)) stmt pm]).
    split.
    + subst st1. cbn [session trace]. rewrite <- app_assoc. reflexivity.
    + unfold reconnect_cycles. rewrite !count_app, H1, H2, H3. simpl. repeat split; lia.
  - simpl. congruence.
  - reflexivity.
Qed.

(** X13: on a session of a connection pool, when the first call fails
    with a transport exception, the pool hands out a connection at once
    and the call then succeeds on it, [ExecuteWithParameter] returns the
    result set of the second call: two calls, the second one on the new
    connection with the same session id, one reconnect cycle in between,
    in which the old connection went back to the pool. *)
Theorem transport_error_is_recovered (st : State) (c c2 : connection)
    (pool : ConnectionPool) (stmt : string) (params : list (string * GoValue))
    (pm : list (string * Value)) (resp1 resp2 : option ExecutionResponse)
    (m : string) (rs : ResultSet) (fuel : nat) :
  let s := session st in
  let k0 := count is_EvExecute (trace st) in
  connection_ s = Some c ->
  connPool s = Some pool ->
  parseParams int64_unrepresentable parse_error params = (Some pm, None) ->
  conn_executeWithParameter k0 c (sessionID s) stmt pm
  = (resp1, Some (TransportException m)) ->
  pool_getIdleConn (count is_EvGetIdleConn (trace st)) pool = (Some c2, None) ->
  conn_executeWithParameter (S k0) c2 (sessionID s) stmt pm = (resp2, None) ->
  IsServerSessionError resp2 = false ->
  genResultSet resp2 (timezone s) = (Some rs, None) ->
  rs_resp rs = resp2 ->
  ExecuteWithParameter (S fuel) stmt params st
  = Return (Some rs, None)
      (mkState (set_connection s (Some c2))
         (EvExecute c2 (sessionID s) stmt pm
            :: EvLog LInfo ("Successfully reconnect to host: " ++ Host (severAddress c2)
                            ++ ", port: " ++ fmt_d (Port (severAddress c2)))
            :: EvPoolRelease pool (Some c)
            :: EvGetIdleConn pool
            :: EvNow
            :: EvExecute c (sessionID s) stmt pm
            :: trace st)).
Proof.
  intros s k0 Hc Hpool Hparse Hreply1 Hidle Hreply2 Hsess Hgen Hrs.
  set (st1 := mkState s (EvExecute c (sessionID s) stmt pm :: trace st)).
  rewrite (ExecuteWithParameter_escalated (S fuel) st st1 c stmt params pm INil
             (Some (TransportException m)) Hc Hparse
             (execFunc_transport fuel st c stmt pm resp1 m Hc Hreply1)).
  2:{ simpl. congruence. }
  2:{ reflexivity. }
  unfold one_cycle_then, reconnect_cycle.
  erewrite bind_Return.
  2:{ erewrite bind_Return by reflexivity.
      erewrite bind_Return.
      2:{ cbn [reconnect_loop].
          erewrite bind_Return.
          2:{ apply (reConnect_connPool_succeeds s _ pool (Some c2) Hpool).
              cbn [count is_EvGetIdleConn]. exact Hidle. }
          reflexivity. }
      cbv beta iota. erewrite bind_Return by reflexivity.
      cbn [session connection_ set_connection].
      erewrite bind_Return by reflexivity.
      reflexivity. }
  cbv beta iota.
  set (st2 := mkState _ _).
  assert (Hloop : exec_retry_loop (S fuel) stmt pm 0 st2
                  = Return (resp2, None)
                      (mkState (session st2)
                         (EvExecute c2 (sessionID (session st2)) stmt pm :: trace st2))).
  { apply (exec_retry_loop_break fuel st2 c2 stmt pm 0 resp2 None).
    - reflexivity.
    - subst st2. cbn [session trace count is_EvExecute sessionID set_connection].
      fold k0. exact Hreply2.
    - unfold IsQueryOk. rewrite Hsess. reflexivity. }
  unfold execFunc. unfold bind at 1 2. rewrite Hloop.
  unfold bind, get_session.
  subst st2. cbn [session trace timezone set_connection sessionID].
  rewrite Hgen. cbn [return_ResultSet ret]. rewrite Hc. reflexivity.
Qed.


(* =================================================================== *)
(** ** What the operations keep of a session *)

Lemma session_kept_refl (s : Session) : session_kept s s.
Proof. unfold session_kept. repeat split. Qed.

Lemma session_kept_trans (s1 s2 s3 : Session) :
  session_kept s1 s2 -> session_kept s2 s3 -> session_kept s1 s3.
Proof.
  unfold session_kept.
  intros (A1 & A2 & A3 & A4 & A5 & A6) (B1 & B2 & B3 & B4 & B5 & B6).
  split; [congruence|]. split; [congruence|]. split; [congruence|].
  split; [congruence|]. split; [congruence|].
  intros Hne. destruct (A6 Hne) as [E E'].
  assert (Hne2 : connPool s2 <> None) by congruence.
  destruct (B6 Hne2) as [E2 E2']. split; congruence.
Qed.

Lemma relates_ret {A} (a : A) : relates session_kept (ret a).
Proof. intros st st' H. injection H as <-. apply session_kept_refl. Qed.

Lemma relates_panic {A} : relates session_kept (@panic A).
Proof. intros st st' H. injection H as <-. apply session_kept_refl. Qed.

Lemma relates_out_of_fuel {A} : relates session_kept (@out_of_fuel A).
Proof. intros st st' H. discriminate H. Qed.

Lemma relates_bind {A B} (c : M A) (k : A -> M B) :
  relates session_kept c -> (forall a, relates session_kept (k a)) ->
  relates session_kept (bind c k).
Proof.
  intros Hc Hk st st' H. unfold bind in H.
  destruct (c st) as [a st1| st1 |] eqn:Hrun.
  - apply (session_kept_trans _ (session st1)).
    + apply Hc. rewrite Hrun. reflexivity.
    + apply (Hk a st1 st' H).
  - injection H as <-. apply Hc. rewrite Hrun. reflexivity.
  - discriminate H.
Qed.

Lemma relates_get_session : relates session_kept get_session.
Proof. intros st st' H. injection H as <-. apply session_kept_refl. Qed.

Lemma relates_earlier (q : Event -> bool) : relates session_kept (earlier q).
Proof. intros st st' H. injection H as <-. apply session_kept_refl. Qed.

Lemma relates_emit (ev : Event) : relates session_kept (emit ev).
Proof. intros st st' H. injection H as <-. apply session_kept_refl. Qed.

Lemma relates_error_string (err : option error) : relates session_kept (error_string err).
Proof. destruct err; [apply relates_ret | apply relates_panic]. Qed.

Ltac relates_step :=
  match goal with
  | |- relates _ (bind _ _) => apply relates_bind; [|intros ?]
  | |- relates _ (ret _) => apply relates_ret
  | |- relates _ panic => apply relates_panic
  | |- relates _ out_of_fuel => apply relates_out_of_fuel
  | |- relates _ get_session => apply relates_get_session
  | |- relates _ (earlier _) => apply relates_earlier
  | |- relates _ (error_string _) => apply relates_error_string
  | |- relates _ (emit _) => apply relates_emit
  | |- relates _ (log _ _) => apply relates_emit
  | |- relates _ (time_Sleep _) => apply relates_emit
  | |- relates _ (connection_close _) => apply relates_emit
  | |- relates _ (connPool_release _ _) => apply relates_emit
  | |- relates _ (match ?x with _ => _ end) => destruct x
  end.

Ltac relates_auto := repeat relates_step.

Ltac run_cases H :=
  repeat (simpl in H;
          match type of H with
          | context [match ?x with _ => _ end] =>
              lazymatch x with
              | context [match _ with _ => _ end] => fail
              | _ => destruct x eqn:?
              end
          end);
  simpl in H.

Lemma reConnect_keeps_session : relates session_kept reConnect.
Proof.
  intros [s tr] st' H.
  unfold reConnect, connPool_getIdleConn, sessPool_newSession, connection_signOut,
    connection_close, connPool_release, log, put_session, panic, bind, get_session,
    earlier, emit, ret, final_state in H.
  run_cases H; injection H as <-; unfold session_kept; simpl;
    do 5 (split; [congruence|]); intros Hne; try congruence; split; reflexivity.
Qed.

Lemma reconnect_loop_keeps_session (fuel : nat) (retryTime startRetryTime : Z) :
  relates session_kept (reconnect_loop fuel retryTime startRetryTime).
Proof.
  revert retryTime. induction fuel as [|fuel IH]; intros retryTime; simpl.
  - apply relates_out_of_fuel.
  - apply relates_bind; [apply reConnect_keeps_session|]. intros [e|]; [|apply relates_ret].
    unfold time_Since. relates_auto; apply IH.
Qed.

Lemma reconnectWithExecuteErr_keeps_session (fuel : nat)
    (resp : option ExecutionResponse) (err : option error) :
  relates session_kept (reconnectWithExecuteErr fuel resp err).
Proof.
  unfold reconnectWithExecuteErr, reconnect_cycle, time_Now.
  destruct (negb _ && negb _); [apply relates_ret|].
  apply relates_bind; [relates_auto|]. intros t.
  apply relates_bind; [apply reconnect_loop_keeps_session|]. intros a. relates_auto.
Qed.

Lemma executeWithReconnect_keeps_session (fuel : nat) (f : M (Iface * option error)) :
  relates session_kept f -> relates session_kept (executeWithReconnect fuel f).
Proof.
  intros Hf. unfold executeWithReconnect, reconnect_and_rerun.
  apply relates_bind; [exact Hf|]. intros [resp err].
  assert (Hre : forall param,
             relates session_kept
               (bind (reconnectWithExecuteErr fuel param err)
                     (fun err2 => match err2 with
                                  | Some e2 => ret (INil, Some e2)
                                  | None => f
                                  end))).
  { intros param. apply relates_bind; [apply reconnectWithExecuteErr_keeps_session|].
    intros [e2|]; [apply relates_ret | exact Hf]. }
  destruct resp as [|[r|]|b].
  - destruct (negb (is_some err)); [apply relates_ret | apply Hre].
  - destruct (IsQueryOk err (rs_resp r)); [apply relates_ret | apply Hre].
  - apply relates_panic.
  - destruct (negb (is_some err)); [apply relates_ret | apply Hre].
Qed.

Lemma exec_retry_loop_keeps_session (fuel : nat) (stmt : string)
    (pm : list (string * Value)) (retryTime : Z) :
  relates session_kept (exec_retry_loop fuel stmt pm retryTime).
Proof.
  revert retryTime. induction fuel as [|fuel IH]; intros retryTime; simpl.
  - apply relates_out_of_fuel.
  - unfold connection_executeWithParameter. relates_auto; apply IH.
Qed.

Lemma json_retry_loop_keeps_session (fuel : nat) (stmt : string)
    (pm : list (string * Value)) (retryTime : Z) :
  relates session_kept (json_retry_loop fuel stmt pm retryTime).
Proof.
  revert retryTime. induction fuel as [|fuel IH]; intros retryTime; simpl.
  - apply relates_out_of_fuel.
  - unfold connection_ExecuteJsonWithParameter. relates_auto; apply IH.
Qed.

Lemma ExecuteWithParameter_keeps_session (fuel : nat) (stmt : string)
    (params : list (string * GoValue)) :
  relates session_kept (ExecuteWithParameter fuel stmt params).
Proof.
  unfold ExecuteWithParameter.
  apply relates_bind; [apply relates_get_session|]. intros s.
  destruct (connection_ s); [|apply relates_ret].
  destruct (parseParams _ _ params) as [pm [e|]]; [apply relates_ret|].
  apply relates_bind.
  - apply executeWithReconnect_keeps_session. unfold execFunc.
    apply relates_bind; [apply exec_retry_loop_keeps_session|].
    intros [resp err]. relates_auto.
  - intros r. unfold return_ResultSet. relates_auto.
Qed.

Lemma Release_keeps_session : relates session_kept Release.
Proof.
  intros [s tr] st' H.
  unfold Release, connection_signOut, connPool_release, log, put_session, bind,
    get_session, earlier, emit, ret, final_state in H.
  run_cases H; injection H as <-; unfold session_kept; simpl;
    do 5 (split; [congruence|]); intros Hne; try congruence; split; reflexivity.
Qed.

(** X14: no operation changes the pool references, the timezone or the
    two policies of a session, and on a session of a connection pool none
    changes the session id or the timestamp either: reconnects replace
    the connection only. *)
Theorem operations_keep_session (fuel : nat) (stmt : string)
    (params : list (string * GoValue)) (st st' : State) :
  (final_state (ExecuteWithParameter fuel stmt params st) = Some st' ->
   session_kept (session st) (session st'))
  /\ (final_state (ExecuteJsonWithParameter fuel stmt params st) = Some st' ->
      session_kept (session st) (session st'))
  /\ (final_state (Ping fuel st) = Some st' -> session_kept (session st) (session st'))
  /\ (final_state (Release st) = Some st' -> session_kept (session st) (session st'))
  /\ (final_state (reConnect st) = Some st' -> session_kept (session st) (session st'))
  /\ (forall resp err,
         final_state (reconnectWithExecuteErr fuel resp err st) = Some st' ->
         session_kept (session st) (session st')).
Proof.
  split; [|split; [|split; [|split; [|split]]]].
  - apply ExecuteWithParameter_keeps_session.
  - revert st st'. change (relates session_kept (ExecuteJsonWithParameter fuel stmt params)).
    unfold ExecuteJsonWithParameter.
    apply relates_bind; [apply relates_get_session|]. intros s.
    destruct (connection_ s); [|apply relates_ret].
    destruct (params_loop _ _ params []) as [pm [e|]]; [apply relates_ret|].
    apply relates_bind.
    + apply executeWithReconnect_keeps_session. apply json_retry_loop_keeps_session.
    + intros r. unfold return_bytes. relates_auto.
  - revert st st'. change (relates session_kept (Ping fuel)).
    unfold Ping, Execute.
    apply relates_bind; [apply relates_get_session|]. intros s.
    destruct (connection_ s); [|apply relates_ret].
    apply relates_bind; [apply ExecuteWithParameter_keeps_session|].
    intros [resp err]. relates_auto.
  - apply Release_keeps_session.
  - apply reConnect_keeps_session.
  - intros resp err. apply reconnectWithExecuteErr_keeps_session.
Qed.

(* =================================================================== *)
(** ** [Ping] and the tests of the retry loop *)

(** X15: [Ping] on a session without connection, hence after every
    [Release], returns its "released" error and does nothing; on a session
    with a connection it returns nil exactly when [Execute] of the ping
    statement returns a result set that succeeded, and an error of
    [Execute] always comes back as an error of [Ping], its message appended
    to a format string that is given no operand. *)
Theorem ping_outcomes (fuel : nat) (st : State) :
  (connection_ (session st) = None ->
   Ping fuel st
   = Return (Some (PlainError "failed to ping: Session has been released")) st)
  /\ (exists st1,
         Release st = Return tt st1
         /\ Ping fuel st1
            = Return (Some (PlainError "failed to ping: Session has been released")) st1)
  /\ (forall st',
         Ping fuel st = Return None st'
         <-> connection_ (session st) <> None
             /\ exists rs, Execute fuel ping_stmt st = Return (Some rs, None) st'
                           /\ ResultSet_IsSucceed rs = true)
  /\ (forall resp e st',
         connection_ (session st) <> None ->
         Execute fuel ping_stmt st = Return (resp, Some e) st' ->
         Ping fuel st
         = Return (Some (PlainError
                           (fmt_no_operands ("session ping failed, %s" ++ Error e)))) st').
Proof.
  assert (Hreleased : forall st0, connection_ (session st0) = None ->
             Ping fuel st0
             = Return (Some (PlainError "failed to ping: Session has been released")) st0).
  { intros st0 Hnil. unfold Ping, bind, get_session. rewrite Hnil. reflexivity. }
  split; [apply Hreleased|]. split; [|split].
  - destruct (Release_returns st) as (st1 & Hrel & Hnil).
    exists st1. split; [exact Hrel | apply Hreleased; exact Hnil].
  - intros st'. unfold Ping. unfold bind at 1. unfold get_session.
    destruct (connection_ (session st)) as [c|] eqn:Hc.
    + unfold bind.
      destruct (Execute fuel ping_stmt st) as [[resp err] st1 | st1 |] eqn:Hex.
      * destruct err as [e|]; [|destruct resp as [rs|]].
        -- split; [intros H; discriminate H|].
           intros (_ & rs & H & _). discriminate H.
        -- destruct (ResultSet_IsSucceed rs) eqn:Hok; simpl.
           ++ split.
              ** intros H. injection H as <-. split; [discriminate|].
                 exists rs. split; [reflexivity | exact Hok].
              ** intros (_ & rs' & H & _). injection H as _ <-. reflexivity.
           ++ split; [intros H; discriminate H|].
              intros (_ & rs' & H & Hok'). injection H as <- _. congruence.
        -- split; [intros H; discriminate H|].
           intros (_ & rs & H & _). discriminate H.
      * split; [intros H; discriminate H|]. intros (_ & rs & H & _). discriminate H.
      * split; [intros H; discriminate H|]. intros (_ & rs & H & _). discriminate H.
    + split; [intros H; discriminate H|]. intros (Hne & _). congruence.
  - intros resp e st' Hne Hex. unfold Ping. unfold bind at 1. unfold get_session.
    destruct (connection_ (session st)) as [c|]; [|congruence].
    unfold bind. rewrite Hex. reflexivity.
Qed.

(** What the retry loop returns is the answer of its last call. *)
Lemma exec_retry_loop_result (fuel : nat) :
  forall (stmt : string) (pm : list (string * Value)) (r : Z) (st st' : State)
         (resp : option ExecutionResponse) (err : option error),
    exec_retry_loop fuel stmt pm r st = Return (resp, err) st' ->
    session st' = session st
    /\ (exists c evs,
           connection_ (session st) = Some c
           /\ trace st' = EvExecute c (sessionID (session st)) stmt pm :: evs
           /\ conn_executeWithParameter (count is_EvExecute evs) c
                (sessionID (session st)) stmt pm = (resp, err))
    /\ (leaves_loop (resp, err) = true
        \/ 0 < RetryConfig.MaxTime (retryCfg (session st))).
Proof.
  induction fuel as [|fuel IH]; intros stmt pm r [s tr] st' resp err H; simpl in H.
  - discriminate H.
  - unfold bind at 1 in H. unfold get_session in H. cbn [session] in H.
    unfold connection_executeWithParameter in H.
    destruct (connection_ s) as [c|] eqn:Hc; [|discriminate H].
    unfold bind, earlier, emit, ret in H. cbn [session trace] in H.
    destruct (conn_executeWithParameter (count is_EvExecute tr) c (sessionID s) stmt pm)
      as [resp0 err0] eqn:Hreply.
    cbn [session trace].
    destruct (IsQueryOk err0 resp0) eqn:Hok.
    { injection H as <- <- <-. split; [reflexivity|]. split.
      - exists c, tr. rewrite Hc. repeat split. exact Hreply.
      - left. unfold leaves_loop. cbn [fst snd]. rewrite Hok. reflexivity. }
    destruct (is_TransportException err0 || IsServerSessionError resp0) eqn:Hesc.
    { injection H as <- <- <-. split; [reflexivity|]. split.
      - exists c, tr. rewrite Hc. repeat split. exact Hreply.
      - left. unfold leaves_loop. cbn [fst snd]. rewrite Hok, Hesc. reflexivity. }
    destruct ((0 <? RetryConfig.MaxTime (retryCfg s))
              && (RetryConfig.MaxTime (retryCfg s)
                  <=? (if 0 <? RetryConfig.MaxTime (retryCfg s)
                       then int_incr r else r))) eqn:Hbound.
    { injection H as <- <- <-. split; [reflexivity|]. split.
      - exists c, tr. rewrite Hc. repeat split. exact Hreply.
      - right. apply andb_prop in Hbound. destruct Hbound as [Hpos _].
        apply Z.ltb_lt in Hpos. exact Hpos. }
    destruct err0 as [e|]; [|discriminate H].
    cbn [error_string] in H. unfold log, time_Sleep, bind, emit, ret in H.
    cbn [session trace] in H.
    destruct (IH _ _ _ _ _ _ _ H) as (Hs & (c' & evs & Hc' & Htr & Hans) & Hout).
    cbn [session trace] in Hs, Hc', Htr, Hans, Hout.
    split; [exact Hs|]. split; [|exact Hout].
    exists c', evs. repeat split; assumption.
Qed.

(** The tests of the retry loop on one answer. *)
Lemma retry_tests (resp : option ExecutionResponse) (err : option error) :
  (leaves_loop (resp, err) = true \/ residual (resp, err))
  /\ ~ (leaves_loop (resp, err) = true /\ residual (resp, err))
  /\ (residual (resp, err)
      <-> err <> None
          /\ is_TransportException err = false
          /\ IsServerSessionError resp = false)
  /\ (IsQueryOk err resp = true ->
      err = None
      /\ is_TransportException err || IsServerSessionError resp = false).
Proof using.
  clear. unfold leaves_loop, residual, IsQueryOk. cbn [fst snd].
  destruct err as [[m|m]|]; destruct (IsServerSessionError resp); cbn;
    intuition (try discriminate; try congruence).
Qed.

(** X16: of the two tests with which the retry loop leaves and the case
    in which it goes round again exactly one holds for every answer, and
    an answer that is accepted carries no error at all; whenever the loop
    returns, it returns the answer of the call it made last, unchanged,
    the session is the one it started with, and the answer is one on which
    the loop goes round again only under a positive retry bound. *)
Theorem retry_loop_outcomes (fuel : nat) (stmt : string) (pm : list (string * Value))
    (r : Z) (st : State) :
  (forall resp err,
      (leaves_loop (resp, err) = true \/ residual (resp, err))
      /\ ~ (leaves_loop (resp, err) = true /\ residual (resp, err))
      /\ (residual (resp, err)
          <-> err <> None
              /\ is_TransportException err = false
              /\ IsServerSessionError resp = false)
      /\ (IsQueryOk err resp = true ->
          err = None
          /\ is_TransportException err || IsServerSessionError resp = false))
  /\ (forall resp err st',
         exec_retry_loop fuel stmt pm r st = Return (resp, err) st' ->
         session st' = session st
         /\ (exists c evs,
                connection_ (session st) = Some c
                /\ trace st' = EvExecute c (sessionID (session st)) stmt pm :: evs
                /\ conn_executeWithParameter (count is_EvExecute evs) c
                     (sessionID (session st)) stmt pm = (resp, err))
         /\ (residual (resp, err) ->
             0 < RetryConfig.MaxTime (retryCfg (session st)))).
Proof using conn_executeWithParameter.
  split; [exact retry_tests|].
  intros resp err st' H.
  destruct (exec_retry_loop_result fuel stmt pm r st st' resp err H) as (Hs & Hlast & Hout).
  split; [exact Hs|]. split; [exact Hlast|].
  intros Hres. destruct Hout as [Hleft|Hpos]; [|exact Hpos].
  destruct (retry_tests resp err) as (_ & Hex & _). exfalso. apply Hex. split; assumption.
Qed.

End SessionOps.

(* ===================================================================== *)
(** ** The scenarios of the specification, run *)

(** Scenario 1: the query succeeds on the first attempt. *)
Example scenario_success_at_first_attempt :
  Execute amd64_unrepresentable parse_error_prefixed exec_success signOut_ok
    no_idle_connection no_new_session clock_100ms wrap_response fmt_verbatim
    1 "RETURN 1" (fresh standalone_session)
  = Return (Some (mkResultSet (Some success_response) [] UTC), None)
      (mkState standalone_session [EvExecute sample_connection 42 "RETURN 1" []]).
Proof. reflexivity. Qed.

(** Scenario 2: the first call breaks the transport, the pool has a spare
    connection and the call then succeeds on it. *)
Example scenario_reconnect_then_success :
  ExecuteWithParameter amd64_unrepresentable parse_error_prefixed exec_fails_once
    signOut_ok idle_connection_available no_new_session clock_100ms wrap_response
    fmt_verbatim 1 "RETURN 1" [] (fresh (pooled_session (ReconnectConfig.mk 1 0 10)))
  = Return (Some (mkResultSet (Some success_response) [] UTC), None)
      (mkState (set_connection (pooled_session (ReconnectConfig.mk 1 0 10))
                               (Some spare_connection))
         [EvExecute spare_connection 42 "RETURN 1" [];
          EvLog LInfo "Successfully reconnect to host: 127.0.0.2, port: 9669";
          EvPoolRelease (mkConnectionPool 7) (Some sample_connection);
          EvGetIdleConn (mkConnectionPool 7); EvNow;
          EvExecute sample_connection 42 "RETURN 1" []]).
Proof. reflexivity. Qed.

(** Scenario 4: an elapsed bound of 200ms and a pool without connections;
    with clock readings 100ms apart the second failed attempt is the last. *)
Example scenario_reconnect_budget_exhausted :
  exists st',
    ExecuteWithParameter amd64_unrepresentable parse_error_prefixed exec_transport_error
      signOut_ok no_idle_connection no_new_session clock_100ms wrap_response
      fmt_verbatim 5 "RETURN 1" []
      (fresh (pooled_session (ReconnectConfig.mk 0 200000000 10)))
    = Return (None, Some (PlainError "Nebula Down")) st'
    /\ count is_reconnect_attempt (trace st') = 2%nat
    /\ count is_EvExecute (trace st') = 1%nat.
Proof. eexists. split; [reflexivity | split; reflexivity]. Qed.

(** Scenario 5: the parameter 5.0 becomes the integer 5. *)
Example scenario_five_point_zero :
  parseParams amd64_unrepresentable parse_error_prefixed [("n", GoFloat64 float_five)]
  = (Some [("n", set_IVal NewValue 5)], None).
Proof. reflexivity. Qed.

(** Scenario 6: [Release] twice. *)
Example scenario_release_twice :
  bind (Release signOut_ok) (fun _ => Release signOut_ok)
       (fresh (pooled_session (ReconnectConfig.mk 3 0 10)))
  = Return tt
      (mkState (set_connection (pooled_session (ReconnectConfig.mk 3 0 10)) None)
         [EvLog LWarn "Session has been released";
          EvPoolRelease (mkConnectionPool 7) (Some sample_connection);
          EvSignOut sample_connection 42]).
Proof. reflexivity. Qed.

(* ===================================================================== *)
(** ** The statements at concrete inputs *)

(** C6, at 5.0 and 2.5. *)
Lemma float_collapse_within_int64_witness :
  value2Nvalue amd64_unrepresentable parse_error_prefixed (GoFloat64 float_five) = (set_IVal NewValue 5, None)
  /\ value2Nvalue amd64_unrepresentable parse_error_prefixed (GoFloat32 float_five) = (set_IVal NewValue 5, None)
  /\ value2Nvalue amd64_unrepresentable parse_error_prefixed (GoFloat64 float_two_and_a_half)
     = (set_FVal NewValue float_two_and_a_half, None)
  /\ value2Nvalue amd64_unrepresentable parse_error_prefixed (GoFloat32 float_two_and_a_half)
     = (set_FVal NewValue (float64_of_float32 float_two_and_a_half), None).
Proof.
  destruct (float_collapse_within_int64 amd64_unrepresentable parse_error_prefixed float_five)
    as (H64 & H32 & _ & _).
  destruct (float_collapse_within_int64 amd64_unrepresentable parse_error_prefixed float_two_and_a_half)
    as (_ & _ & F64 & F32).
  split; [|split; [|split]].
  - apply H64; [vm_compute; intuition discriminate | left; lia | reflexivity | reflexivity].
  - apply H32; [vm_compute; intuition discriminate | left; lia | reflexivity | reflexivity].
  - apply F64. vm_compute. intuition discriminate.
  - apply F32. vm_compute. intuition discriminate.
Defined.

(** C6 as stated fails at 2^64: the value has no fractional part, yet it is
    converted to the double variant (no [int64] converts back to it). *)
Lemma integral_float_beyond_int64_stays_double :
  valid_float64 float_two_pow_64
  /\ float_integral float_two_pow_64
  /\ value2Nvalue amd64_unrepresentable parse_error_prefixed (GoFloat64 float_two_pow_64)
     = (set_FVal NewValue float_two_pow_64, None)
  /\ variant_of (fst (value2Nvalue amd64_unrepresentable parse_error_prefixed (GoFloat64 float_two_pow_64)))
     = VarDouble.
Proof.
  split; [vm_compute; intuition discriminate|].
  split; [left; lia|]. split; reflexivity.
Qed.

(** C7, at a list and a map whose second element is of an unsupported
    type, and at a list that holds one two levels down. *)
Lemma unsupported_type_is_conversion_error_witness :
  slice2Nlist amd64_unrepresentable parse_error_prefixed
    [GoInt 1; GoOther "main.Point"; GoInt 2]
  = (None, Some (PlainError (unsupported_msg "main.Point")))
  /\ value2Nvalue amd64_unrepresentable parse_error_prefixed
       (GoSlice [GoInt 1; GoOther "main.Point"; GoInt 2])
     = (NewValue, Some (PlainError (unsupported_msg "main.Point")))
  /\ value2Nvalue amd64_unrepresentable parse_error_prefixed
       (GoMap [("a", GoInt 1); ("b", GoOther "main.Point"); ("c", GoInt 2)])
     = (NewValue, Some (parse_error_prefixed (PlainError (unsupported_msg "main.Point"))))
  /\ exists e, value2Nvalue amd64_unrepresentable parse_error_prefixed
                 (GoSlice [GoSlice [GoOther "chan int"]])
               = (NewValue, Some e).
Proof.
  destruct (unsupported_type_is_conversion_error amd64_unrepresentable parse_error_prefixed)
    as (_ & Hdeep & Hlist & Hmap).
  destruct (Hlist [GoInt 1] (GoOther "main.Point") [GoInt 2]
              (PlainError (unsupported_msg "main.Point"))) as [Hs Hv].
  { repeat constructor. }
  { reflexivity. }
  destruct (Hmap [("a", GoInt 1)] "b" (GoOther "main.Point") [("c", GoInt 2)]
              (PlainError (unsupported_msg "main.Point"))) as (_ & _ & Hm).
  { repeat constructor. }
  { reflexivity. }
  split; [exact Hs|]. split; [exact Hv|]. split; [exact Hm|].
  apply Hdeep. reflexivity.
Defined.



(** C1, with a retry bound of 3 and a transport that answers every call
    with a plain error. *)
Lemma retry_bound_exhausted_witness :
  exists e evs,
    ExecuteWithParameter amd64_unrepresentable parse_error_prefixed exec_plain_error signOut_ok
      no_idle_connection no_new_session clock_100ms wrap_response fmt_verbatim
      3 "RETURN 1" [] (fresh standalone_session)
    = Return (None, Some e) (mkState standalone_session (evs ++ []))
    /\ e = PlainError "unexpected reply"
    /\ count is_EvExecute evs = 3%nat
    /\ reconnect_cycles evs = 0%nat.
Proof.
  destruct (retry_bound_exhausted amd64_unrepresentable parse_error_prefixed exec_plain_error signOut_ok
              no_idle_connection no_new_session clock_100ms wrap_response fmt_verbatim
              (fresh standalone_session) sample_connection 3 "RETURN 1" [] [] 3)
    as (e & evs & He & _ & Hrun & Hn & _ & Hcycles).
  - reflexivity.
  - reflexivity.
  - vm_compute. intuition discriminate.
  - reflexivity.
  - intros k _. repeat split.
  - simpl. lia.
  - exists e, evs. split; [exact Hrun|]. split; [|split; assumption].
    simpl in He. congruence.
Defined.

(** C2 as stated fails on a plain error: the specification classifies it
    as a query error, yet with a retry bound of 3 the call is made three
    times before the error is returned. *)
Lemma plain_error_is_retried :
  classify_spec (snd (exec_plain_error 0 sample_connection 42 "RETURN 1" []))
                (fst (exec_plain_error 0 sample_connection 42 "RETURN 1" []))
  = QueryError
  /\ ExecuteWithParameter amd64_unrepresentable parse_error_prefixed exec_plain_error signOut_ok
       no_idle_connection no_new_session clock_100ms wrap_response fmt_verbatim
       3 "RETURN 1" [] (fresh standalone_session)
     = Return (None, Some (PlainError "unexpected reply"))
         (mkState standalone_session
            [EvExecute sample_connection 42 "RETURN 1" [];
             EvSleep 5; EvLog LError "start retry, unexpected reply";
             EvExecute sample_connection 42 "RETURN 1" [];
             EvSleep 5; EvLog LError "start retry, unexpected reply";
             EvExecute sample_connection 42 "RETURN 1" []])
  /\ count is_EvExecute
       [EvExecute sample_connection 42 "RETURN 1" [];
        EvSleep 5; EvLog LError "start retry, unexpected reply";
        EvExecute sample_connection 42 "RETURN 1" [];
        EvSleep 5; EvLog LError "start retry, unexpected reply";
        EvExecute sample_connection 42 "RETURN 1" []]
     = 3%nat.
Proof. repeat split. Qed.

(** C2 (amended), at a response that reports a syntax error and, with a
    retry bound of 3, at a transport that answers every call with a plain
    error. *)
Lemma query_failure_is_returned_without_reconnect_witness :
  ExecuteWithParameter amd64_unrepresentable parse_error_prefixed exec_syntax_error signOut_ok
    no_idle_connection no_new_session clock_100ms wrap_response fmt_verbatim
    1 "RETURN 1 +" [] (fresh standalone_session)
  = Return (Some (mkResultSet (Some syntax_error_response) [] UTC), None)
      (mkState standalone_session [EvExecute sample_connection 42 "RETURN 1 +" []])
  /\ exists evs,
       ExecuteWithParameter amd64_unrepresentable parse_error_prefixed exec_plain_error
         signOut_ok no_idle_connection no_new_session clock_100ms wrap_response
         fmt_verbatim 3 "RETURN 1" [] (fresh standalone_session)
       = Return (None, Some (PlainError "unexpected reply"))
           (mkState standalone_session (evs ++ []))
       /\ count is_EvExecute evs = 3%nat
       /\ count is_EvSleep evs = 2%nat
       /\ reconnect_cycles evs = 0%nat.
Proof.
  destruct (query_failure_is_returned_without_reconnect amd64_unrepresentable parse_error_prefixed
              exec_syntax_error signOut_ok no_idle_connection no_new_session
              clock_100ms wrap_response fmt_verbatim) as (Hresp & _).
  destruct (query_failure_is_returned_without_reconnect amd64_unrepresentable parse_error_prefixed
              exec_plain_error signOut_ok no_idle_connection no_new_session
              clock_100ms wrap_response fmt_verbatim) as (_ & _ & Hretry & _).
  split.
  - apply (Hresp (fresh standalone_session) sample_connection "RETURN 1 +" [] []
             (Some syntax_error_response)
             (mkResultSet (Some syntax_error_response) [] UTC) O); reflexivity.
  - destruct (Hretry (fresh standalone_session) sample_connection 3 "RETURN 1" [] [] 3%nat)
      as (e & evs & He & Hrun & Hcalls & _ & Hsleeps & Hcycles).
    + reflexivity.
    + reflexivity.
    + vm_compute. intuition discriminate.
    + reflexivity.
    + intros k _. repeat split.
    + simpl. lia.
    + exists evs. simpl in He. injection He as <-.
      split; [exact Hrun|]. split; [exact Hcalls|]. split; [exact Hsleeps | exact Hcycles].
Defined.

(** C3 as stated fails on the JSON path: an answer in which the server
    reports an invalid session comes back without error, is handed to the
    caller, and no reconnect cycle is entered. *)
Lemma json_session_invalid_is_not_escalated :
  ExecuteJsonWithParameter amd64_unrepresentable parse_error_prefixed json_reports_session_invalid signOut_ok
    no_idle_connection no_new_session clock_100ms fmt_verbatim
    1 "RETURN 1" [] (fresh standalone_session)
  = Return (Some json_session_invalid, None)
      (mkState standalone_session [EvExecuteJson sample_connection 42 "RETURN 1" []])
  /\ reconnect_cycles [EvExecuteJson sample_connection 42 "RETURN 1" []] = 0%nat.
Proof. split; reflexivity. Qed.

(** C3 (amended), at a transport exception on the first call, at one
    that follows a retried plain error, at a session-invalid response on
    the ResultSet path, and at a transport exception on the JSON path. *)
Lemma transport_or_session_error_escalates_once_witness :
  (exists evs,
      count is_EvExecute evs = 1%nat
      /\ ExecuteWithParameter amd64_unrepresentable parse_error_prefixed
           exec_transport_error signOut_ok idle_connection_available no_new_session
           clock_100ms wrap_response fmt_verbatim
           1 "RETURN 1" [] (fresh (pooled_session (ReconnectConfig.mk 1 0 10)))
         = one_cycle_then signOut_ok idle_connection_available no_new_session clock_100ms
             fmt_verbatim 1
             (bind (execFunc exec_transport_error wrap_response 1 "RETURN 1" [])
                   return_ResultSet)
             (mkState (pooled_session (ReconnectConfig.mk 1 0 10)) (evs ++ [])))
  /\ (exists evs,
         count is_EvExecute evs = 2%nat
         /\ count is_EvSleep evs = 1%nat
         /\ ExecuteWithParameter amd64_unrepresentable parse_error_prefixed
              exec_plain_then_transport signOut_ok idle_connection_available
              no_new_session clock_100ms wrap_response fmt_verbatim
              2 "RETURN 1" [] (fresh (pooled_session (ReconnectConfig.mk 1 0 10)))
            = one_cycle_then signOut_ok idle_connection_available no_new_session
                clock_100ms fmt_verbatim 2
                (bind (execFunc exec_plain_then_transport wrap_response 2 "RETURN 1" [])
                      return_ResultSet)
                (mkState (pooled_session (ReconnectConfig.mk 1 0 10)) (evs ++ [])))
  /\ (exists evs,
         count is_EvExecute evs = 1%nat
         /\ ExecuteWithParameter amd64_unrepresentable parse_error_prefixed
              exec_session_invalid signOut_ok idle_connection_available no_new_session
              clock_100ms wrap_response fmt_verbatim
              1 "RETURN 1" [] (fresh (pooled_session (ReconnectConfig.mk 1 0 10)))
            = one_cycle_then signOut_ok idle_connection_available no_new_session
                clock_100ms fmt_verbatim 1
                (bind (execFunc exec_session_invalid wrap_response 1 "RETURN 1" [])
                      return_ResultSet)
                (mkState (pooled_session (ReconnectConfig.mk 1 0 10)) (evs ++ [])))
  /\ (exists evs,
         count is_EvExecuteJson evs = 1%nat
         /\ ExecuteJsonWithParameter amd64_unrepresentable parse_error_prefixed
              json_transport_error signOut_ok idle_connection_available no_new_session
              clock_100ms fmt_verbatim
              1 "RETURN 1" [] (fresh (pooled_session (ReconnectConfig.mk 1 0 10)))
            = one_cycle_then signOut_ok idle_connection_available no_new_session
                clock_100ms fmt_verbatim 1
                (bind (execFuncJson json_transport_error 1 "RETURN 1" []) return_bytes)
                (mkState (pooled_session (ReconnectConfig.mk 1 0 10)) (evs ++ []))).
Proof.
  assert (Hmax : RetryConfig.MaxTime
                   (retryCfg (session (fresh (pooled_session (ReconnectConfig.mk 1 0 10)))))
                 <= int64_max) by (vm_compute; discriminate).
  split; [|split; [|split]].
  - destruct (transport_or_session_error_escalates_once amd64_unrepresentable parse_error_prefixed
                exec_transport_error json_transport_error signOut_ok
                idle_connection_available no_new_session clock_100ms wrap_response
                fmt_verbatim (fresh (pooled_session (ReconnectConfig.mk 1 0 10)))
                sample_connection "RETURN 1" [] [] 0 1 eq_refl eq_refl Hmax)
      as (Ht & _ & _ & _).
    + right. simpl. lia.
    + lia.
    + destruct (Ht None "EOF") as (evs & Hcalls & _ & _ & _ & Heq & _).
      * intros i Hi. lia.
      * reflexivity.
      * exists evs. split; [exact Hcalls | exact Heq].
  - destruct (transport_or_session_error_escalates_once amd64_unrepresentable parse_error_prefixed
                exec_plain_then_transport json_transport_error signOut_ok
                idle_connection_available no_new_session clock_100ms wrap_response
                fmt_verbatim (fresh (pooled_session (ReconnectConfig.mk 1 0 10)))
                sample_connection "RETURN 1" [] [] 1 2 eq_refl eq_refl Hmax)
      as (Ht & _ & _ & _).
    + right. simpl. lia.
    + lia.
    + destruct (Ht None "EOF") as (evs & Hcalls & Hsleeps & _ & _ & Heq & _).
      * intros i Hi. assert (i = O) by lia. subst i. repeat split.
      * reflexivity.
      * exists evs. split; [exact Hcalls|]. split; [exact Hsleeps | exact Heq].
  - destruct (transport_or_session_error_escalates_once amd64_unrepresentable parse_error_prefixed
                exec_session_invalid json_transport_error signOut_ok
                idle_connection_available no_new_session clock_100ms wrap_response
                fmt_verbatim (fresh (pooled_session (ReconnectConfig.mk 1 0 10)))
                sample_connection "RETURN 1" [] [] 0 1 eq_refl eq_refl Hmax)
      as (_ & Hs & _ & _).
    + right. simpl. lia.
    + lia.
    + destruct (Hs (Some session_invalid_response)
                   (mkResultSet (Some session_invalid_response) [] UTC))
        as (evs & Hcalls & _ & _ & _ & Heq & _).
      * intros i Hi. lia.
      * reflexivity.
      * reflexivity.
      * reflexivity.
      * reflexivity.
      * exists evs. split; [exact Hcalls | exact Heq].
  - destruct (transport_or_session_error_escalates_once amd64_unrepresentable parse_error_prefixed
                exec_transport_error json_transport_error signOut_ok
                idle_connection_available no_new_session clock_100ms wrap_response
                fmt_verbatim (fresh (pooled_session (ReconnectConfig.mk 1 0 10)))
                sample_connection "RETURN 1" [] [] 0 1 eq_refl eq_refl Hmax)
      as (_ & _ & Hj & _).
    + right. simpl. lia.
    + lia.
    + destruct (Hj EmptyString "EOF") as (evs & Hcalls & _ & _ & _ & Heq & _).
      * intros i Hi. lia.
      * reflexivity.
      * exists evs. split; [exact Hcalls | exact Heq].
Defined.

(** C4 as stated fails when the call on the repaired connection is
    answered with a plain error: with a retry bound of 3 the run after the
    reconnect calls three times on the new connection and sleeps twice
    before its error is returned; four calls in all. *)
Lemma rerun_retries_after_reconnect :
  ExecuteWithParameter amd64_unrepresentable parse_error_prefixed
    exec_transport_then_plain_errors signOut_ok idle_connection_available
    no_new_session clock_100ms wrap_response fmt_verbatim
    3 "RETURN 1" [] (fresh (pooled_session (ReconnectConfig.mk 1 0 10)))
  = Return (None, Some (PlainError "unexpected reply"))
      (mkState (set_connection (pooled_session (ReconnectConfig.mk 1 0 10))
                               (Some spare_connection))
         ([EvExecute spare_connection 42 "RETURN 1" [];
           EvSleep 5; EvLog LError "start retry, unexpected reply";
           EvExecute spare_connection 42 "RETURN 1" [];
           EvSleep 5; EvLog LError "start retry, unexpected reply";
           EvExecute spare_connection 42 "RETURN 1" []]
          ++ [EvLog LInfo "Successfully reconnect to host: 127.0.0.2, port: 9669";
              EvPoolRelease (mkConnectionPool 7) (Some sample_connection);
              EvGetIdleConn (mkConnectionPool 7); EvNow;
              EvExecute sample_connection 42 "RETURN 1" []]))
  /\ count is_EvExecute
       [EvExecute spare_connection 42 "RETURN 1" [];
        EvSleep 5; EvLog LError "start retry, unexpected reply";
        EvExecute spare_connection 42 "RETURN 1" [];
        EvSleep 5; EvLog LError "start retry, unexpected reply";
        EvExecute spare_connection 42 "RETURN 1" []]
     = 3%nat
  /\ count is_EvSleep
       [EvExecute spare_connection 42 "RETURN 1" [];
        EvSleep 5; EvLog LError "start retry, unexpected reply";
        EvExecute spare_connection 42 "RETURN 1" [];
        EvSleep 5; EvLog LError "start retry, unexpected reply";
        EvExecute spare_connection 42 "RETURN 1" []]
     = 2%nat.
Proof. repeat split. Qed.

(** C4 (amended), when the transport breaks on the first call, the pool
    has a spare connection, and the calls on it succeed, or fail with a
    plain error under a retry bound of 3. *)
Lemma rerun_after_reconnect_is_final_witness :
  executeWithReconnect signOut_ok idle_connection_available no_new_session clock_100ms
    fmt_verbatim 1 (execFunc exec_fails_once wrap_response 1 "RETURN 1" [])
    (fresh (pooled_session (ReconnectConfig.mk 1 0 10)))
  = execFunc exec_fails_once wrap_response 1 "RETURN 1" []
      (mkState (set_connection (pooled_session (ReconnectConfig.mk 1 0 10))
                               (Some spare_connection))
         [EvLog LInfo "Successfully reconnect to host: 127.0.0.2, port: 9669";
          EvPoolRelease (mkConnectionPool 7) (Some sample_connection);
          EvGetIdleConn (mkConnectionPool 7); EvNow;
          EvExecute sample_connection 42 "RETURN 1" []])
  /\ exists evs,
       ExecuteWithParameter amd64_unrepresentable parse_error_prefixed
         exec_transport_then_plain_errors signOut_ok idle_connection_available
         no_new_session clock_100ms wrap_response fmt_verbatim
         3 "RETURN 1" [] (fresh (pooled_session (ReconnectConfig.mk 1 0 10)))
       = Return (None, Some (PlainError "unexpected reply"))
           (mkState (set_connection (pooled_session (ReconnectConfig.mk 1 0 10))
                                    (Some spare_connection))
              (evs ++ [EvLog LInfo "Successfully reconnect to host: 127.0.0.2, port: 9669";
                       EvPoolRelease (mkConnectionPool 7) (Some sample_connection);
                       EvGetIdleConn (mkConnectionPool 7); EvNow;
                       EvExecute sample_connection 42 "RETURN 1" []]))
       /\ count is_EvExecute evs = 3%nat
       /\ count is_EvSleep evs = 2%nat
       /\ reconnect_cycles evs = 0%nat.
Proof.
  split.
  - destruct (rerun_after_reconnect_is_final amd64_unrepresentable parse_error_prefixed
                exec_fails_once json_transport_error
                signOut_ok idle_connection_available no_new_session clock_100ms
                wrap_response fmt_verbatim) as (Hrerun & _).
    apply (Hrerun 1%nat (execFunc exec_fails_once wrap_response 1 "RETURN 1" [])
             (fresh (pooled_session (ReconnectConfig.mk 1 0 10)))
             (mkState (pooled_session (ReconnectConfig.mk 1 0 10))
                [EvExecute sample_connection 42 "RETURN 1" []])
             _ INil (Some (TransportException "EOF"))).
    + reflexivity.
    + simpl. discriminate.
    + reflexivity.
  - destruct (rerun_after_reconnect_is_final amd64_unrepresentable parse_error_prefixed
                exec_transport_then_plain_errors json_transport_error
                signOut_ok idle_connection_available no_new_session clock_100ms
                wrap_response fmt_verbatim) as (_ & _ & _ & _ & _ & Hcascade).
    destruct (Hcascade 3%nat
                (fresh (pooled_session (ReconnectConfig.mk 1 0 10)))
                (mkState (pooled_session (ReconnectConfig.mk 1 0 10))
                   [EvExecute sample_connection 42 "RETURN 1" []])
                (mkState (set_connection (pooled_session (ReconnectConfig.mk 1 0 10))
                                         (Some spare_connection))
                   [EvLog LInfo "Successfully reconnect to host: 127.0.0.2, port: 9669";
                    EvPoolRelease (mkConnectionPool 7) (Some sample_connection);
                    EvGetIdleConn (mkConnectionPool 7); EvNow;
                    EvExecute sample_connection 42 "RETURN 1" []])
                sample_connection spare_connection 3 "RETURN 1" [] []
                INil (Some (TransportException "EOF")))
      as (e & evs & He & Hrun & Hcalls & Hsleeps & Hcycles).
    + reflexivity.
    + reflexivity.
    + reflexivity.
    + simpl. discriminate.
    + reflexivity.
    + reflexivity.
    + reflexivity.
    + reflexivity.
    + vm_compute. intuition discriminate.
    + intros k Hk. simpl in Hk. destruct k as [|k]; [lia | repeat split].
    + simpl. lia.
    + exists evs. simpl in He. injection He as <-.
      split; [exact Hrun|]. split; [exact Hcalls|]. split; [exact Hsleeps | exact Hcycles].
Defined.

(** C5, with no attempt bound, an elapsed bound of 250ms, a clock whose
    readings are 100ms apart and a pool that has no connection. *)
Lemma reconnect_loop_terminates_witness :
  exists n,
    (1 <= n)%nat
    /\ budget_exceeded clock_100ms (ReconnectConfig.mk 0 250000000 10) 0 n = true
    /\ exists evs,
         reconnect_cycle signOut_ok no_idle_connection no_new_session clock_100ms
           fmt_verbatim n (fresh (pooled_session (ReconnectConfig.mk 0 250000000 10)))
         = Return (Some (PlainError "Nebula Down"))
             (mkState (pooled_session (ReconnectConfig.mk 0 250000000 10)) (evs ++ []))
         /\ count is_reconnect_attempt evs = n.
Proof.
  destruct (reconnect_loop_terminates signOut_ok no_idle_connection no_new_session
              clock_100ms fmt_verbatim
              (fresh (pooled_session (ReconnectConfig.mk 0 250000000 10))))
    as (n & Hn & Hat & _ & _ & _ & Hrun).
  - right. simpl. discriminate.
  - vm_compute. discriminate.
  - simpl. intros k. discriminate.
  - intros _. exists 3%nat. split; [lia | vm_compute; discriminate].
  - exists n. split; [exact Hn|]. split; [exact Hat|].
    destruct (Hrun n (Nat.le_refl n)) as (evs & Hcycle & _ & Hattempts & _).
    exists evs. split; [exact Hcycle | exact Hattempts].
Defined.

(** C9, on a session of a connection pool. *)
Lemma release_is_idempotent_witness :
  exists st1,
    Release signOut_ok (fresh (pooled_session (ReconnectConfig.mk 3 0 10))) = Return tt st1
    /\ connection_ (session st1) = None
    /\ Release signOut_ok st1
       = Return tt (mkState (session st1)
                            (EvLog LWarn "Session has been released" :: trace st1))
    /\ Execute amd64_unrepresentable parse_error_prefixed exec_plain_error signOut_ok no_idle_connection
         no_new_session clock_100ms wrap_response fmt_verbatim 1 "RETURN 1" st1
       = Return (None, Some (PlainError "failed to execute: Session has been released")) st1.
Proof.
  destruct (release_is_idempotent amd64_unrepresentable parse_error_prefixed exec_plain_error
              json_transport_error signOut_ok no_idle_connection no_new_session
              clock_100ms wrap_response fmt_verbatim
              (fresh (pooled_session (ReconnectConfig.mk 3 0 10))))
    as (st1 & Hrel & Hnil & Hsecond & _ & _ & Hexec).
  exists st1. split; [exact Hrel|]. split; [exact Hnil|]. split; [exact Hsecond|].
  exact (proj1 (Hexec 1%nat "RETURN 1")).
Defined.

(** C10, on a session that belongs to no pool. *)
Lemma reconnect_without_pool_reports_success_witness :
  reConnect signOut_ok no_idle_connection no_new_session fmt_verbatim
    (fresh standalone_session)
  = Return None (fresh standalone_session)
  /\ exists st',
       reconnectWithExecuteErr signOut_ok no_idle_connection no_new_session clock_100ms
         fmt_verbatim 1 None (Some (TransportException "EOF")) (fresh standalone_session)
       = Return None st'
       /\ session st' = standalone_session
       /\ trace st'
          = [EvLog LInfo "Successfully reconnect to host: 127.0.0.1, port: 9669"; EvNow].
Proof.
  destruct (reconnect_without_pool_reports_success signOut_ok no_idle_connection
              no_new_session clock_100ms fmt_verbatim (fresh standalone_session)
              sample_connection eq_refl eq_refl eq_refl) as (Hre & _ & Hcycle).
  split; [exact Hre|].
  destruct (Hcycle O None "EOF") as (st' & Hrun & Hs & Htr & _).
  exists st'. split; [exact Hrun|]. split; [exact Hs | exact Htr].
Defined.

(* ===================================================================== *)
(** ** The further statements at concrete inputs *)

(** X1, at a list of three elements. *)
Lemma slice2Nlist_converts_in_order_witness :
  slice2Nlist amd64_unrepresentable parse_error_prefixed
    [GoInt 1; GoFloat64 float_five; GoNil]
  = (Some (mkNList
             (map (fun x => fst (value2Nvalue amd64_unrepresentable parse_error_prefixed x))
                  [GoInt 1; GoFloat64 float_five; GoNil])), None)
  /\ map (fun x => fst (value2Nvalue amd64_unrepresentable parse_error_prefixed x))
         [GoInt 1; GoFloat64 float_five; GoNil]
     = [set_IVal NewValue 1; set_IVal NewValue 5; set_NVal NewValue NullType___NULL__].
Proof.
  destruct (slice2Nlist_converts_in_order amd64_unrepresentable parse_error_prefixed
              [GoInt 1; GoFloat64 float_five; GoNil]) as (Hs & _ & _).
  - intros x Hin. simpl in Hin. destruct Hin as [<-|[<-|[<-|[]]]]; reflexivity.
  - split; [exact Hs | reflexivity].
Defined.

(** X2, at a map of two parameters. *)
Lemma converted_params_lookup_witness :
  exists kvs,
    map2Nmap amd64_unrepresentable parse_error_prefixed
      [("n", GoFloat64 float_five); ("name", GoString "Tim")]
    = (Some (mkNMap kvs), None)
    /\ map_lookup "n" kvs = Some (set_IVal NewValue 5)
    /\ map_lookup "age" kvs = None.
Proof.
  assert (Hrun : exists kvs,
             params_loop parse_error_prefixed
               (value2Nvalue amd64_unrepresentable parse_error_prefixed)
               [("n", GoFloat64 float_five); ("name", GoString "Tim")] []
             = (Some kvs, None)).
  { eexists. reflexivity. }
  destruct Hrun as [kvs Hrun]. exists kvs.
  destruct (converted_params_lookup amd64_unrepresentable parse_error_prefixed
              parse_error_prefixed
              [("n", GoFloat64 float_five); ("name", GoString "Tim")] kvs)
    as [Hlookup Hmap].
  - simpl. repeat constructor; simpl; intuition discriminate.
  - exact Hrun.
  - split; [exact Hmap|]. split; rewrite Hlookup; reflexivity.
Defined.

(** X3, at a list and at a value of an unsupported type. *)
Lemma conversion_populates_one_variant_witness :
  variant_of (fst (value2Nvalue amd64_unrepresentable parse_error_prefixed
                     (GoSlice [GoInt 1; GoString "a"]))) = VarList
  /\ variant_of (fst (value2Nvalue amd64_unrepresentable parse_error_prefixed
                        (GoOther "main.Point"))) = VarNone.
Proof.
  split.
  - exact (proj1 (conversion_populates_one_variant amd64_unrepresentable
                    parse_error_prefixed (GoSlice [GoInt 1; GoString "a"])) eq_refl).
  - apply (proj2 (conversion_populates_one_variant amd64_unrepresentable
                    parse_error_prefixed (GoOther "main.Point"))).
    simpl. discriminate.
Defined.

(** X4, at NaN and at negative infinity. *)
Lemma nonfinite_float_stays_double_witness :
  value2Nvalue amd64_unrepresentable parse_error_prefixed (GoFloat64 F_nan)
  = (set_FVal NewValue F_nan, None)
  /\ value2Nvalue amd64_unrepresentable parse_error_prefixed (GoFloat32 (F_inf true))
     = (set_FVal NewValue (float64_of_float32 (F_inf true)), None).
Proof.
  split.
  - exact (proj1 (nonfinite_float_stays_double amd64_unrepresentable parse_error_prefixed
                    F_nan eq_refl)).
  - exact (proj2 (nonfinite_float_stays_double amd64_unrepresentable parse_error_prefixed
                    (F_inf true) eq_refl)).
Defined.

(** X5, at a parameter of an unsupported type. *)
Lemma conversion_error_precedes_any_call_witness :
  (exists e,
      ExecuteWithParameter amd64_unrepresentable parse_error_prefixed exec_success
        signOut_ok no_idle_connection no_new_session clock_100ms wrap_response
        fmt_verbatim 1 "RETURN $p" [("p", GoOther "main.Point")]
        (fresh standalone_session)
      = Return (None, Some e) (fresh standalone_session))
  /\ (exists e,
         ExecuteJsonWithParameter amd64_unrepresentable parse_error_prefixed
           json_transport_error signOut_ok no_idle_connection no_new_session
           clock_100ms fmt_verbatim 1 "RETURN $p" [("p", GoOther "main.Point")]
           (fresh standalone_session)
         = Return (None, Some e) (fresh standalone_session)).
Proof.
  apply (conversion_error_precedes_any_call amd64_unrepresentable parse_error_prefixed
           exec_success json_transport_error signOut_ok no_idle_connection
           no_new_session clock_100ms wrap_response fmt_verbatim
           (fresh standalone_session) sample_connection 1 "RETURN $p"
           [("p", GoOther "main.Point")] "p" (GoOther "main.Point")).
  - reflexivity.
  - left. reflexivity.
  - reflexivity.
Defined.

(** X6, when the first answer is a plain error and the second one
    succeeds. *)
Lemma retry_until_success_witness :
  exists evs,
    ExecuteWithParameter amd64_unrepresentable parse_error_prefixed exec_plain_error_once
      signOut_ok no_idle_connection no_new_session clock_100ms wrap_response
      fmt_verbatim 2 "RETURN 1" [] (fresh standalone_session)
    = Return (Some (mkResultSet (Some success_response) [] UTC), None)
        (mkState standalone_session (evs ++ []))
    /\ count is_EvExecute evs = 2%nat
    /\ count is_EvSleep evs = 1%nat.
Proof.
  destruct (retry_until_success amd64_unrepresentable parse_error_prefixed
              exec_plain_error_once signOut_ok no_idle_connection no_new_session
              clock_100ms wrap_response fmt_verbatim (fresh standalone_session)
              sample_connection 1 2 "RETURN 1" [] [] (Some success_response)
              (mkResultSet (Some success_response) [] UTC))
    as (evs & Hrun & Hcalls & _ & _ & Hsleeps & _).
  - reflexivity.
  - reflexivity.
  - vm_compute. discriminate.
  - right. simpl. lia.
  - intros i Hi. assert (i = O) by lia. subst i. repeat split.
  - reflexivity.
  - reflexivity.
  - reflexivity.
  - reflexivity.
  - lia.
  - exists evs. split; [exact Hrun|]. split; assumption.
Defined.

(** X7, with a retry bound of zero and a transport that answers every
    call with a plain error. *)
Lemma unbounded_retry_never_returns_witness :
  ExecuteWithParameter amd64_unrepresentable parse_error_prefixed exec_plain_error
    signOut_ok no_idle_connection no_new_session clock_100ms wrap_response
    fmt_verbatim 1000 "RETURN 1" [] (fresh unbounded_retry_session)
  = OutOfFuel.
Proof.
  apply (unbounded_retry_never_returns amd64_unrepresentable parse_error_prefixed
           exec_plain_error signOut_ok no_idle_connection no_new_session clock_100ms
           wrap_response fmt_verbatim (fresh unbounded_retry_session) sample_connection
           "RETURN 1" [] []).
  - reflexivity.
  - reflexivity.
  - simpl. lia.
  - intros k _. repeat split.
Defined.

(** X8, with a retry bound of 3 and a transport that answers every JSON
    call with a plain error. *)
Lemma json_retry_bound_exhausted_witness :
  exists e evs,
    ExecuteJsonWithParameter amd64_unrepresentable parse_error_prefixed json_plain_error
      signOut_ok no_idle_connection no_new_session clock_100ms fmt_verbatim
      3 "RETURN 1" [] (fresh standalone_session)
    = Return (None, Some e) (mkState standalone_session (evs ++ []))
    /\ count is_EvExecuteJson evs = 3%nat
    /\ reconnect_cycles evs = 0%nat.
Proof.
  destruct (json_retry_bound_exhausted amd64_unrepresentable parse_error_prefixed
              json_plain_error signOut_ok no_idle_connection no_new_session
              clock_100ms fmt_verbatim (fresh standalone_session) sample_connection 3
              "RETURN 1" [] [] 3)
    as (e & evs & _ & Hrun & Hcalls & _ & Hcycles & _).
  - reflexivity.
  - reflexivity.
  - vm_compute. intuition discriminate.
  - reflexivity.
  - intros k _. split; [discriminate | reflexivity].
  - simpl. lia.
  - exists e, evs. split; [exact Hrun|]. split; assumption.
Defined.

(** X9, on a session of a connection pool that has no connection. *)
Lemma failed_reConnect_changes_nothing_witness :
  exists e st',
    reConnect signOut_ok no_idle_connection no_new_session fmt_verbatim
      (fresh (pooled_session (ReconnectConfig.mk 3 0 10)))
    = Return (Some e) st'
    /\ session st' = pooled_session (ReconnectConfig.mk 3 0 10)
    /\ exists ev, trace st' = [ev] /\ is_reconnect_attempt ev = true.
Proof.
  eexists. eexists. split; [reflexivity|].
  exact (failed_reConnect_changes_nothing signOut_ok no_idle_connection no_new_session
           fmt_verbatim (fresh (pooled_session (ReconnectConfig.mk 3 0 10))) _ _ eq_refl).
Defined.

(** X10, with both bounds of the reconnect policy zero and a pool that has
    no connection. *)
Lemma unbounded_reconnect_never_returns_witness :
  reconnect_cycle signOut_ok no_idle_connection no_new_session clock_100ms fmt_verbatim
    1000 (fresh (pooled_session (ReconnectConfig.mk 0 0 10)))
  = OutOfFuel.
Proof.
  apply (unbounded_reconnect_never_returns signOut_ok no_idle_connection no_new_session
           clock_100ms fmt_verbatim (fresh (pooled_session (ReconnectConfig.mk 0 0 10)))).
  - reflexivity.
  - reflexivity.
  - simpl. intros k. discriminate.
Defined.

(** X11, when the pool has a connection at the second request. *)
Lemma reconnect_recovers_after_failures_witness :
  exists evs,
    reconnect_cycle signOut_ok idle_connection_at_second_request no_new_session
      clock_100ms fmt_verbatim 2 (fresh (pooled_session (ReconnectConfig.mk 3 0 10)))
    = Return None
        (mkState (set_connection (pooled_session (ReconnectConfig.mk 3 0 10))
                                 (Some spare_connection)) (evs ++ []))
    /\ count is_reconnect_attempt evs = 2%nat
    /\ count is_EvSleep evs = 1%nat
    /\ count is_EvPoolRelease evs = 1%nat.
Proof.
  destruct (reconnect_recovers_after_failures signOut_ok
              idle_connection_at_second_request no_new_session clock_100ms fmt_verbatim
              (fresh (pooled_session (ReconnectConfig.mk 3 0 10)))
              (mkConnectionPool 7) spare_connection 1 2)
    as (evs & Hrun & _ & Hattempts & Hsleeps & Hreleases & _).
  - reflexivity.
  - vm_compute. discriminate.
  - intros i Hi. assert (i = O) by lia. subst i. simpl. discriminate.
  - reflexivity.
  - intros i Hi. assert (i = 1%nat) by lia. subst i. reflexivity.
  - lia.
  - exists evs. split; [exact Hrun|]. split; [exact Hattempts|].
    split; assumption.
Defined.

(** X12, with an attempt bound of 2, a transport that breaks and a pool
    that has no connection. *)
Lemma reconnect_exhausted_is_nebula_down_witness :
  exists evs,
    ExecuteWithParameter amd64_unrepresentable parse_error_prefixed exec_transport_error
      signOut_ok no_idle_connection no_new_session clock_100ms wrap_response
      fmt_verbatim 2 "RETURN 1" [] (fresh (pooled_session (ReconnectConfig.mk 2 0 10)))
    = Return (None, Some (PlainError "Nebula Down"))
        (mkState (pooled_session (ReconnectConfig.mk 2 0 10)) (evs ++ []))
    /\ count is_EvExecute evs = 1%nat
    /\ count is_reconnect_attempt evs = 2%nat.
Proof.
  destruct (reconnect_exhausted_is_nebula_down amd64_unrepresentable parse_error_prefixed
              exec_transport_error signOut_ok no_idle_connection no_new_session
              clock_100ms wrap_response fmt_verbatim
              (fresh (pooled_session (ReconnectConfig.mk 2 0 10))) sample_connection
              "RETURN 1" [] [] None "EOF" 2 2)
    as (evs & Hrun & Hcalls & Hattempts & _).
  - reflexivity.
  - reflexivity.
  - reflexivity.
  - simpl. intros k. discriminate.
  - vm_compute. discriminate.
  - lia.
  - reflexivity.
  - intros i Hi. assert (i = 1%nat) by lia. subst i. reflexivity.
  - lia.
  - exists evs. split; [exact Hrun|]. split; assumption.
Defined.

(** X13, when the transport breaks on the first call and the pool has a
    spare connection. *)
Lemma transport_error_is_recovered_witness :
  ExecuteWithParameter amd64_unrepresentable parse_error_prefixed exec_fails_once
    signOut_ok idle_connection_available no_new_session clock_100ms wrap_response
    fmt_verbatim 1 "RETURN 1" [] (fresh (pooled_session (ReconnectConfig.mk 1 0 10)))
  = Return (Some (mkResultSet (Some success_response) [] UTC), None)
      (mkState (set_connection (pooled_session (ReconnectConfig.mk 1 0 10))
                               (Some spare_connection))
         [EvExecute spare_connection 42 "RETURN 1" [];
          EvLog LInfo "Successfully reconnect to host: 127.0.0.2, port: 9669";
          EvPoolRelease (mkConnectionPool 7) (Some sample_connection);
          EvGetIdleConn (mkConnectionPool 7); EvNow;
          EvExecute sample_connection 42 "RETURN 1" []]).
Proof.
  exact (transport_error_is_recovered amd64_unrepresentable parse_error_prefixed
           exec_fails_once signOut_ok idle_connection_available no_new_session
           clock_100ms wrap_response fmt_verbatim
           (fresh (pooled_session (ReconnectConfig.mk 1 0 10)))
           sample_connection spare_connection (mkConnectionPool 7) "RETURN 1" [] []
           None (Some success_response) "EOF"
           (mkResultSet (Some success_response) [] UTC) O
           eq_refl eq_refl eq_refl eq_refl eq_refl eq_refl eq_refl eq_refl eq_refl).
Defined.

(** X14, on the call that reconnects to a spare connection and on a
    [Release]. *)
Lemma operations_keep_session_witness :
  session_kept (pooled_session (ReconnectConfig.mk 1 0 10))
    (set_connection (pooled_session (ReconnectConfig.mk 1 0 10)) (Some spare_connection))
  /\ session_kept (pooled_session (ReconnectConfig.mk 1 0 10))
       (set_connection (pooled_session (ReconnectConfig.mk 1 0 10)) None).
Proof.
  split.
  - exact (proj1 (operations_keep_session amd64_unrepresentable parse_error_prefixed
                    exec_fails_once json_transport_error signOut_ok
                    idle_connection_available no_new_session clock_100ms wrap_response
                    fmt_verbatim code_is_succeeded message_of_response 1 "RETURN 1" []
                    (fresh (pooled_session (ReconnectConfig.mk 1 0 10)))
                    (mkState (set_connection (pooled_session (ReconnectConfig.mk 1 0 10))
                                             (Some spare_connection))
                       [EvExecute spare_connection 42 "RETURN 1" [];
                        EvLog LInfo "Successfully reconnect to host: 127.0.0.2, port: 9669";
                        EvPoolRelease (mkConnectionPool 7) (Some sample_connection);
                        EvGetIdleConn (mkConnectionPool 7); EvNow;
                        EvExecute sample_connection 42 "RETURN 1" []]))
                 eq_refl).
  - exact (proj1 (proj2 (proj2 (proj2
             (operations_keep_session amd64_unrepresentable parse_error_prefixed
                exec_fails_once json_transport_error signOut_ok
                idle_connection_available no_new_session clock_100ms wrap_response
                fmt_verbatim code_is_succeeded message_of_response 1 "RETURN 1" []
                (fresh (pooled_session (ReconnectConfig.mk 1 0 10)))
                (mkState (set_connection (pooled_session (ReconnectConfig.mk 1 0 10)) None)
                   [EvPoolRelease (mkConnectionPool 7) (Some sample_connection);
                    EvSignOut sample_connection 42])))))
             eq_refl).
Defined.

(** X15, on a session that answers the ping, on one that was released, and
    on one whose transport answers with a plain error. *)
Lemma ping_outcomes_witness :
  Ping amd64_unrepresentable parse_error_prefixed exec_success signOut_ok
    no_idle_connection no_new_session clock_100ms wrap_response fmt_verbatim
    code_is_succeeded message_of_response 1 (fresh standalone_session)
  = Return None
      (mkState standalone_session [EvExecute sample_connection 42 ping_stmt []])
  /\ Ping amd64_unrepresentable parse_error_prefixed exec_success signOut_ok
       no_idle_connection no_new_session clock_100ms wrap_response fmt_verbatim
       code_is_succeeded message_of_response 1
       (fresh (set_connection standalone_session None))
     = Return (Some (PlainError "failed to ping: Session has been released"))
         (fresh (set_connection standalone_session None))
  /\ exists e st',
       Ping amd64_unrepresentable parse_error_prefixed exec_plain_error signOut_ok
         no_idle_connection no_new_session clock_100ms wrap_response fmt_verbatim
         code_is_succeeded message_of_response 3 (fresh standalone_session)
       = Return (Some e) st'.
Proof.
  destruct (ping_outcomes amd64_unrepresentable parse_error_prefixed exec_success
              signOut_ok no_idle_connection no_new_session clock_100ms wrap_response
              fmt_verbatim code_is_succeeded message_of_response 1
              (fresh standalone_session)) as (_ & _ & Hok & _).
  destruct (ping_outcomes amd64_unrepresentable parse_error_prefixed exec_success
              signOut_ok no_idle_connection no_new_session clock_100ms wrap_response
              fmt_verbatim code_is_succeeded message_of_response 1
              (fresh (set_connection standalone_session None))) as (Hreleased & _).
  destruct (ping_outcomes amd64_unrepresentable parse_error_prefixed exec_plain_error
              signOut_ok no_idle_connection no_new_session clock_100ms wrap_response
              fmt_verbatim code_is_succeeded message_of_response 3
              (fresh standalone_session)) as (_ & _ & _ & Herr).
  split; [|split].
  - apply Hok. split; [discriminate|]. eexists. split; reflexivity.
  - apply Hreleased. reflexivity.
  - eexists. eexists.
    apply (Herr None (PlainError "unexpected reply")); [discriminate | reflexivity].
Defined.

(** X16, with a retry bound of 3 and a transport that answers every call
    with a plain error. *)
Lemma retry_loop_outcomes_witness :
  exec_retry_loop exec_plain_error 3 "RETURN 1" [] 0 (fresh standalone_session)
  = Return (None, Some (PlainError "unexpected reply"))
      (mkState standalone_session
         [EvExecute sample_connection 42 "RETURN 1" [];
          EvSleep 5; EvLog LError "start retry, unexpected reply";
          EvExecute sample_connection 42 "RETURN 1" [];
          EvSleep 5; EvLog LError "start retry, unexpected reply";
          EvExecute sample_connection 42 "RETURN 1" []])
  /\ 0 < RetryConfig.MaxTime (retryCfg standalone_session).
Proof.
  assert (Hrun : exec_retry_loop exec_plain_error 3 "RETURN 1" [] 0
                   (fresh standalone_session)
                 = Return (None, Some (PlainError "unexpected reply"))
                     (mkState standalone_session
                        [EvExecute sample_connection 42 "RETURN 1" [];
                         EvSleep 5; EvLog LError "start retry, unexpected reply";
                         EvExecute sample_connection 42 "RETURN 1" [];
                         EvSleep 5; EvLog LError "start retry, unexpected reply";
                         EvExecute sample_connection 42 "RETURN 1" []])).
  { reflexivity. }
  split; [exact Hrun|].
  destruct (proj2 (retry_loop_outcomes exec_plain_error 3 "RETURN 1" [] 0
                     (fresh standalone_session))
              _ _ _ Hrun) as (_ & _ & Hpos).
  apply Hpos. repeat split.
Defined.
